(** * Offline video analysis and cheat detection: a shallow embedding

    The development follows two modules of the mobile application,
    [services/ml/offlineAnalysis.js] and [services/ml/cheatDetection.js].

    JavaScript numbers are modelled by the rationals [Q]: the embedded
    functions compute with [+], [-], [*], [abs], [min], [max], comparisons
    and divisions, and the decisions are those of exact arithmetic.  Where
    the source divides by a count that may be zero, the value that is not
    finite is an [option] or a case of its own.  A value that may be absent
    ([undefined]) is an [option]; a JavaScript exception is the [Throw]
    case of [Outcome]; state that outlives a call (the cache of the
    service, the clock, the random generator) is passed explicitly. *)

From Stdlib Require Import QArith Qminmax Qabs Qround ZArith List String Bool Lia Lqa.
Import ListNotations.
Open Scope Q_scope.

(** ** JavaScript values and control *)

Module Js.

(** [a < b] and [a > b] on numbers. *)
Definition Qltb (a b : Q) : bool := negb (Qle_bool b a).
Definition Qgtb (a b : Q) : bool := Qltb b a.

(** [v || d] where [v] is a number or [undefined]: [undefined] and [0] are
    falsy. *)
Definition orNum (v : option Q) (d : Q) : Q :=
  match v with
  | Some n => if Qeq_bool n 0 then d else n
  | None => d
  end.

(** The exceptions the two modules can raise: [new Error(message)] and the
    runtime's [TypeError] (property of [undefined], call of a missing
    method, [reduce] of an empty array).  Both carry [message]. *)
Inductive Exn : Type :=
| Error (message : string)
| TypeError (message : string).

Definition message (e : Exn) : string :=
  match e with Error m => m | TypeError m => m end.

Inductive Outcome (A : Type) : Type :=
| Return (a : A)
| Throw (e : Exn).
Arguments Return {A} a.
Arguments Throw {A} e.

Definition bindO {A B} (c : Outcome A) (k : A -> Outcome B) : Outcome B :=
  match c with
  | Return a => k a
  | Throw e => Throw e
  end.

(** [arr.reduce((a, b) => a + b)] without an initial value. *)
Definition reduceSum (values : list Q) : Outcome Q :=
  match values with
  | [] => Throw (TypeError "Reduce of empty array with no initial value")
  | v :: rest => Return (fold_left Qplus rest v)
  end.

(** [arr.reduce((s, v) => s + v, 0)]. *)
Definition sumFrom0 (values : list Q) : Q := fold_left Qplus values 0.

Definition lengthQ {A} (l : list A) : Q := inject_Z (Z.of_nat (List.length l)).

(** [values.filter(f).length]. *)
Definition countIf {A} (f : A -> bool) (l : list A) : nat :=
  List.length (filter f l).

(** [Math.max(v, ...rest)] of a non-empty array. *)
Definition maxOf (v : Q) (rest : list Q) : Q := fold_left Qmax rest v.
Definition minOf (v : Q) (rest : list Q) : Q := fold_left Qmin rest v.

(** Differences [a[i] - a[i-1]] for [i = 1 .. length-1]. *)
Fixpoint consecutiveDiffs (a : list Q) : list Q :=
  match a with
  | u :: ((v :: _) as rest) => (v - u) :: consecutiveDiffs rest
  | _ => []
  end.

(** What a call can read besides its arguments: the pseudo-random
    generator behind [Math.random()], the wall clock behind [new Date()],
    and whether the pose detector can be created.  A read of the generator
    or of the clock advances it. *)
Record World : Type := mkWorld {
  randomAt : nat -> Q;
  randomPos : nat;
  clockAt : nat -> Z;
  clockPos : nat;
  detectorLoads : bool
}.

(** Computations that read and write a state [S] and may throw; the state
    at the point of the throw is kept, as mutation is in JavaScript. *)
Definition M (S A : Type) : Type := S -> Outcome A * S.

Definition ret {S A} (a : A) : M S A := fun s => (Return a, s).
Definition throw {S A} (e : Exn) : M S A := fun s => (Throw e, s).
Definition bind {S A B} (c : M S A) (k : A -> M S B) : M S B :=
  fun s => match c s with
           | (Return a, s') => k a s'
           | (Throw e, s') => (Throw e, s')
           end.
(** [try { body } catch (error) { handler(error) }]. *)
Definition tryCatch {S A} (body : M S A) (handler : Exn -> M S A) : M S A :=
  fun s => match body s with
           | (Return a, s') => (Return a, s')
           | (Throw e, s') => handler e s'
           end.
Definition liftO {S A} (o : Outcome A) : M S A := fun s => (o, s).

Definition Math_random : M World Q :=
  fun w => (Return (randomAt w (randomPos w)),
            mkWorld (randomAt w) (S (randomPos w)) (clockAt w) (clockPos w)
                    (detectorLoads w)).

(** [new Date().toISOString()]; the instant stands for its rendering. *)
Definition Date_now : M World Z :=
  fun w => (Return (clockAt w (clockPos w)),
            mkWorld (randomAt w) (randomPos w) (clockAt w) (S (clockPos w))
                    (detectorLoads w)).

End Js.

Declare Scope outcome_scope.
Notation "x <~ c ;; k" := (Js.bindO c (fun x => k))
  (at level 61, c at next level, right associativity) : outcome_scope.
Notation "x <- c ;; k" := (Js.bind c (fun x => k))
  (at level 61, c at next level, right associativity) : outcome_scope.

(** ** cheatDetection.js *)

Module CheatDetection.
Import Js.
Open Scope string_scope.
Open Scope outcome_scope.

(** Fields of the service set by the constructor. *)
Definition maxFrameHistory : nat := 50.
Definition cheatThreshold : Q := 0.7.
Definition frameRate : Q := 30.

Module ColorDistribution.
Record t : Type := mk {
  dominant : Q;  (* the hue h of the string hsl(h, 70%, 50%) *)
  variance : Q;
  saturation : Q
}.
End ColorDistribution.

Record FrameData : Type := mkFrameData {
  brightness : Q;
  contrast : Q;
  edges : Q;
  motion : Q;
  colors : ColorDistribution.t
}.

Record Frame : Type := mkFrame {
  id : nat;
  timestamp : Q;
  data : FrameData
}.

Definition simulateColorDistribution : M World ColorDistribution.t :=
  r1 <- Math_random ;;
  r2 <- Math_random ;;
  r3 <- Math_random ;;
  ret (ColorDistribution.mk (r1 * 360) (r2 * 50) (0.3 + r3 * 0.7)).

Definition simulateFrameData (frameIndex : nat) : M World FrameData :=
  r1 <- Math_random ;;
  r2 <- Math_random ;;
  r3 <- Math_random ;;
  r4 <- Math_random ;;
  c <- simulateColorDistribution ;;
  ret (mkFrameData (0.5 + r1 * 0.5) (0.4 + r2 * 0.6) (r3 * 1000) (r4 * 100) c).

(** The loop [for (let i = 0; i < this.maxFrameHistory; i++)], with [n]
    iterations left. *)
Fixpoint extractFramesLoop (n i : nat) : M World (list Frame) :=
  match n with
  | O => ret []
  | S n' =>
      d <- simulateFrameData i ;;
      rest <- extractFramesLoop n' (S i) ;;
      ret (mkFrame i (inject_Z (Z.of_nat i) * (1000 / frameRate)) d :: rest)
  end.

Definition extractFramesFromVideo (videoUri : string) : M World (list Frame) :=
  tryCatch (extractFramesLoop maxFrameHistory 0)
           (fun _ => throw (Error "Failed to extract frames from video")).

(** [calculateVariance(values, mean = null)]: a [mean] that is [null] or
    [0] is falsy and the average is computed. *)
Definition calculateVariance (values : list Q) (mean : option Q) : Outcome Q :=
  avg <~ match mean with
         | Some m => if Qeq_bool m 0
                     then (s <~ reduceSum values ;; Return (s / lengthQ values))
                     else Return m
         | None => s <~ reduceSum values ;; Return (s / lengthQ values)
         end ;;
  let squaredDiffs := map (fun value => (value - avg) * (value - avg)) values in
  s <~ reduceSum squaredDiffs ;;
  Return (s / lengthQ values).

Module BrightnessConsistency.
Record t : Type := mk {
  isConsistent : bool;
  variance : Q;
  avgBrightness : Q;
  suspiciousFrames : nat
}.
End BrightnessConsistency.

Definition checkBrightnessConsistency (frames : list Frame)
    : Outcome BrightnessConsistency.t :=
  let brightnessValues := map (fun frame => brightness (data frame)) frames in
  s <~ reduceSum brightnessValues ;;
  let avgBrightness := s / lengthQ brightnessValues in
  variance <~ calculateVariance brightnessValues (Some avgBrightness) ;;
  Return (BrightnessConsistency.mk
            (Qltb variance 0.1)
            variance
            avgBrightness
            (countIf (fun b => Qgtb (Qabs (b - avgBrightness)) 0.3)
                     brightnessValues)).

Module FrameRateConsistency.
Record t : Type := mk {
  isConsistent : bool;
  variance : Q;
  avgFrameTime : Q;
  suspiciousDrops : nat
}.
End FrameRateConsistency.

Definition checkFrameRateConsistency (frames : list Frame)
    : Outcome FrameRateConsistency.t :=
  let timeStamps := map timestamp frames in
  let timeDiffs := consecutiveDiffs timeStamps in
  s <~ reduceSum timeDiffs ;;
  let avgDiff := s / lengthQ timeDiffs in
  variance <~ calculateVariance timeDiffs (Some avgDiff) ;;
  Return (FrameRateConsistency.mk
            (Qltb variance 50)
            variance
            avgDiff
            (countIf (fun diff => Qgtb diff (avgDiff * 2)) timeDiffs)).

Module ResolutionConsistency.
Record t : Type := mk {
  isConsistent : bool;
  resolutionChanges : nat;
  suspiciousChanges : list unit
}.
End ResolutionConsistency.

Definition checkResolutionConsistency (frames : list Frame)
    : ResolutionConsistency.t :=
  ResolutionConsistency.mk true 0 [].

(** Own properties of the literal [expectedMotion]. *)
Definition expectedMotionTable (testType : string) : option Q :=
  if String.eqb testType "vertical-jump" then Some 60
  else if String.eqb testType "sit-ups" then Some 40
  else if String.eqb testType "shuttle-run" then Some 80
  else if String.eqb testType "endurance-run" then Some 50
  else if String.eqb testType "height-weight" then Some 5
  else None.

Definition getExpectedMotionForTest (testType : string) : Q :=
  orNum (expectedMotionTable testType) 30.

Module MotionConsistency.
Record t : Type := mk {
  isConsistent : bool;
  avgMotion : Q;
  expectedMotion : Q;
  suspiciousSpikes : nat
}.
End MotionConsistency.

Definition checkMotionConsistency (frames : list Frame) (testType : string)
    : Outcome MotionConsistency.t :=
  let motionValues := map (fun frame => motion (data frame)) frames in
  s <~ reduceSum motionValues ;;
  let avgMotion := s / lengthQ motionValues in
  let expectedMotion := getExpectedMotionForTest testType in
  Return (MotionConsistency.mk
            (Qltb (Qabs (avgMotion - expectedMotion)) 30)
            avgMotion
            expectedMotion
            (countIf (fun m => Qgtb m (avgMotion * 2)) motionValues)).

Module ColorConsistency.
Record t : Type := mk {
  isConsistent : bool;
  avgVariance : Q;
  suspiciousChanges : nat
}.
End ColorConsistency.

Definition checkColorConsistency (frames : list Frame)
    : Outcome ColorConsistency.t :=
  let colorVariances :=
    map (fun frame => ColorDistribution.variance (colors (data frame))) frames in
  s <~ reduceSum colorVariances ;;
  let avgVariance := s / lengthQ colorVariances in
  Return (ColorConsistency.mk
            (Qltb avgVariance 30)
            avgVariance
            (countIf (fun v => Qgtb v (avgVariance * 2)) colorVariances)).

Record FrameAnalysis : Type := mkFrameAnalysis {
  brightnessConsistency : BrightnessConsistency.t;
  frameRateConsistency : FrameRateConsistency.t;
  resolutionConsistency : ResolutionConsistency.t;
  motionConsistency : MotionConsistency.t;
  colorConsistency : ColorConsistency.t
}.

Definition analyzeFrames (frames : list Frame) (testType : string)
    : Outcome FrameAnalysis :=
  b <~ checkBrightnessConsistency frames ;;
  f <~ checkFrameRateConsistency frames ;;
  let r := checkResolutionConsistency frames in
  m <~ checkMotionConsistency frames testType ;;
  c <~ checkColorConsistency frames ;;
  Return (mkFrameAnalysis b f r m c).

Module CompressionArtifacts.
Record t : Type := mk {
  hasArtifacts : bool;
  avgEdges : Q;
  confidence : Q
}.
End CompressionArtifacts.

Definition detectCompressionArtifacts (frames : list Frame)
    : Outcome CompressionArtifacts.t :=
  let edgeValues := map (fun frame => edges (data frame)) frames in
  s <~ reduceSum edgeValues ;;
  let avgEdges := s / lengthQ edgeValues in
  Return (CompressionArtifacts.mk
            (Qltb avgEdges 100)
            avgEdges
            (Qmax 0 (1 - avgEdges / 100))).

Module EdgeInconsistencies.
Record t : Type := mk {
  hasInconsistencies : bool;
  variance : Q;
  confidence : Q
}.
End EdgeInconsistencies.

Definition detectEdgeInconsistencies (frames : list Frame)
    : Outcome EdgeInconsistencies.t :=
  let edgeValues := map (fun frame => edges (data frame)) frames in
  variance <~ calculateVariance edgeValues None ;;
  Return (EdgeInconsistencies.mk
            (Qgtb variance 500)
            variance
            (Qmin 1 (variance / 1000))).

Module MetadataAnomalies.
Record t : Type := mk {
  hasAnomalies : bool;
  anomalies : list string;
  confidence : Q
}.
End MetadataAnomalies.

Definition checkMetadataAnomalies : MetadataAnomalies.t :=
  MetadataAnomalies.mk false [] 0.

Module SuddenChange.
Record t : Type := mk {
  frame : nat;
  change : Q;
  timestamp : Q
}.
End SuddenChange.

(** The loop of [detectSuddenChanges]; [i] is the index of the second
    element of [values]. *)
Fixpoint detectSuddenChangesFrom (i : nat) (values : list Q) (threshold : Q)
    : list SuddenChange.t :=
  match values with
  | u :: ((v :: _) as rest) =>
      let change := Qabs (v - u) in
      if Qgtb change threshold
      then SuddenChange.mk i change (inject_Z (Z.of_nat i) * (1000 / frameRate))
             :: detectSuddenChangesFrom (S i) rest threshold
      else detectSuddenChangesFrom (S i) rest threshold
  | _ => []
  end.

Definition detectSuddenChanges (values : list Q) : list SuddenChange.t :=
  detectSuddenChangesFrom 1 values 0.3.

Module SplicingDetection.
Record t : Type := mk {
  hasSplicing : bool;
  splicePoints : list SuddenChange.t;
  confidence : Q
}.
End SplicingDetection.

Definition detectSplicing (frames : list Frame) : SplicingDetection.t :=
  let brightnessValues := map (fun frame => brightness (data frame)) frames in
  let suddenChanges := detectSuddenChanges brightnessValues in
  SplicingDetection.mk
    (Nat.ltb 2 (List.length suddenChanges))
    suddenChanges
    (Qmin 1 (lengthQ suddenChanges / 5)).

Record ManipulationCheck : Type := mkManipulationCheck {
  compressionArtifacts : CompressionArtifacts.t;
  edgeInconsistencies : EdgeInconsistencies.t;
  metadataAnomalies : MetadataAnomalies.t;
  splicingDetection : SplicingDetection.t
}.

Definition checkVideoManipulation (frames : list Frame)
    : Outcome ManipulationCheck :=
  c <~ detectCompressionArtifacts frames ;;
  e <~ detectEdgeInconsistencies frames ;;
  let m := checkMetadataAnomalies in
  let s := detectSplicing frames in
  Return (mkManipulationCheck c e m s).

Record MovementDatum : Type := mkMovementDatum {
  md_motion : Q;
  md_timestamp : Q
}.

Definition extractMovementData (frames : list Frame) : list MovementDatum :=
  map (fun frame => mkMovementDatum (motion (data frame)) (timestamp frame)) frames.

(** Own properties of the literal [patterns]. *)
Definition patternsTable (testType : string) : option string :=
  if String.eqb testType "vertical-jump" then Some "burst"
  else if String.eqb testType "sit-ups" then Some "repetitive"
  else if String.eqb testType "shuttle-run" then Some "back-and-forth"
  else if String.eqb testType "endurance-run" then Some "steady"
  else if String.eqb testType "height-weight" then Some "static"
  else None.

Definition getExpectedPattern (testType : string) : string :=
  match patternsTable testType with
  | Some p => p
  | None => "unknown"
  end.

Record Peak : Type := mkPeak { index : nat; value : Q }.

(** The loop of [findPeaks]; [i] is the index of the second element of
    [values]. *)
Fixpoint findPeaksFrom (i : nat) (values : list Q) (threshold : Q) : list Peak :=
  match values with
  | u :: ((v :: w :: _) as rest) =>
      if Qgtb v u && Qgtb v w && Qgtb v threshold
      then mkPeak i v :: findPeaksFrom (S i) rest threshold
      else findPeaksFrom (S i) rest threshold
  | _ => []
  end.

Definition findPeaks (values : list Q) : list Peak :=
  findPeaksFrom 1 values 0.3.

Definition isRegularSpacing (peaks : list Peak) : Outcome bool :=
  if Nat.ltb (List.length peaks) 2 then Return false
  else
    let spacings :=
      consecutiveDiffs (map (fun p => inject_Z (Z.of_nat (index p))) peaks) in
    s <~ reduceSum spacings ;;
    let avgSpacing := s / lengthQ spacings in
    Return (forallb (fun sp => Qltb (Qabs (sp - avgSpacing) / avgSpacing) 0.2)
                    spacings).

Definition hasRepetitivePattern (values : list Q) : Outcome bool :=
  let peaks := findPeaks values in
  if Nat.ltb 3 (List.length peaks) then isRegularSpacing peaks
  else Return false.

Definition hasBurstPattern (values : list Q) : Outcome bool :=
  match values with
  | [] => Throw (TypeError "Reduce of empty array with no initial value")
  | v :: rest =>
      let maxMotion := maxOf v rest in
      s <~ reduceSum values ;;
      let avgMotion := s / lengthQ values in
      Return (Qgtb maxMotion (avgMotion * 3))
  end.

(** The loop of [findAlternatingPattern]; [i] is the index of the second
    element of [values]. *)
Fixpoint findAlternatingPatternFrom (i : nat) (values : list Q) : list nat :=
  match values with
  | u :: ((v :: _) as rest) =>
      if (Qgtb v u && Nat.eqb (Nat.modulo i 2) 0)
         || (Qltb v u && Nat.eqb (Nat.modulo i 2) 1)
      then i :: findAlternatingPatternFrom (S i) rest
      else findAlternatingPatternFrom (S i) rest
  | _ => []
  end.

Definition findAlternatingPattern (values : list Q) : list nat :=
  findAlternatingPatternFrom 1 values.

Definition hasBackAndForthPattern (values : list Q) : bool :=
  let alternating := findAlternatingPattern values in
  Nat.ltb 4 (List.length alternating).

Definition hasSteadyPattern (values : list Q) : Outcome bool :=
  variance <~ calculateVariance values None ;;
  Return (Qltb variance 100 && forallb (fun v => Qgtb v 20) values).

Definition identifyPattern (movementData : list MovementDatum) : Outcome string :=
  let motionValues := map md_motion movementData in
  s <~ reduceSum motionValues ;;
  let avgMotion := s / lengthQ motionValues in
  if Qltb avgMotion 10 then Return "static"
  else
    rep <~ hasRepetitivePattern motionValues ;;
    if rep then Return "repetitive"
    else
      burst <~ hasBurstPattern motionValues ;;
      if burst then Return "burst"
      else if hasBackAndForthPattern motionValues then Return "back-and-forth"
      else
        steady <~ hasSteadyPattern motionValues ;;
        if steady then Return "steady" else Return "unknown".

Definition patternsMatch (expected actual : string) : bool :=
  String.eqb expected actual.

Definition calculatePatternMatchConfidence (expected actual : string) : Q :=
  if String.eqb expected actual then 1 else 0.

Module PatternConsistency.
Record t : Type := mk {
  isConsistent : bool;
  expectedPattern : string;
  actualPattern : string;
  confidence : Q
}.
End PatternConsistency.

Definition checkPatternConsistency (movementData : list MovementDatum)
    (testType : string) : Outcome PatternConsistency.t :=
  let expectedPattern := getExpectedPattern testType in
  actualPattern <~ identifyPattern movementData ;;
  Return (PatternConsistency.mk
            (patternsMatch expectedPattern actualPattern)
            expectedPattern
            actualPattern
            (calculatePatternMatchConfidence expectedPattern actualPattern)).

(** [this.detectRepetitions(movementData, testType)]: the class defines no
    method of that name, so the call raises a [TypeError]. *)
Definition detectRepetitions (movementData : list MovementDatum)
    (testType : string) : Outcome unit :=
  Throw (TypeError "this.detectRepetitions is not a function").

Fixpoint calculateSpeeds (movementData : list MovementDatum) : list Q :=
  match movementData with
  | prev :: ((curr :: _) as rest) =>
      let timeDiff := md_timestamp curr - md_timestamp prev in
      let motionDiff := Qabs (md_motion curr - md_motion prev) in
      if Qgtb timeDiff 0
      then (motionDiff / timeDiff) :: calculateSpeeds rest
      else calculateSpeeds rest
  | _ => []
  end.

Module SpeedConsistency.
Record t : Type := mk {
  isConsistent : bool;
  avgSpeed : Q;
  variance : Q;
  confidence : Q
}.
End SpeedConsistency.

Definition checkSpeedConsistency (movementData : list MovementDatum)
    : Outcome SpeedConsistency.t :=
  let speeds := calculateSpeeds movementData in
  s <~ reduceSum speeds ;;
  let avgSpeed := s / lengthQ speeds in
  variance <~ calculateVariance speeds (Some avgSpeed) ;;
  Return (SpeedConsistency.mk
            (Qltb variance 50)
            avgSpeed
            variance
            (Qmax 0 (1 - variance / 100))).

Module AccelerationPatterns.
Record t : Type := mk {
  avgAcceleration : Q;
  maxAcceleration : Q;
  isNatural : bool;
  confidence : Q
}.
End AccelerationPatterns.

Definition analyzeAcceleration (movementData : list MovementDatum)
    : Outcome AccelerationPatterns.t :=
  let speeds := calculateSpeeds movementData in
  let accelerations := consecutiveDiffs speeds in
  s <~ reduceSum accelerations ;;
  let avgAcceleration := s / lengthQ accelerations in
  match accelerations with
  | [] => Throw (TypeError "Reduce of empty array with no initial value")
  | a :: rest =>
      let maxAcceleration := maxOf a rest in
      Return (AccelerationPatterns.mk
                avgAcceleration
                maxAcceleration
                (Qltb maxAcceleration 10)
                (Qmax 0 (1 - maxAcceleration / 20)))
  end.

Record MovementPatternAnalysis : Type := mkMovementPatternAnalysis {
  patternConsistency : PatternConsistency.t;
  repetitionDetection : unit;
  speedConsistency : SpeedConsistency.t;
  accelerationPatterns : AccelerationPatterns.t
}.

Definition analyzeMovementPatterns (frames : list Frame) (testType : string)
    : Outcome MovementPatternAnalysis :=
  let movementData := extractMovementData frames in
  p <~ checkPatternConsistency movementData testType ;;
  r <~ detectRepetitions movementData testType ;;
  s <~ checkSpeedConsistency movementData ;;
  a <~ analyzeAcceleration movementData ;;
  Return (mkMovementPatternAnalysis p r s a).

Module MultiplePeople.
Record t : Type := mk {
  hasMultiplePeople : bool;
  personCount : nat;
  confidence : Q
}.
End MultiplePeople.

Definition detectMultiplePeople (frames : list Frame) : MultiplePeople.t :=
  MultiplePeople.mk false 1 0.9.

Module SuspiciousObjects.
Record t : Type := mk {
  hasSuspiciousObjects : bool;
  detectedObjects : list string;
  confidence : Q
}.
End SuspiciousObjects.

Definition detectSuspiciousObjects (frames : list Frame) : SuspiciousObjects.t :=
  SuspiciousObjects.mk false [] 0.8.

Module AudioAnalysis.
Record t : Type := mk {
  hasExternalAudio : bool;
  audioAnalysis : string;
  confidence : Q
}.
End AudioAnalysis.

Definition analyzeAudioForAssistance : AudioAnalysis.t :=
  AudioAnalysis.mk false "clear" 0.7.

Module EnvironmentConsistency.
Record t : Type := mk {
  isConsistent : bool;
  avgVariance : Q;
  confidence : Q
}.
End EnvironmentConsistency.

Definition checkEnvironmentConsistency (frames : list Frame)
    : Outcome EnvironmentConsistency.t :=
  let colorVariances :=
    map (fun frame => ColorDistribution.variance (colors (data frame))) frames in
  s <~ reduceSum colorVariances ;;
  let avgVariance := s / lengthQ colorVariances in
  Return (EnvironmentConsistency.mk
            (Qltb avgVariance 30)
            avgVariance
            (Qmax 0 (1 - avgVariance / 50))).

Record AssistanceCheck : Type := mkAssistanceCheck {
  multiplePeople : MultiplePeople.t;
  objectDetection : SuspiciousObjects.t;
  audioAnalysis : AudioAnalysis.t;
  environmentalConsistency : EnvironmentConsistency.t
}.

Definition checkExternalAssistance (frames : list Frame)
    : Outcome AssistanceCheck :=
  let m := detectMultiplePeople frames in
  let o := detectSuspiciousObjects frames in
  let a := analyzeAudioForAssistance in
  e <~ checkEnvironmentConsistency frames ;;
  Return (mkAssistanceCheck m o a e).

Module Combined.
Record t : Type := mk {
  suspicionScore : Q;
  issues : list string;
  recommendations : list string
}.
End Combined.

(** The running [totalSuspicionScore], [issues] and [recommendations] of
    [combineAnalysisResults]. *)
Record Tally : Type := mkTally {
  totalSuspicionScore : Q;
  tallyIssues : list string;
  tallyRecommendations : list string
}.

(** One [if (cond) { totalSuspicionScore += w; issues.push(..);
    recommendations.push(..); }] block. *)
Definition scoreIf (cond : bool) (w : Q) (issue recommendation : string)
    (t : Tally) : Tally :=
  if cond
  then mkTally (totalSuspicionScore t + w)
               (tallyIssues t ++ [issue])
               (tallyRecommendations t ++ [recommendation])
  else t.

Definition combineTally (frameAnalysis : FrameAnalysis)
    (manipulationCheck : ManipulationCheck)
    (movementPatternAnalysis : MovementPatternAnalysis)
    (assistanceCheck : AssistanceCheck) : Tally :=
  let t := mkTally 0 [] [] in
  let t := scoreIf
    (negb (BrightnessConsistency.isConsistent (brightnessConsistency frameAnalysis)))
    0.15 "Inconsistent lighting detected"
    "Ensure consistent lighting throughout the recording" t in
  let t := scoreIf
    (negb (FrameRateConsistency.isConsistent (frameRateConsistency frameAnalysis)))
    0.1 "Frame rate inconsistencies detected"
    "Record in a single continuous take" t in
  let t := scoreIf
    (CompressionArtifacts.hasArtifacts (compressionArtifacts manipulationCheck))
    0.2 "Video compression artifacts detected"
    "Avoid editing or re-compressing the video" t in
  let t := scoreIf
    (SplicingDetection.hasSplicing (splicingDetection manipulationCheck))
    0.3 "Video splicing detected"
    "Record the entire test in one continuous take" t in
  let t := scoreIf
    (negb (PatternConsistency.isConsistent (patternConsistency movementPatternAnalysis)))
    0.15 "Movement pattern inconsistencies"
    "Follow the test instructions carefully" t in
  let t := scoreIf
    (MultiplePeople.hasMultiplePeople (multiplePeople assistanceCheck))
    0.25 "Multiple people detected in video"
    "Ensure only the test taker is visible" t in
  let t := scoreIf
    (negb (EnvironmentConsistency.isConsistent (environmentalConsistency assistanceCheck)))
    0.1 "Environment inconsistencies detected"
    "Record in a single location" t in
  t.

Definition combineAnalysisResults (frameAnalysis : FrameAnalysis)
    (manipulationCheck : ManipulationCheck)
    (movementPatternAnalysis : MovementPatternAnalysis)
    (assistanceCheck : AssistanceCheck) : Combined.t :=
  let t := combineTally frameAnalysis manipulationCheck
                        movementPatternAnalysis assistanceCheck in
  Combined.mk
    (Qmin 1 (totalSuspicionScore t))
    (tallyIssues t)
    (match tallyRecommendations t with
     | [] => ["Video analysis completed successfully"]
     | _ => tallyRecommendations t
     end).

Record DetailedAnalysis : Type := mkDetailedAnalysis {
  da_frameAnalysis : FrameAnalysis;
  da_manipulationCheck : ManipulationCheck;
  da_movementPatternAnalysis : MovementPatternAnalysis;
  da_assistanceCheck : AssistanceCheck
}.

(** The object [detectCheatAttempts] resolves to; [detailedAnalysis] is
    present on the normal path and [error] on the [catch] path. *)
Module CheatAnalysis.
Record t : Type := mk {
  isSuspicious : bool;
  suspicionScore : Q;
  detectedIssues : list string;
  recommendations : list string;
  detailedAnalysis : option DetailedAnalysis;
  error : option string
}.
End CheatAnalysis.

(** The [try] block of [detectCheatAttempts]. *)
Definition detectCheatAttemptsTry (videoUri testType : string)
    : M World CheatAnalysis.t :=
  frames <- extractFramesFromVideo videoUri ;;
  frameAnalysis <- liftO (analyzeFrames frames testType) ;;
  manipulationCheck <- liftO (checkVideoManipulation frames) ;;
  movementPatternAnalysis <- liftO (analyzeMovementPatterns frames testType) ;;
  assistanceCheck <- liftO (checkExternalAssistance frames) ;;
  let finalResults :=
    combineAnalysisResults frameAnalysis manipulationCheck
                           movementPatternAnalysis assistanceCheck in
  ret (CheatAnalysis.mk
         (Qgtb (Combined.suspicionScore finalResults) cheatThreshold)
         (Combined.suspicionScore finalResults)
         (Combined.issues finalResults)
         (Combined.recommendations finalResults)
         (Some (mkDetailedAnalysis frameAnalysis manipulationCheck
                                   movementPatternAnalysis assistanceCheck))
         None).

(** The [catch] block of [detectCheatAttempts]. *)
Definition detectCheatAttemptsCatch (error : Exn) : M World CheatAnalysis.t :=
  ret (CheatAnalysis.mk
         false
         0
         ["Analysis failed"]
         ["Please try recording again"]
         None
         (Some (message error))).

Definition detectCheatAttempts (videoUri testType : string)
    : M World CheatAnalysis.t :=
  tryCatch (detectCheatAttemptsTry videoUri testType) detectCheatAttemptsCatch.

End CheatDetection.

(** ** offlineAnalysis.js *)

Module OfflineAnalysis.
Import Js.
Open Scope string_scope.
Open Scope outcome_scope.

Record Point : Type := mkPoint { px : Q; py : Q }.

(** The keypoints the analysis reads after pose detection. *)
Record Keypoints : Type := mkKeypoints {
  leftShoulder : option Point;
  leftHip : option Point
}.

Record BodyAngles : Type := mkBodyAngles {
  leftElbow : option Q;
  rightElbow : option Q;
  leftKnee : option Q;
  rightKnee : option Q
}.

(** One element of [poseData], as built by [analyzePoses]. *)
Record PoseAnalysis : Type := mkPose {
  frameId : nat;
  timestamp : Q;
  keypoints : Keypoints;
  poseScore : Q;
  bodyAngles : BodyAngles;
  centerOfMass : Point
}.

Record Phase : Type := mkPhase {
  phase : string;
  startFrame : nat;
  endFrame : nat;
  duration : Q
}.

(** [poseData[i].timestamp] for an index inside the array. *)
Definition timestampAt (poseData : list PoseAnalysis) (i : nat) : Q :=
  match nth_error poseData i with
  | Some p => timestamp p
  | None => 0
  end.

(** [currPose.bodyAngles[angleKey]] with
    [angleKey = testType === 'sit-ups' ? 'leftKnee' : 'leftElbow']. *)
Definition repetitionAngle (testType : string) (currPose : PoseAnalysis) : option Q :=
  if String.eqb testType "sit-ups" then leftKnee (bodyAngles currPose)
  else leftElbow (bodyAngles currPose).

(** The [for] loop of [identifyRepetitivePhases], from index [i] on;
    [rest] is [poseData.slice(i)]. *)
Fixpoint repetitiveLoop (poseData : list PoseAnalysis) (testType : string)
    (rest : list PoseAnalysis) (i : nat) (isUpPhase : bool) (phaseStart : nat)
    : list Phase :=
  match rest with
  | [] => []
  | currPose :: rest' =>
      let angle := orNum (repetitionAngle testType currPose) 90 in
      if isUpPhase && Qltb angle 60 then
        mkPhase "down" phaseStart i
          ((timestamp currPose - timestampAt poseData phaseStart) / 1000)
          :: repetitiveLoop poseData testType rest' (S i) false i
      else if negb isUpPhase && Qgtb angle 120 then
        mkPhase "up" phaseStart i
          ((timestamp currPose - timestampAt poseData phaseStart) / 1000)
          :: repetitiveLoop poseData testType rest' (S i) true i
      else repetitiveLoop poseData testType rest' (S i) isUpPhase phaseStart
  end.

Definition identifyRepetitivePhases (poseData : list PoseAnalysis)
    (testType : string) : list Phase :=
  repetitiveLoop poseData testType (tl poseData) 1 true 0.

Definition countRepetitiveMovements (poseData : list PoseAnalysis)
    (testType : string) : nat :=
  let phases := identifyRepetitivePhases poseData testType in
  Nat.div (List.length phases) 2.

(** [['sit-ups', 'push-ups'].includes(testType)]. *)
Definition isRepetitive (testType : string) : bool :=
  String.eqb testType "sit-ups" || String.eqb testType "push-ups".

Definition countRepetitions (poseData : list PoseAnalysis)
    (testType : string) : nat :=
  if isRepetitive testType then countRepetitiveMovements poseData testType
  else 1%nat.

Definition getKneeAngleChange (prevPose currPose : PoseAnalysis) : Q :=
  let prevAngle := orNum (leftKnee (bodyAngles prevPose)) 90 in
  let currAngle := orNum (leftKnee (bodyAngles currPose)) 90 in
  Qabs (currAngle - prevAngle).

Definition getCenterOfMassChange (prevPose currPose : PoseAnalysis) : Q :=
  let prevCOM := py (centerOfMass prevPose) in
  let currCOM := py (centerOfMass currPose) in
  currCOM - prevCOM.

(** The [for] loop of [identifyJumpPhases], from index [i] on; [prevPose]
    is [poseData[i - 1]] and [rest] is [poseData.slice(i)]. *)
Fixpoint jumpLoop (poseData : list PoseAnalysis) (prevPose : PoseAnalysis)
    (rest : list PoseAnalysis) (i : nat) (currentPhase : string)
    (phaseStart : nat) : list Phase :=
  match rest with
  | [] => []
  | currPose :: rest' =>
      let kneeAngleChange := getKneeAngleChange prevPose currPose in
      let centerOfMassChange := getCenterOfMassChange prevPose currPose in
      let d := (timestamp currPose - timestampAt poseData phaseStart) / 1000 in
      if String.eqb currentPhase "standing" && Qgtb kneeAngleChange 20 then
        mkPhase "crouch" phaseStart i d
          :: jumpLoop poseData currPose rest' (S i) "crouch" i
      else if String.eqb currentPhase "crouch" && Qgtb centerOfMassChange 0.1 then
        mkPhase "jump" phaseStart i d
          :: jumpLoop poseData currPose rest' (S i) "jump" i
      else if String.eqb currentPhase "jump" && Qltb centerOfMassChange (-0.05) then
        mkPhase "landing" phaseStart i d
          :: jumpLoop poseData currPose rest' (S i) "landing" i
      else jumpLoop poseData currPose rest' (S i) currentPhase phaseStart
  end.

Definition identifyJumpPhases (poseData : list PoseAnalysis) : list Phase :=
  match poseData with
  | [] => []
  | first :: rest => jumpLoop poseData first rest 1 "standing" 0
  end.

(** [identifyShuttlePhases], [identifyRunningPhases] and
    [identifyGenericPhases] are called but the class defines none of them:
    each call raises a [TypeError]. *)
Definition identifyMovementPhases (poseData : list PoseAnalysis)
    (testType : string) : Outcome (list Phase) :=
  if String.eqb testType "vertical-jump" then
    Return (identifyJumpPhases poseData)
  else if String.eqb testType "sit-ups" || String.eqb testType "push-ups" then
    Return (identifyRepetitivePhases poseData testType)
  else if String.eqb testType "shuttle-run" then
    Throw (TypeError "this.identifyShuttlePhases is not a function")
  else if String.eqb testType "endurance-run" then
    Throw (TypeError "this.identifyRunningPhases is not a function")
  else
    Throw (TypeError "this.identifyGenericPhases is not a function").

Definition calculateVariance (values : list Q) (mean : option Q) : Outcome Q :=
  avg <~ match mean with
         | Some m => if Qeq_bool m 0
                     then (s <~ reduceSum values ;; Return (s / lengthQ values))
                     else Return m
         | None => s <~ reduceSum values ;; Return (s / lengthQ values)
         end ;;
  let squaredDiffs := map (fun value => (value - avg) * (value - avg)) values in
  s <~ reduceSum squaredDiffs ;;
  Return (s / lengthQ values).

(** On an empty [poseData] the average is [0 / 0], not a number, and the
    comparison with [90] is false. *)
Definition assessSitUpForm (poseData : list PoseAnalysis) : Q :=
  match poseData with
  | [] => 0.7
  | _ =>
      let avgKneeAngle :=
        sumFrom0 (map (fun p => orNum (leftKnee (bodyAngles p)) 90) poseData)
        / lengthQ poseData in
      if Qltb avgKneeAngle 90 then 1.0 else 0.7
  end.

(** [pose.keypoints.leftShoulder.y] and [pose.keypoints.leftHip.y]. *)
Definition keypointY (k : option Point) : Outcome Q :=
  match k with
  | Some p => Return (py p)
  | None => Throw (TypeError "Cannot read properties of undefined (reading 'y')")
  end.

Fixpoint pushUpLoop (poses : list PoseAnalysis) (straightBodyScore : Q)
    : Outcome Q :=
  match poses with
  | [] => Return straightBodyScore
  | pose :: rest =>
      ys <~ keypointY (leftShoulder (keypoints pose)) ;;
      yh <~ keypointY (leftHip (keypoints pose)) ;;
      let shoulderHipDiff := Qabs (ys - yh) in
      if Qgtb shoulderHipDiff 0.1
      then pushUpLoop rest (straightBodyScore - 0.1)
      else pushUpLoop rest straightBodyScore
  end.

Definition assessPushUpForm (poseData : list PoseAnalysis) : Outcome Q :=
  s <~ pushUpLoop poseData 1.0 ;;
  Return (Qmax 0 s).

Definition assessJumpForm (poseData : list PoseAnalysis) : Q :=
  let phases := identifyJumpPhases poseData in
  if Nat.leb 3 (List.length phases) then 1.0 else 0.5.

Definition assessForm (poseData : list PoseAnalysis) (testType : string)
    : Outcome Q :=
  if String.eqb testType "sit-ups" then Return (assessSitUpForm poseData)
  else if String.eqb testType "push-ups" then assessPushUpForm poseData
  else if String.eqb testType "vertical-jump" then Return (assessJumpForm poseData)
  else Return 1.0.

Definition assessConsistency (poseData : list PoseAnalysis) (testType : string)
    : Outcome Q :=
  if isRepetitive testType then
    let phases := identifyRepetitivePhases poseData testType in
    let durations := map duration phases in
    variance <~ calculateVariance durations None ;;
    Return (if Qltb variance 0.5 then 1.0 else 0.7)
  else Return 1.0.

(** [Math.max()] of no argument is [-Infinity] and [Math.min()] is
    [Infinity]. *)
Definition assessRangeOfMotion (poseData : list PoseAnalysis)
    (testType : string) : Q :=
  if String.eqb testType "sit-ups" then
    match map (fun p => orNum (leftKnee (bodyAngles p)) 90) poseData with
    | [] => 1.0
    | a :: rest => if Qltb (maxOf a rest) 45 then 1.0 else 0.8
    end
  else if String.eqb testType "push-ups" then
    match map (fun p => orNum (leftElbow (bodyAngles p)) 90) poseData with
    | [] => 0.7
    | a :: rest => if Qltb (minOf a rest) 60 then 1.0 else 0.7
    end
  else 1.0.

(** [poseData[poseData.length - 1].timestamp - poseData[0].timestamp]. *)
Definition totalDurationOf (poseData : list PoseAnalysis) : Outcome Q :=
  match poseData with
  | [] => Throw (TypeError "Cannot read properties of undefined (reading 'timestamp')")
  | first :: _ => Return (timestamp (last poseData first) - timestamp first)
  end.

(** Own properties of the literal [expectedDurations]. *)
Definition expectedDurations (testType : string) : option Q :=
  if String.eqb testType "vertical-jump" then Some 2000
  else if String.eqb testType "sit-ups" then Some 30000
  else if String.eqb testType "push-ups" then Some 30000
  else if String.eqb testType "shuttle-run" then Some 20000
  else if String.eqb testType "endurance-run" then Some 180000
  else None.

Definition assessTiming (poseData : list PoseAnalysis) (testType : string)
    : Outcome Q :=
  totalDuration <~ totalDurationOf poseData ;;
  let expected := orNum (expectedDurations testType) 10000 in
  let ratio := totalDuration / expected in
  Return (if Qgtb ratio 0.5 && Qltb ratio 2.0 then 1.0 else 0.8).

Module Scores.
Record t : Type := mk {
  form : Q;
  consistency : Q;
  rangeOfMotion : Q;
  timing : Q
}.
End Scores.

Module MovementQuality.
Record t : Type := mk {
  overallScore : Q;
  detailedScores : Scores.t;
  quality : string
}.
End MovementQuality.

Definition assessMovementQuality (poseData : list PoseAnalysis)
    (testType : string) : Outcome MovementQuality.t :=
  form <~ assessForm poseData testType ;;
  consistency <~ assessConsistency poseData testType ;;
  let rangeOfMotion := assessRangeOfMotion poseData testType in
  timing <~ assessTiming poseData testType ;;
  let scores := Scores.mk form consistency rangeOfMotion timing in
  let overallScore := (form + consistency + rangeOfMotion + timing) / 4 in
  Return (MovementQuality.mk
            overallScore
            scores
            (if Qgtb overallScore 0.8 then "excellent"
             else if Qgtb overallScore 0.6 then "good"
             else "needs-improvement")).

(** [avgFrameInterval] is [0 / 0] for a single pose; [None] stands for
    that value. *)
Module TimingAnalysis.
Record t : Type := mk {
  totalDuration : Q;
  avgFrameInterval : option Q
}.
End TimingAnalysis.

Definition calculateAvgFrameInterval (poseData : list PoseAnalysis) : option Q :=
  let totalInterval := sumFrom0 (consecutiveDiffs (map timestamp poseData)) in
  match poseData with
  | [_] => None
  | _ => Some (totalInterval / (lengthQ poseData - 1))
  end.

Definition analyzeTiming (poseData : list PoseAnalysis) (testType : string)
    : Outcome TimingAnalysis.t :=
  totalDuration <~ totalDurationOf poseData ;;
  Return (TimingAnalysis.mk totalDuration (calculateAvgFrameInterval poseData)).

Module MovementAnalysis.
Record t : Type := mk {
  testType : string;
  totalFrames : nat;
  avgPoseScore : Q;
  keyMovementPhases : list Phase;
  repetitionCount : nat;
  movementQuality : MovementQuality.t;
  timingAnalysis : TimingAnalysis.t
}.
End MovementAnalysis.

(** On an empty [poseData] the average pose score is [0 / 0]; the timing
    assessment then throws, so that value is never returned. *)
Definition analyzeMovement (poseData : list PoseAnalysis) (testType : string)
    : Outcome MovementAnalysis.t :=
  let avgPoseScore := sumFrom0 (map poseScore poseData) / lengthQ poseData in
  phases <~ identifyMovementPhases poseData testType ;;
  let repetitionCount := countRepetitions poseData testType in
  movementQuality <~ assessMovementQuality poseData testType ;;
  timingAnalysis <~ analyzeTiming poseData testType ;;
  Return (MovementAnalysis.mk testType (List.length poseData) avgPoseScore
            phases repetitionCount movementQuality timingAnalysis).

(** [Math.round]: the nearest integer, halves upwards. *)
Definition Math_round (v : Q) : Q := inject_Z (Qfloor (v + 0.5)).

Definition natQ (n : nat) : Q := inject_Z (Z.of_nat n).

Definition calculatePerformanceScore (movementAnalysis : MovementAnalysis.t)
    (testType : string) : Q :=
  let overall :=
    MovementQuality.overallScore (MovementAnalysis.movementQuality movementAnalysis) in
  let score :=
    if String.eqb testType "sit-ups" || String.eqb testType "push-ups"
    then natQ (MovementAnalysis.repetitionCount movementAnalysis) * overall
    else if String.eqb testType "vertical-jump" then overall * 100
    else overall * 50 in
  Math_round (score * 10) / 10.

(** [phases.find(p => p.phase === 'jump')]. *)
Definition findJumpPhase (phases : list Phase) : option Phase :=
  find (fun p => String.eqb (phase p) "jump") phases.

Definition estimateJumpHeight (movementAnalysis : MovementAnalysis.t) : Q :=
  match findJumpPhase (MovementAnalysis.keyMovementPhases movementAnalysis) with
  | Some jumpPhase => Math_round (duration jumpPhase * 50)
  | None => 30
  end.

Definition estimateHangTime (movementAnalysis : MovementAnalysis.t) : Q :=
  match findJumpPhase (MovementAnalysis.keyMovementPhases movementAnalysis) with
  | Some jumpPhase => duration jumpPhase / 1000
  | None => 0.5
  end.

(** The object [extractKeyMetrics] builds.  A division by a zero count
    gives a value that is not finite; [None] stands for it. *)
Inductive KeyMetrics : Type :=
| SitUpMetrics (repetitions : nat) (avgDurationPerRep : option Q)
| JumpMetrics (jumpHeight hangTime : Q)
| ShuttleMetrics (lapsCompleted : nat) (avgLapTime : option Q)
| NoMetrics.

Definition estimateShuttleLaps (movementAnalysis : MovementAnalysis.t) : nat :=
  Nat.div (MovementAnalysis.repetitionCount movementAnalysis) 2.

Definition divByCount (v : Q) (n : nat) : option Q :=
  match n with
  | O => None
  | _ => Some (v / natQ n)
  end.

Definition extractKeyMetrics (movementAnalysis : MovementAnalysis.t)
    (testType : string) : KeyMetrics :=
  let total :=
    TimingAnalysis.totalDuration (MovementAnalysis.timingAnalysis movementAnalysis) in
  if String.eqb testType "sit-ups" then
    SitUpMetrics (MovementAnalysis.repetitionCount movementAnalysis)
      (divByCount total (MovementAnalysis.repetitionCount movementAnalysis))
  else if String.eqb testType "vertical-jump" then
    JumpMetrics (estimateJumpHeight movementAnalysis)
                (estimateHangTime movementAnalysis)
  else if String.eqb testType "shuttle-run" then
    ShuttleMetrics (estimateShuttleLaps movementAnalysis)
      (divByCount total (estimateShuttleLaps movementAnalysis))
  else NoMetrics.

Module PerformanceMetrics.
Record t : Type := mk {
  testType : string;
  repetitionCount : nat;
  movementQuality : Q;
  totalDuration : Q;
  performanceScore : Q;
  keyMetrics : KeyMetrics;
  techniqueScore : Q
}.
End PerformanceMetrics.

Definition calculatePerformance (movementAnalysis : MovementAnalysis.t)
    (testType : string) : PerformanceMetrics.t :=
  let overall :=
    MovementQuality.overallScore (MovementAnalysis.movementQuality movementAnalysis) in
  PerformanceMetrics.mk
    testType
    (MovementAnalysis.repetitionCount movementAnalysis)
    overall
    (TimingAnalysis.totalDuration (MovementAnalysis.timingAnalysis movementAnalysis))
    (calculatePerformanceScore movementAnalysis testType)
    (extractKeyMetrics movementAnalysis testType)
    overall.

(** [userProfile]: an object whose [age] and [gender] may be missing. *)
Record UserProfile : Type := mkUserProfile {
  age : option Q;
  gender : option string
}.

(** [age < 13] and the like are false when [age] is [undefined]. *)
Definition ageBelow (a : option Q) (bound : Q) : bool :=
  match a with
  | Some v => Qltb v bound
  | None => false
  end.

Definition determineAgeGroup (a : option Q) : string :=
  if ageBelow a 13 then "under-13"
  else if ageBelow a 16 then "13-15"
  else if ageBelow a 19 then "16-18"
  else if ageBelow a 25 then "19-24"
  else "25-plus".

(** [userProfile.gender || 'male']: the empty string is falsy too. *)
Definition genderOrMale (g : option string) : string :=
  match g with
  | Some s => if String.eqb s EmptyString then "male" else s
  | None => "male"
  end.

Record Norms : Type := mkNorms {
  poor : Q;
  average : Q;
  good : Q;
  excellent : Q
}.

Definition getPerformanceNorms (testType ageGroup gender : string) : Norms :=
  if String.eqb testType "sit-ups" then mkNorms 10 20 30 40
  else if String.eqb testType "push-ups" then mkNorms 5 15 25 35
  else if String.eqb testType "vertical-jump" then mkNorms 30 40 50 60
  else mkNorms 20 50 70 90.

Definition getPercentileCategory (score : Q) (norms : Norms) : string :=
  if Qle_bool (excellent norms) score then "excellent"
  else if Qle_bool (good norms) score then "good"
  else if Qle_bool (average norms) score then "average"
  else "needs-improvement".

Module Percentiles.
Record t : Type := mk {
  overall : Q;
  category : string
}.
End Percentiles.

Definition calculatePercentiles (metrics : PerformanceMetrics.t)
    (userProfile : UserProfile) : Percentiles.t :=
  let ageGroup := determineAgeGroup (age userProfile) in
  let gender := genderOrMale (gender userProfile) in
  let norms :=
    getPerformanceNorms (PerformanceMetrics.testType metrics) ageGroup gender in
  let score := PerformanceMetrics.performanceScore metrics in
  Percentiles.mk
    (Qmin 100 (Qmax 0 (score / excellent norms * 100)))
    (getPercentileCategory score norms).

Definition getSkillLevel (percentile : Q) : string :=
  if Qle_bool 90 percentile then "elite"
  else if Qle_bool 75 percentile then "advanced"
  else if Qle_bool 50 percentile then "intermediate"
  else "beginner".

Module Rating.
Record t : Type := mk {
  overall : string;
  score : Q;
  percentile : Q;
  level : string
}.
End Rating.

Definition calculateRating (metrics : PerformanceMetrics.t)
    (userProfile : UserProfile) : Rating.t :=
  let percentiles := calculatePercentiles metrics userProfile in
  Rating.mk
    (Percentiles.category percentiles)
    (PerformanceMetrics.performanceScore metrics)
    (Percentiles.overall percentiles)
    (getSkillLevel (Percentiles.overall percentiles)).

Definition generateBenchmarkRecommendations (metrics : PerformanceMetrics.t)
    (userProfile : UserProfile) : list string :=
  let rating := calculateRating metrics userProfile in
  if String.eqb (Rating.overall rating) "excellent"
  then ["Excellent performance! Consider competitive training."]
  else if String.eqb (Rating.overall rating) "good"
  then ["Good performance. Focus on consistency."]
  else if String.eqb (Rating.overall rating) "average"
  then ["Average performance. Regular practice recommended."]
  else ["Needs improvement. Focus on fundamentals."].

Module Benchmarks.
Record t : Type := mk {
  ageGroup : string;
  gender : string;
  testType : string;
  userScore : Q;
  percentiles : Percentiles.t;
  rating : Rating.t;
  recommendations : list string
}.
End Benchmarks.

(** [userProfile] is [None] when the caller passes [null]: reading
    [userProfile.age] then raises a [TypeError]. *)
Definition performBenchmarking (performanceMetrics : PerformanceMetrics.t)
    (userProfile : option UserProfile) : Outcome Benchmarks.t :=
  match userProfile with
  | None => Throw (TypeError "Cannot read properties of null (reading 'age')")
  | Some profile =>
      Return (Benchmarks.mk
                (determineAgeGroup (age profile))
                (genderOrMale (gender profile))
                (PerformanceMetrics.testType performanceMetrics)
                (PerformanceMetrics.performanceScore performanceMetrics)
                (calculatePercentiles performanceMetrics profile)
                (calculateRating performanceMetrics profile)
                (generateBenchmarkRecommendations performanceMetrics profile))
  end.

Definition calculateConfidence (performanceMetrics : PerformanceMetrics.t)
    (cheatAnalysis : CheatDetection.CheatAnalysis.t) : Q :=
  let confidence := 0.8 in
  let confidence :=
    if CheatDetection.CheatAnalysis.isSuspicious cheatAnalysis
    then confidence - 0.3 else confidence in
  let confidence :=
    if Qgtb (PerformanceMetrics.movementQuality performanceMetrics) 0.8
    then confidence + 0.1 else confidence in
  Qmax 0 (Qmin 1 confidence).

Definition generateRecommendations (performanceMetrics : PerformanceMetrics.t)
    (benchmarking : Benchmarks.t) : list string :=
  let recommendations :=
    ((if Qltb (Rating.percentile (Benchmarks.rating benchmarking)) 50
      then ["Focus on basic fitness fundamentals"] else [])
     ++ (if Qltb (PerformanceMetrics.movementQuality performanceMetrics) 0.7
         then ["Work on proper form and technique"] else [])
     ++ (if String.eqb (Rating.level (Benchmarks.rating benchmarking)) "elite"
         then ["Consider advanced training programs"] else []))%list in
  match recommendations with
  | [] => ["Keep up the good work!"]
  | _ => recommendations
  end.

Module DeviceInfo.
Record t : Type := mk {
  platform : string;
  timestamp : Z;
  deviceType : string;
  appVersion : string
}.
End DeviceInfo.

Definition getDeviceInfo : M World DeviceInfo.t :=
  now <- Date_now ;;
  ret (DeviceInfo.mk "mobile" now "smartphone" "1.0.0").

(** The [results] object of a completed analysis. *)
Module Results.
Record t : Type := mk {
  testType : string;
  performanceMetrics : PerformanceMetrics.t;
  movementAnalysis : MovementAnalysis.t;
  cheatAnalysis : CheatDetection.CheatAnalysis.t;
  benchmarking : Benchmarks.t;
  confidence : Q;
  recommendations : list string;
  timestamp : Z;
  deviceInfo : DeviceInfo.t
}.
End Results.

(** The object [generateFallbackResults] builds. *)
Module Fallback.
Record t : Type := mk {
  testType : string;
  repetitionCount : nat;        (* performanceMetrics.repetitionCount *)
  movementQuality : Q;          (* performanceMetrics.movementQuality *)
  performanceScore : Q;         (* performanceMetrics.performanceScore *)
  movementAnalysisError : string;
  isSuspicious : bool;          (* cheatAnalysis.isSuspicious *)
  suspicionScore : Q;           (* cheatAnalysis.suspicionScore *)
  benchmarkingError : string;
  confidence : Q;
  recommendations : list string;
  fallback : bool
}.
End Fallback.

Definition generateFallbackResults (videoUri testType : string) : Fallback.t :=
  Fallback.mk testType 0 0 0 "Analysis failed" false 0
    "Benchmarking unavailable" 0
    ["Please try recording again with better lighting and camera angle"]
    true.

(** What [analyzeVideoOffline] resolves to: the [results] object, or the
    object [{ error: true, message, fallbackResults }] of its [catch]. *)
Inductive AnalysisOutput : Type :=
| Completed (results : Results.t)
| Failed (message : string) (fallbackResults : Fallback.t).

(** The fields of the service that calls read and write; [analysisCache]
    is a [Map], kept in insertion order. *)
Record Service : Type := mkService {
  isInitialized : bool;
  analysisCache : list (string * Results.t)
}.

Definition maxCacheSize : nat := 100.

Definition supportedTests : list string :=
  ["vertical-jump"; "sit-ups"; "push-ups"; "shuttle-run"; "endurance-run";
   "height-weight"; "standing-broad-jump"; "50m-sprint"; "600m-run";
   "medicine-ball-throw"].

(** [supportedTests.includes(testType)]. *)
Definition isSupported (testType : string) : bool :=
  existsb (String.eqb testType) supportedTests.

(** [Map.prototype.get], [has], [set] and the deletion of the first key. *)
Fixpoint mapGet {V} (m : list (string * V)) (key : string) : option V :=
  match m with
  | [] => None
  | (k, v) :: rest => if String.eqb k key then Some v else mapGet rest key
  end.

Definition mapHas {V} (m : list (string * V)) (key : string) : bool :=
  match mapGet m key with Some _ => true | None => false end.

Fixpoint mapSet {V} (m : list (string * V)) (key : string) (value : V)
    : list (string * V) :=
  match m with
  | [] => [(key, value)]
  | (k, v) :: rest =>
      if String.eqb k key then (k, value) :: rest
      else (k, v) :: mapSet rest key value
  end.

Definition setCache (key : string) (value : Results.t)
    (cache : list (string * Results.t)) : list (string * Results.t) :=
  let cache :=
    if Nat.leb maxCacheSize (List.length cache) then tl cache else cache in
  mapSet cache key value.

(** State of one run: the singleton service and the world around it. *)
Record St : Type := mkSt {
  service : Service;
  world : World
}.

Definition liftWorld {A} (c : M World A) : M St A :=
  fun s => let (o, w) := c (world s) in (o, mkSt (service s) w).

Definition getService : M St Service := fun s => (Return (service s), s).
Definition putService (sv : Service) : M St unit :=
  fun s => (Return tt, mkSt sv (world s)).
Definition getWorld : M St World := fun s => (Return (world s), s).

(** [initialize]: creating the detector may fail; the failure is caught
    and [false] is returned, the models falling back to rule-based ones
    otherwise. *)
Definition initialize : M St bool :=
  w <- getWorld ;;
  if detectorLoads w then
    sv <- getService ;;
    _ <- putService (mkService true (analysisCache sv)) ;;
    ret true
  else ret false.

Section Pipeline.

(** [JSON.stringify(userProfile)]; [None] is [null]. *)
Variable JSON_stringify : option UserProfile -> string.

(** [extractFrames] followed by [analyzePoses]: the poses of the frames of
    a video.  The source simulates them from [Math.sin] and [Math.atan2];
    here they are whatever the pose source yields, a failure included. *)
Variable poseSource : string -> Outcome (list PoseAnalysis).

Definition cacheKey (videoUri testType : string)
    (userProfile : option UserProfile) : string :=
  videoUri ++ "-" ++ testType ++ "-" ++ JSON_stringify userProfile.

(** Steps 1 to 7 of [analyzeVideoOffline], after the cache lookup. *)
Definition analyzeFresh (videoUri testType : string)
    (userProfile : option UserProfile) (key : string) : M St AnalysisOutput :=
  _ <- (if isSupported testType then ret tt
        else throw (Error ("Unsupported test type: " ++ testType))) ;;
  poseData <- liftO (poseSource videoUri) ;;
  movementAnalysis <- liftO (analyzeMovement poseData testType) ;;
  let performanceMetrics := calculatePerformance movementAnalysis testType in
  cheatAnalysis <- liftWorld (CheatDetection.detectCheatAttempts videoUri testType) ;;
  benchmarking <- liftO (performBenchmarking performanceMetrics userProfile) ;;
  let confidence := calculateConfidence performanceMetrics cheatAnalysis in
  let recommendations := generateRecommendations performanceMetrics benchmarking in
  now <- liftWorld Date_now ;;
  deviceInfo <- liftWorld getDeviceInfo ;;
  let results :=
    Results.mk testType performanceMetrics movementAnalysis cheatAnalysis
               benchmarking confidence recommendations now deviceInfo in
  sv <- getService ;;
  _ <- putService (mkService (isInitialized sv)
                             (setCache key results (analysisCache sv))) ;;
  ret (Completed results).

(** The [try] block of [analyzeVideoOffline]. *)
Definition analyzeVideoOfflineTry (videoUri testType : string)
    (userProfile : option UserProfile) : M St AnalysisOutput :=
  sv <- getService ;;
  _ <- (if isInitialized sv then ret true else initialize) ;;
  let key := cacheKey videoUri testType userProfile in
  sv <- getService ;;
  match mapGet (analysisCache sv) key with
  | Some cached => ret (Completed cached)
  | None => analyzeFresh videoUri testType userProfile key
  end.

(** The [catch] block of [analyzeVideoOffline]. *)
Definition analyzeVideoOfflineCatch (videoUri testType : string)
    (error : Exn) : M St AnalysisOutput :=
  ret (Failed (message error) (generateFallbackResults videoUri testType)).

Definition analyzeVideoOffline (videoUri testType : string)
    (userProfile : option UserProfile) : M St AnalysisOutput :=
  tryCatch (analyzeVideoOfflineTry videoUri testType userProfile)
           (analyzeVideoOfflineCatch videoUri testType).

End Pipeline.

End OfflineAnalysis.

(** ** Definitions used to state the properties *)

Module Spec.
Import Js OfflineAnalysis.
Open Scope string_scope.

(** The number of complete two-phase cycles of a phase sequence: a ['down']
    phase directly followed by an ['up'] phase. *)
Fixpoint completeCycles (phases : list Phase) : nat :=
  match phases with
  | p :: ((q :: rest') as rest) =>
      if String.eqb (phase p) "down" && String.eqb (phase q) "up"
      then S (completeCycles rest')
      else completeCycles rest
  | _ => 0%nat
  end.

(** The same count when a cycle only counts if its combined duration, in
    milliseconds, lies in the window [[minCycleMs, maxCycleMs]]. *)
Fixpoint plausibleCycles (minCycleMs maxCycleMs : Q) (phases : list Phase)
    : nat :=
  match phases with
  | p :: ((q :: rest') as rest) =>
      if String.eqb (phase p) "down" && String.eqb (phase q) "up"
      then
        let cycleMs := (duration p + duration q) * 1000 in
        if Qle_bool minCycleMs cycleMs && Qle_bool cycleMs maxCycleMs
        then S (plausibleCycles minCycleMs maxCycleMs rest')
        else plausibleCycles minCycleMs maxCycleMs rest'
      else plausibleCycles minCycleMs maxCycleMs rest
  | _ => 0%nat
  end.

(** A phase sequence that alternates ['down'], ['up'], ['down'], ... when
    [expectDown] holds, and ['up'], ['down'], ... otherwise. *)
Fixpoint alternates (expectDown : bool) (phases : list Phase) : Prop :=
  match phases with
  | [] => True
  | p :: rest =>
      phase p = (if expectDown then "down" else "up")
      /\ alternates (negb expectDown) rest
  end.

(** The weights of the seven integrity checks, in the order in which
    [combineAnalysisResults] consults them, and whether each check
    triggered. *)
Definition checkWeights : list Q := [0.15; 0.1; 0.2; 0.3; 0.15; 0.25; 0.1].

Definition triggeredChecks (frameAnalysis : CheatDetection.FrameAnalysis)
    (manipulationCheck : CheatDetection.ManipulationCheck)
    (movementPatternAnalysis : CheatDetection.MovementPatternAnalysis)
    (assistanceCheck : CheatDetection.AssistanceCheck) : list bool :=
  [ negb (CheatDetection.BrightnessConsistency.isConsistent
            (CheatDetection.brightnessConsistency frameAnalysis));
    negb (CheatDetection.FrameRateConsistency.isConsistent
            (CheatDetection.frameRateConsistency frameAnalysis));
    CheatDetection.CompressionArtifacts.hasArtifacts
      (CheatDetection.compressionArtifacts manipulationCheck);
    CheatDetection.SplicingDetection.hasSplicing
      (CheatDetection.splicingDetection manipulationCheck);
    negb (CheatDetection.PatternConsistency.isConsistent
            (CheatDetection.patternConsistency movementPatternAnalysis));
    CheatDetection.MultiplePeople.hasMultiplePeople
      (CheatDetection.multiplePeople assistanceCheck);
    negb (CheatDetection.EnvironmentConsistency.isConsistent
            (CheatDetection.environmentalConsistency assistanceCheck)) ].

(** The sum of the weights of the triggered checks. *)
Fixpoint weightOfTriggered (flags : list bool) (weights : list Q) : Q :=
  match flags, weights with
  | f :: flags', w :: weights' =>
      (if f then w else 0) + weightOfTriggered flags' weights'
  | _, _ => 0
  end.

(** The bounds on the score, its being 0 exactly when no flag is set, and
    its being the capped sum of the weights, as one boolean: the 128
    combinations of check outcomes are then settled by evaluation. *)
Definition scoreFacts (score : Q) (flags : list bool) : bool :=
  Qle_bool 0 score
  && Qle_bool score 1
  && Bool.eqb (Qeq_bool score 0) (negb (existsb (fun f => f) flags))
  && Qeq_bool score (Qmin 1 (weightOfTriggered flags checkWeights)).

(** The confidence as the specification words it: a base of 0.8, reduced
    by 0.3 when suspicious, increased by 0.1 when the overall quality is
    greater than or equal to 0.8, clamped to [[0, 1]]. *)
Definition statedConfidence (isSuspicious : bool) (overall : Q) : Q :=
  let confidence := 0.8 in
  let confidence := if isSuspicious then confidence - 0.3 else confidence in
  let confidence :=
    if Qle_bool 0.8 overall then confidence + 0.1 else confidence in
  Qmax 0 (Qmin 1 confidence).

(** The quality band as the specification words it: lower bounds 0.90,
    0.75 and 0.50, each inclusive. *)
Definition statedQualityBand (s : Q) : string :=
  if Qle_bool 0.90 s then "excellent"
  else if Qle_bool 0.75 s then "good"
  else if Qle_bool 0.50 s then "average"
  else "needs-improvement".

(** Mean and variance of a list of numbers: the variance is the mean of
    the squared deviations from the mean. *)
Definition mean (values : list Q) : Q :=
  fold_right Qplus 0 values / lengthQ values.

Definition populationVariance (values : list Q) : Q :=
  mean (map (fun v => (v - mean values) * (v - mean values)) values).

(** The [results] object of an output, when the analysis completed, and
    its [timestamp]. *)
Definition completedResults (o : Outcome AnalysisOutput) : option Results.t :=
  match o with
  | Return (Completed results) => Some results
  | _ => None
  end.

Definition timestampOf (o : Outcome AnalysisOutput) : option Z :=
  option_map Results.timestamp (completedResults o).

End Spec.

(** ** Concrete inputs *)

Module Examples.
Import Js OfflineAnalysis.
Open Scope string_scope.

(** A pose at time [t] (milliseconds) whose left knee and left elbow both
    show [angle]; shoulder and hip are level. *)
Definition poseAt (t angle : Q) : PoseAnalysis :=
  mkPose 0 t
    (mkKeypoints (Some (mkPoint 0.4 0.5)) (Some (mkPoint 0.42 0.5)))
    0.8
    (mkBodyAngles (Some angle) (Some angle) (Some angle) (Some angle))
    (mkPoint 0.5 0.5).

(** Down, up, and a third, unmatched, down. *)
Definition downUpDown : list PoseAnalysis :=
  [poseAt 0 180; poseAt 1000 30; poseAt 2000 150; poseAt 3000 30].

(** One down+up cycle whose second phase ends at [endMs] milliseconds. *)
Definition oneCycle (endMs : Q) : list PoseAnalysis :=
  [poseAt 0 180; poseAt 1 30; poseAt endMs 150].

(** Performance metrics of a vertical jump with the given movement
    quality. *)
Definition metricsWithQuality (overall : Q) : PerformanceMetrics.t :=
  PerformanceMetrics.mk "vertical-jump" 1 overall 1000
    (Math_round (overall * 100 * 10) / 10) (JumpMetrics 30 0.5) overall.

(** A cheat analysis that reports nothing suspicious. *)
Definition notSuspicious : CheatDetection.CheatAnalysis.t :=
  CheatDetection.CheatAnalysis.mk false 0 []
    ["Video analysis completed successfully"] None None.

(** Two poses, [durationMs] apart, with no change of angle or of centre of
    mass: a vertical jump in which no phase is identified. *)
Definition stillFor (durationMs : Q) : list PoseAnalysis :=
  [poseAt 0 180; poseAt durationMs 180].

(** A frame of the cheat detector with the given brightness. *)
Definition frameWith (i : nat) (b : Q) : CheatDetection.Frame :=
  CheatDetection.mkFrame i (inject_Z (Z.of_nat i) * (1000 / 30))
    (CheatDetection.mkFrameData b 0.7 500 50
       (CheatDetection.ColorDistribution.mk 180 25 0.65)).


(** Five dark and five bright frames: the variance is 0.25. *)
Definition flickering : list CheatDetection.Frame :=
  [frameWith 0 0; frameWith 1 1; frameWith 2 0; frameWith 3 1;
   frameWith 4 0; frameWith 5 1; frameWith 6 0; frameWith 7 1;
   frameWith 8 0; frameWith 9 1].

(** A world whose generator cycles through 0, 0.1, ..., 0.9 and whose
    clock starts at [start] and advances by one at each reading. *)
Definition worldAt (start : Z) : World :=
  mkWorld (fun n => inject_Z (Z.of_nat (Nat.modulo n 10)) / 10) 0
          (fun n => (start + Z.of_nat n)%Z) 0 true.

(** A rendering of the user profile, exact on [null] and on the empty
    object, the two profiles used below; any other profile is rendered by
    its gender. *)
Definition renderProfile (userProfile : option UserProfile) : string :=
  match userProfile with
  | None => "null"
  | Some p =>
      match age p, gender p with
      | None, None => "{}"
      | _, g => "{gender:" ++ genderOrMale g ++ "}"
      end
  end.

Definition emptyProfile : option UserProfile :=
  Some (mkUserProfile None None).

(** A pose source that yields two still poses, two seconds apart, for
    every video. *)
Definition stillPoses (videoUri : string) : Outcome (list PoseAnalysis) :=
  Return (stillFor 2000).

(** A service that has not run yet, in a world whose clock starts at
    [start]. *)
Definition freshAt (start : Z) : St :=
  mkSt (mkService false []) (worldAt start).

(** Names of [n] further videos: [x], [xx], [xxx], ... *)
Fixpoint videoName (n : nat) : string :=
  match n with
  | O => "x"
  | S n' => "x" ++ videoName n'
  end.

(** The state after analysing the videos [videoName 0 .. videoName (n-1)]
    as vertical jumps, starting from [s]. *)
Fixpoint afterOtherVideos (n : nat) (s : St) : St :=
  match n with
  | O => s
  | S n' =>
      let s' := afterOtherVideos n' s in
      snd (analyzeVideoOffline renderProfile stillPoses (videoName n')
             "vertical-jump" emptyProfile s')
  end.

End Examples.

(** ** Further definitions used to state properties *)

Module SpecFrames.
Import Js CheatDetection.

(** The world after [k] further reads of the random generator. *)
Definition advanceRandom (w : World) (k : nat) : World :=
  mkWorld (randomAt w) (randomPos w + k) (clockAt w) (clockPos w)
          (detectorLoads w).

(** The frame of index [i] that [simulateFrameData] builds from the seven
    random numbers at positions [p .. p + 6]. *)
Definition frameFromRandoms (r : nat -> Q) (p i : nat) : Frame :=
  mkFrame i (inject_Z (Z.of_nat i) * (1000 / frameRate))
    (mkFrameData (0.5 + r p * 0.5)
                 (0.4 + r (p + 1)%nat * 0.6)
                 (r (p + 2)%nat * 1000)
                 (r (p + 3)%nat * 100)
                 (ColorDistribution.mk (r (p + 4)%nat * 360)
                                       (r (p + 5)%nat * 50)
                                       (0.3 + r (p + 6)%nat * 0.7))).

End SpecFrames.

Module SpecPhases.
Import Js OfflineAnalysis.
Open Scope string_scope.

(** Phases that follow one another without gap or overlap: the first
    starts at frame [start], each ends after it starts and at [last] at
    the latest, and each next one starts where the one before ended. *)
Fixpoint contiguousFrom (start : nat) (phases : list Phase) (last : nat)
    : Prop :=
  match phases with
  | [] => True
  | p :: rest =>
      startFrame p = start
      /\ (start < endFrame p)%nat
      /\ (endFrame p <= last)%nat
      /\ contiguousFrom (endFrame p) rest last
  end.

(** The duration of a phase is the time between its two frames, in
    seconds. *)
Definition durationFromFrames (poseData : list PoseAnalysis) (p : Phase)
    : Prop :=
  duration p
  = (timestampAt poseData (endFrame p) - timestampAt poseData (startFrame p))
    / 1000.

End SpecPhases.

Module SpecRun.
Import Js OfflineAnalysis.
Open Scope string_scope.

(** The result of the cheat detection, as every call returns it. *)
Definition failedOpen : CheatDetection.CheatAnalysis.t :=
  CheatDetection.CheatAnalysis.mk false 0 ["Analysis failed"]
    ["Please try recording again"] None
    (Some "this.detectRepetitions is not a function").

(** The state after the initialisation step of a run. *)
Definition initialised (s : St) : St :=
  mkSt (mkService (isInitialized (service s) || detectorLoads (world s))
                  (analysisCache (service s)))
       (world s).

End SpecRun.

Module CacheExamples.
Import Js OfflineAnalysis SpecRun Examples.
Open Scope string_scope.

(** The result of a vertical jump of quality 0.9, stamped with the time
    [now]. *)
Definition resultsStampedAt (now : Z) : Results.t :=
  Results.mk "vertical-jump"
    (metricsWithQuality 0.9)
    (MovementAnalysis.mk "vertical-jump" 2 0.8 [] 0
       (MovementQuality.mk 0.9 (Scores.mk 0.85 0.85 1.0 0.9) "excellent")
       (TimingAnalysis.mk 1000 (Some 1000)))
    failedOpen
    (Benchmarks.mk "25-plus" "male" "vertical-jump" 90
       (Percentiles.mk 100 "excellent")
       (Rating.mk "excellent" 90 100 "elite")
       ["Excellent performance! Consider competitive training."])
    0.9
    ["Consider advanced training programs"]
    now
    (DeviceInfo.mk "mobile" (now + 1) "smartphone" "1.0.0").

(** A cache that holds the results of two earlier videos. *)
Definition twoEntries : list (string * Results.t) :=
  [("a.mp4-vertical-jump-{}", resultsStampedAt 1000);
   ("b.mp4-vertical-jump-{}", resultsStampedAt 2000)].

(** A profile of a fourteen-year-old girl. *)
Definition girlOfFourteen : UserProfile :=
  mkUserProfile (Some 14) (Some "female").

End CacheExamples.

Module CheckExamples.
Import Js CheatDetection.
Open Scope string_scope.

(** Check results in which the lighting is inconsistent and a splice is
    found, and nothing else is wrong. *)
Definition darkAndSpliced : FrameAnalysis :=
  mkFrameAnalysis
    (BrightnessConsistency.mk false 0.25 0.5 0)
    (FrameRateConsistency.mk true 0 (1000 / 30) 0)
    (ResolutionConsistency.mk true 0 [])
    (MotionConsistency.mk true 50 40 0)
    (ColorConsistency.mk true 25 0).

Definition splicedOnly : ManipulationCheck :=
  mkManipulationCheck
    (CompressionArtifacts.mk false 500 0)
    (EdgeInconsistencies.mk false 100 0.1)
    (MetadataAnomalies.mk false [] 0)
    (SplicingDetection.mk true [] 0.6).

Definition patternAsExpected : MovementPatternAnalysis :=
  mkMovementPatternAnalysis
    (PatternConsistency.mk true "repetitive" "repetitive" 1)
    tt
    (SpeedConsistency.mk true 1 0 1)
    (AccelerationPatterns.mk 0 0 true 1).

Definition nobodyElse : AssistanceCheck :=
  mkAssistanceCheck
    (MultiplePeople.mk false 1 0.9)
    (SuspiciousObjects.mk false [] 0.8)
    (AudioAnalysis.mk false "clear" 0.7)
    (EnvironmentConsistency.mk true 25 0.5).

End CheckExamples.

(** ** Properties *)

Section JsFacts.
Import Js.

Lemma Qltb_lt a b : Qltb a b = true <-> a < b.
Proof.
  unfold Qltb. rewrite negb_true_iff. split; intros H.
  - apply Qnot_le_lt. intros Hle. apply Qle_bool_iff in Hle. congruence.
  - destruct (Qle_bool b a) eqn:E; [|reflexivity].
    apply Qle_bool_iff in E. exfalso. exact (Qlt_not_le _ _ H E).
Qed.

Lemma Qltb_ge a b : Qltb a b = false <-> b <= a.
Proof.
  unfold Qltb. rewrite negb_false_iff. apply Qle_bool_iff.
Qed.

Lemma Qgtb_gt a b : Qgtb a b = true <-> b < a.
Proof. unfold Qgtb. apply Qltb_lt. Qed.

Lemma Qgtb_le a b : Qgtb a b = false <-> a <= b.
Proof. unfold Qgtb. apply Qltb_ge. Qed.

End JsFacts.

Section Repetitions.
Import Js OfflineAnalysis Spec.
Open Scope string_scope.

Variable poseData : list PoseAnalysis.
Variable testType : string.

(** The loop emits phases in strict alternation, starting with ['down']
    exactly when it is in its up phase. *)
Lemma repetitiveLoop_alternates rest :
  forall i isUpPhase phaseStart,
    alternates isUpPhase
      (repetitiveLoop poseData testType rest i isUpPhase phaseStart).
Proof.
  induction rest as [|currPose rest IH]; intros i up ps; simpl; [exact I|].
  destruct up; simpl.
  - destruct (Qltb _ 60); simpl; [split; [reflexivity|apply IH]|apply IH].
  - destruct (Qgtb _ 120); simpl; [split; [reflexivity|apply IH]|apply IH].
Qed.

End Repetitions.

Section Cycles.
Import Js OfflineAnalysis Spec.
Open Scope string_scope.

Lemma completeCycles_alternates_pair p q rest :
  alternates true (p :: q :: rest) ->
  completeCycles (p :: q :: rest) = S (completeCycles rest).
Proof.
  simpl. intros [Hp [Hq _]]. rewrite Hp, Hq. reflexivity.
Qed.

(** On an alternating sequence that starts with ['down'], the complete
    cycles are half the phases, rounded down. *)
Lemma completeCycles_half :
  forall n phases,
    (List.length phases <= n)%nat ->
    alternates true phases ->
    completeCycles phases = Nat.div2 (List.length phases).
Proof.
  induction n as [|n IH]; intros phases Hlen Halt.
  - destruct phases; [reflexivity|simpl in Hlen; lia].
  - destruct phases as [|p [|q rest]]; try reflexivity.
    rewrite completeCycles_alternates_pair by exact Halt.
    cbn [List.length Nat.div2]. f_equal. apply IH.
    + simpl in Hlen. lia.
    + simpl in Halt. tauto.
Qed.

End Cycles.

Section RepetitionCount.
Import Js OfflineAnalysis Spec.
Open Scope string_scope.

Lemma identifyRepetitivePhases_alternates poseData testType :
  alternates true (identifyRepetitivePhases poseData testType).
Proof. apply repetitiveLoop_alternates. Qed.

(** C1.  For the cyclic test kinds (sit-ups, push-ups) the repetition
    count is the number of complete down+up cycles of the identified phase
    sequence, which is the number of phases halved and rounded down: with
    [2k] phases or with [2k + 1] phases the count is [k], so a trailing
    unmatched phase adds nothing. *)
Theorem C1_repetition_count_complete_cycles :
  forall (poseData : list PoseAnalysis) (testType : string),
    isRepetitive testType = true ->
    let phases := identifyRepetitivePhases poseData testType in
    alternates true phases
    /\ countRepetitions poseData testType = completeCycles phases
    /\ countRepetitions poseData testType = Nat.div (List.length phases) 2
    /\ (forall k, List.length phases = (2 * k)%nat \/
                  List.length phases = (2 * k + 1)%nat ->
                  countRepetitions poseData testType = k).
Proof.
  intros poseData testType Hrep phases.
  assert (Halt : alternates true phases)
    by apply identifyRepetitivePhases_alternates.
  assert (Hcount : countRepetitions poseData testType
                   = Nat.div (List.length phases) 2).
  { unfold countRepetitions. rewrite Hrep. reflexivity. }
  repeat split.
  - exact Halt.
  - rewrite Hcount, <- Nat.div2_div. symmetry.
    apply (completeCycles_half (List.length phases)); [lia|exact Halt].
  - exact Hcount.
  - intros k [Hk|Hk]; rewrite Hcount, Hk.
    + rewrite Nat.mul_comm. apply Nat.div_mul. lia.
    + rewrite Nat.mul_comm, Nat.add_comm. rewrite Nat.div_add by lia.
      reflexivity.
Qed.

End RepetitionCount.

Section RepetitionCountExamples.
Import Js OfflineAnalysis Spec Examples.
Open Scope string_scope.

Lemma C1_witness :
  isRepetitive "sit-ups" = true
  /\ List.length (identifyRepetitivePhases downUpDown "sit-ups") = 3%nat
  /\ countRepetitions downUpDown "sit-ups" = 1%nat.
Proof.
  split; [reflexivity|]. split; [reflexivity|].
  destruct (C1_repetition_count_complete_cycles downUpDown "sit-ups" eq_refl)
    as (_ & _ & _ & H).
  apply H. right. reflexivity.
Defined.

End RepetitionCountExamples.

Section CycleWindow.
Import Js OfflineAnalysis Spec Examples.
Open Scope string_scope.

(** The labels of the phases the loop emits depend on the angles alone. *)
Lemma repetitiveLoop_labels testType pd1 pd2 :
  forall rest1 rest2,
    map bodyAngles rest1 = map bodyAngles rest2 ->
    forall i1 i2 isUpPhase ps1 ps2,
      map phase (repetitiveLoop pd1 testType rest1 i1 isUpPhase ps1)
      = map phase (repetitiveLoop pd2 testType rest2 i2 isUpPhase ps2).
Proof.
  induction rest1 as [|p1 rest1 IH]; intros [|p2 rest2] Hangles;
    try discriminate; intros i1 i2 up ps1 ps2; [reflexivity|].
  simpl in Hangles. injection Hangles as Hp Hrest.
  simpl. unfold repetitionAngle. rewrite Hp.
  destruct up; simpl.
  - destruct (Qltb _ 60); simpl; [f_equal|]; apply IH; exact Hrest.
  - destruct (Qgtb _ 120); simpl; [f_equal|]; apply IH; exact Hrest.
Qed.

Lemma identifyRepetitivePhases_labels testType pd1 pd2 :
  map bodyAngles pd1 = map bodyAngles pd2 ->
  map phase (identifyRepetitivePhases pd1 testType)
  = map phase (identifyRepetitivePhases pd2 testType).
Proof.
  intros H. apply repetitiveLoop_labels.
  destruct pd1, pd2; try discriminate; [reflexivity|].
  simpl in *. congruence.
Qed.

(** C8, as the code has it.  No duration window is applied: the count of
    a cyclic test kind is the number of complete down+up cycles of the
    phase sequence, and two pose sequences that show the same joint angles
    frame by frame get the same count whatever their timestamps, and so
    whatever the durations of their cycles. *)
Theorem C8_count_ignores_cycle_duration :
  forall (pd1 pd2 : list PoseAnalysis) (testType : string),
    isRepetitive testType = true ->
    map bodyAngles pd1 = map bodyAngles pd2 ->
    countRepetitions pd1 testType = countRepetitions pd2 testType
    /\ countRepetitions pd1 testType
       = completeCycles (identifyRepetitivePhases pd1 testType).
Proof.
  intros pd1 pd2 testType Hrep Hangles. split.
  - unfold countRepetitions, countRepetitiveMovements. rewrite Hrep.
    rewrite <- (length_map phase (identifyRepetitivePhases pd1 testType)).
    rewrite <- (length_map phase (identifyRepetitivePhases pd2 testType)).
    rewrite (identifyRepetitivePhases_labels testType pd1 pd2 Hangles).
    reflexivity.
  - unfold countRepetitions, countRepetitiveMovements. rewrite Hrep.
    rewrite <- Nat.div2_div. symmetry.
    apply (completeCycles_half
             (List.length (identifyRepetitivePhases pd1 testType)));
      [lia|apply repetitiveLoop_alternates].
Qed.

(** A cycle of two milliseconds and one of a million seconds count alike. *)
Lemma C8_witness :
  isRepetitive "push-ups" = true
  /\ map bodyAngles (oneCycle 2) = map bodyAngles (oneCycle 1000000000)
  /\ countRepetitions (oneCycle 2) "push-ups" = 1%nat
  /\ countRepetitions (oneCycle 1000000000) "push-ups" = 1%nat.
Proof.
  split; [reflexivity|]. split; [reflexivity|]. split; [reflexivity|].
  destruct (C8_count_ignores_cycle_duration
              (oneCycle 2) (oneCycle 1000000000) "push-ups"
              eq_refl eq_refl) as [H _].
  rewrite <- H. reflexivity.
Defined.

Lemma oneCycle_phases endMs :
  identifyRepetitivePhases (oneCycle endMs) "sit-ups"
  = [mkPhase "down" 0 1 ((1 - 0) / 1000);
     mkPhase "up" 1 2 ((endMs - 1) / 1000)].
Proof. reflexivity. Qed.

(** C8, as stated, fails: no window [[minCycleMs, maxCycleMs]], chosen per
    test kind, makes the count of the code the number of cycles whose
    duration lies in the window.  Whatever [maxCycleMs] is, the single cycle
    of [oneCycle (|maxCycleMs| + 2)] lasts longer and is counted. *)
Lemma C8_counterexample :
  ~ exists window : string -> Q * Q,
      forall (poseData : list PoseAnalysis) (testType : string),
        isRepetitive testType = true ->
        countRepetitions poseData testType
        = plausibleCycles (fst (window testType)) (snd (window testType))
            (identifyRepetitivePhases poseData testType).
Proof.
  intros [window H].
  specialize (H (oneCycle (Qabs (snd (window "sit-ups")) + 2)) "sit-ups" eq_refl).
  destruct (window "sit-ups") as [lo hi]. simpl fst in H. simpl snd in H.
  change (countRepetitions (oneCycle (Qabs hi + 2)) "sit-ups") with 1%nat in H.
  rewrite oneCycle_phases in H.
  cbn [plausibleCycles phase duration String.eqb Ascii.eqb Bool.eqb andb] in H.
  set (cycleMs := ((1 - 0) / 1000 + (Qabs hi + 2 - 1) / 1000) * 1000) in H.
  assert (Hlong : Qle_bool cycleMs hi = false).
  { destruct (Qle_bool cycleMs hi) eqn:E; [|reflexivity].
    apply Qle_bool_iff in E. exfalso.
    pose proof (Qle_Qabs hi) as Habs. subst cycleMs.
    assert (Heq : ((1 - 0) / 1000 + (Qabs hi + 2 - 1) / 1000) * 1000
                  == Qabs hi + 2) by field.
    rewrite Heq in E. lra. }
  rewrite Hlong, andb_false_r in H. discriminate H.
Qed.

End CycleWindow.

Section SuspicionScore.
Import Js CheatDetection Spec.
Open Scope string_scope.

Lemma combineAnalysisResults_scoreFacts fa mc mp ac :
  scoreFacts (Combined.suspicionScore (combineAnalysisResults fa mc mp ac))
             (triggeredChecks fa mc mp ac) = true.
Proof.
  destruct fa as [[b1 ? ? ?] [b2 ? ? ?] ? ? ?].
  destruct mc as [[b3 ? ?] ? ? [b4 ? ?]].
  destruct mp as [[b5 ? ? ?] ? ? ?].
  destruct ac as [[b6 ? ?] ? ? [b7 ? ?]].
  destruct b1, b2, b3, b4, b5, b6, b7; vm_compute; reflexivity.
Qed.

(** C2.  Whatever the outcomes of the seven checks, the combined score is
    the sum of the weights of the triggered checks capped at 1; it lies in
    [[0, 1]]; it is 0 exactly when no check triggered; and with all seven
    triggered the weights add up to 1.25 while the score is 1. *)
Theorem C2_suspicion_score_bounds :
  forall (frameAnalysis : FrameAnalysis) (manipulationCheck : ManipulationCheck)
         (movementPatternAnalysis : MovementPatternAnalysis)
         (assistanceCheck : AssistanceCheck),
    let score :=
      Combined.suspicionScore
        (combineAnalysisResults frameAnalysis manipulationCheck
                                movementPatternAnalysis assistanceCheck) in
    let flags :=
      triggeredChecks frameAnalysis manipulationCheck
                      movementPatternAnalysis assistanceCheck in
    score == Qmin 1 (weightOfTriggered flags checkWeights)
    /\ 0 <= score <= 1
    /\ (score == 0 <-> existsb (fun f => f) flags = false)
    /\ weightOfTriggered (repeat true 7) checkWeights == 1.25
    /\ Qmin 1 (weightOfTriggered (repeat true 7) checkWeights) == 1.
Proof.
  intros fa mc mp ac score flags.
  pose proof (combineAnalysisResults_scoreFacts fa mc mp ac) as H.
  fold score flags in H. unfold scoreFacts in H.
  apply andb_prop in H. destruct H as [H Hsum].
  apply andb_prop in H. destruct H as [H Hzero].
  apply andb_prop in H. destruct H as [Hlo Hhi].
  apply Qle_bool_iff in Hlo, Hhi. apply Qeq_bool_iff in Hsum.
  apply Bool.eqb_prop in Hzero.
  repeat split; try assumption; try reflexivity.
  - intros Hz. apply Qeq_bool_iff in Hz. rewrite Hz in Hzero.
    destruct (existsb _ flags); [discriminate Hzero|reflexivity].
  - intros Hnone. rewrite Hnone in Hzero. apply Qeq_bool_iff. exact Hzero.
Qed.

End SuspicionScore.

Section Confidence.
Import Js OfflineAnalysis Spec Examples.
Open Scope string_scope.

(** C3, as the code has it.  The confidence is 0.8, less 0.3 when the
    integrity verdict is suspicious, plus 0.1 when the movement quality is
    strictly greater than 0.8; the result always lies in [[0, 1]], so the
    clamp never changes it. *)
Theorem C3_confidence_strict_quality_threshold :
  forall (performanceMetrics : PerformanceMetrics.t)
         (cheatAnalysis : CheatDetection.CheatAnalysis.t),
    let quality := PerformanceMetrics.movementQuality performanceMetrics in
    let suspicious := CheatDetection.CheatAnalysis.isSuspicious cheatAnalysis in
    let confidence := calculateConfidence performanceMetrics cheatAnalysis in
    confidence
    == 0.8 - (if suspicious then 0.3 else 0)
       + (if Qlt_le_dec 0.8 quality then 0.1 else 0)
    /\ 0 <= confidence <= 1.
Proof.
  intros pm ca quality suspicious confidence.
  unfold confidence, calculateConfidence. fold quality suspicious.
  destruct suspicious;
    destruct (Qgtb quality 0.8) eqn:E;
    destruct (Qlt_le_dec 0.8 quality) as [Hgt|Hle];
    try (apply Qgtb_gt in E); try (apply Qgtb_le in E);
    try (exfalso; lra);
    (split; [|split]); vm_compute; congruence.
Qed.

(** C3, as stated, fails at a movement quality of exactly 0.8 with a clean
    integrity verdict: the code leaves the confidence at 0.8, the stated
    rule gives 0.9. *)
Lemma C3_counterexample :
  calculateConfidence (metricsWithQuality 0.8) notSuspicious == 0.8
  /\ statedConfidence false 0.8 == 0.9
  /\ ~ (calculateConfidence (metricsWithQuality 0.8) notSuspicious
        == statedConfidence
             (CheatDetection.CheatAnalysis.isSuspicious notSuspicious)
             (PerformanceMetrics.movementQuality (metricsWithQuality 0.8))).
Proof.
  split; [reflexivity|]. split; [reflexivity|].
  vm_compute. discriminate.
Qed.

End Confidence.

Section QualityBand.
Import Js OfflineAnalysis Spec Examples.
Open Scope string_scope.

(** What [assessMovementQuality] returns, when it returns. *)
Lemma assessMovementQuality_inv poseData testType mq :
  assessMovementQuality poseData testType = Return mq ->
  exists form consistency timing,
    assessForm poseData testType = Return form
    /\ assessConsistency poseData testType = Return consistency
    /\ assessTiming poseData testType = Return timing
    /\ MovementQuality.overallScore mq
       = (form + consistency + assessRangeOfMotion poseData testType + timing) / 4
    /\ MovementQuality.quality mq
       = (if Qgtb (MovementQuality.overallScore mq) 0.8 then "excellent"
          else if Qgtb (MovementQuality.overallScore mq) 0.6 then "good"
          else "needs-improvement").
Proof.
  unfold assessMovementQuality. intros H.
  destruct (assessForm poseData testType) as [form|]; [|discriminate H].
  destruct (assessConsistency poseData testType) as [cons|]; [|discriminate H].
  destruct (assessTiming poseData testType) as [timing|]; [|discriminate H].
  simpl in H. injection H as <-.
  exists form, cons, timing. repeat split; reflexivity.
Qed.

(** C6, as the code has it.  The band is ['excellent'] when the overall
    score is strictly above 0.8, ['good'] when it is strictly above 0.6 and
    at most 0.8, and ['needs-improvement'] otherwise; there is no
    ['average'] band and each boundary value falls in the lower band. *)
Theorem C6_quality_band_thresholds :
  forall (poseData : list PoseAnalysis) (testType : string)
         (mq : MovementQuality.t),
    assessMovementQuality poseData testType = Return mq ->
    let s := MovementQuality.overallScore mq in
    (0.8 < s /\ MovementQuality.quality mq = "excellent")
    \/ (0.6 < s /\ s <= 0.8 /\ MovementQuality.quality mq = "good")
    \/ (s <= 0.6 /\ MovementQuality.quality mq = "needs-improvement").
Proof.
  intros poseData testType mq H s.
  apply assessMovementQuality_inv in H.
  destruct H as (form & cons & timing & _ & _ & _ & _ & Hq).
  fold s in Hq. rewrite Hq.
  destruct (Qgtb s 0.8) eqn:E8.
  - left. apply Qgtb_gt in E8. split; [exact E8|reflexivity].
  - apply Qgtb_le in E8. destruct (Qgtb s 0.6) eqn:E6.
    + right; left. apply Qgtb_gt in E6. repeat split; assumption.
    + right; right. apply Qgtb_le in E6. split; [exact E6|reflexivity].
Qed.

Lemma C6_witness :
  exists mq,
    assessMovementQuality (stillFor 2000) "vertical-jump" = Return mq
    /\ MovementQuality.overallScore mq == 0.875
    /\ MovementQuality.quality mq = "excellent".
Proof.
  eexists. split; [reflexivity|]. split; [reflexivity|].
  destruct (C6_quality_band_thresholds (stillFor 2000) "vertical-jump" _ eq_refl)
    as [[_ H]|[(_ & H & _)|[H _]]].
  - exact H.
  - exfalso. revert H. vm_compute. congruence.
  - exfalso. revert H. vm_compute. congruence.
Defined.

(** C6, as stated, fails: a vertical jump in which no phase is identified
    and whose timing is right scores 0.5, 1, 1 and 1, an overall 0.875; the
    code reports ['excellent'] where the stated bands give ['good']. *)
Lemma C6_counterexample :
  exists mq,
    assessMovementQuality (stillFor 2000) "vertical-jump" = Return mq
    /\ MovementQuality.overallScore mq == 0.875
    /\ MovementQuality.quality mq = "excellent"
    /\ statedQualityBand (MovementQuality.overallScore mq) = "good"
    /\ MovementQuality.quality mq
       <> statedQualityBand (MovementQuality.overallScore mq).
Proof.
  eexists. split; [reflexivity|].
  repeat split; try reflexivity. vm_compute. discriminate.
Qed.

End QualityBand.

Section Timing.
Import Js OfflineAnalysis Spec Examples.
Open Scope string_scope.

(** The expected duration of every supported test kind is one of the four
    values of the table, or the default. *)
Lemma expected_duration_cases testType :
  isSupported testType = true ->
  let expected := orNum (expectedDurations testType) 10000 in
  expected = 2000 \/ expected = 30000 \/ expected = 20000
  \/ expected = 180000 \/ expected = 10000.
Proof.
  unfold isSupported, supportedTests. cbn [existsb].
  intros H.
  repeat (apply orb_prop in H; destruct H as [H|H]);
    try discriminate H;
    apply String.eqb_eq in H; subst testType; vm_compute; tauto.
Qed.

Lemma ratio_inside total expected :
  0 < expected ->
  (Qgtb (total / expected) 0.5 && Qltb (total / expected) 2.0 = true
   <-> 0.5 * expected < total /\ total < 2.0 * expected).
Proof.
  intros Hpos. rewrite andb_true_iff, Qgtb_gt, Qltb_lt.
  assert (Hne : ~ expected == 0) by (intros E; rewrite E in Hpos; lra).
  split; intros [H1 H2]; split.
  - apply (Qmult_lt_compat_r _ _ expected Hpos) in H1.
    assert (E : total / expected * expected == total) by (field; exact Hne).
    rewrite E in H1. exact H1.
  - apply (Qmult_lt_compat_r _ _ expected Hpos) in H2.
    assert (E : total / expected * expected == total) by (field; exact Hne).
    rewrite E in H2. exact H2.
  - apply Qlt_shift_div_l; assumption.
  - apply Qlt_shift_div_r; assumption.
Qed.

(** C7, as the code has it.  For a supported test kind and a non-empty
    pose sequence the timing score is 1 when the total duration lies
    strictly between 0.5 and 2.0 times the expected duration, and 0.8
    otherwise, the two end points of the band included; it is never below
    0.8. *)
Theorem C7_timing_open_band :
  forall (poseData : list PoseAnalysis) (testType : string),
    isSupported testType = true ->
    poseData <> [] ->
    exists total expected : Q,
      totalDurationOf poseData = Return total
      /\ expected = orNum (expectedDurations testType) 10000
      /\ 0 < expected
      /\ ((0.5 * expected < total /\ total < 2.0 * expected
           /\ assessTiming poseData testType = Return 1.0)
          \/ ((total <= 0.5 * expected \/ 2.0 * expected <= total)
              /\ assessTiming poseData testType = Return 0.8)).
Proof.
  intros poseData testType Hsup Hne.
  destruct poseData as [|first rest]; [congruence|].
  set (pd := first :: rest).
  exists (timestamp (last pd first) - timestamp first),
         (orNum (expectedDurations testType) 10000).
  set (total := timestamp (last pd first) - timestamp first).
  set (expected := orNum (expectedDurations testType) 10000).
  assert (Hpos : 0 < expected).
  { pose proof (expected_duration_cases testType Hsup) as H.
    fold expected in H.
    destruct H as [H|[H|[H|[H|H]]]]; rewrite H; reflexivity. }
  split; [reflexivity|]. split; [reflexivity|]. split; [exact Hpos|].
  unfold assessTiming. change (totalDurationOf pd) with (Return total).
  cbn [bindO]. fold expected.
  pose proof (ratio_inside total expected Hpos) as Hin.
  destruct (Qgtb (total / expected) 0.5 && Qltb (total / expected) 2.0).
  - left. destruct (proj1 Hin eq_refl) as [H1 H2]. repeat split; assumption.
  - right. split; [|reflexivity].
    destruct (Qlt_le_dec (0.5 * expected) total) as [H1|H1]; [|left; exact H1].
    destruct (Qlt_le_dec total (2.0 * expected)) as [H2|H2]; [|right; exact H2].
    destruct Hin as [_ Hin]. discriminate (Hin (conj H1 H2)).
Qed.

Lemma C7_witness :
  isSupported "vertical-jump" = true
  /\ stillFor 1000 <> []
  /\ assessTiming (stillFor 1000) "vertical-jump" = Return 0.8.
Proof.
  split; [reflexivity|]. split; [discriminate|].
  destruct (C7_timing_open_band (stillFor 1000) "vertical-jump" eq_refl)
    as (total & expected & Ht & He & _ & [(H1 & _ & _)|[_ H]]);
    [discriminate| |exact H].
  exfalso. injection Ht as <-. subst expected. revert H1.
  vm_compute. congruence.
Defined.

(** C7, as stated, fails on the boundary: a vertical jump recorded over
    1000 ms, exactly 0.5 times the expected 2000 ms, lies within the stated
    band and yet scores 0.8. *)
Lemma C7_counterexample :
  totalDurationOf (stillFor 1000) = Return (1000 - 0)
  /\ expectedDurations "vertical-jump" = Some 2000
  /\ 0.5 * 2000 <= 1000 - 0 <= 2.0 * 2000
  /\ assessTiming (stillFor 1000) "vertical-jump" = Return 0.8
  /\ assessTiming (stillFor 1000) "vertical-jump" <> Return 1.0.
Proof.
  split; [reflexivity|]. split; [reflexivity|].
  split; [split; vm_compute; congruence|].
  split; [reflexivity|]. vm_compute. discriminate.
Qed.

End Timing.

Section Sums.
Import Js Spec.

Lemma fold_left_Qplus_acc (l : list Q) :
  forall a, fold_left Qplus l a == a + fold_right Qplus 0 l.
Proof.
  induction l as [|v l IH]; intros a; simpl.
  - ring.
  - rewrite IH. ring.
Qed.

Lemma reduceSum_nonempty v rest :
  exists s, reduceSum (v :: rest) = Return s
            /\ s == fold_right Qplus 0 (v :: rest).
Proof.
  eexists. split; [reflexivity|]. simpl. apply fold_left_Qplus_acc.
Qed.

Lemma sum_map_ext (f g : Q -> Q) (l : list Q) :
  (forall v, f v == g v) ->
  fold_right Qplus 0 (map f l) == fold_right Qplus 0 (map g l).
Proof.
  intros Hfg. induction l as [|v l IH]; simpl; [reflexivity|].
  rewrite IH, (Hfg v). reflexivity.
Qed.

End Sums.

Section Brightness.
Import Js CheatDetection Spec Examples.
Open Scope string_scope.
Open Scope outcome_scope.

(** [calculateVariance] called with the average of the values as [mean]
    returns their variance. *)
Lemma calculateVariance_with_mean v rest s :
  reduceSum (v :: rest) = Return s ->
  exists var,
    calculateVariance (v :: rest) (Some (s / lengthQ (v :: rest))) = Return var
    /\ var == populationVariance (v :: rest).
Proof.
  intros Hs. set (values := v :: rest) in *.
  set (avg := s / lengthQ values).
  assert (Havg : avg == mean values).
  { unfold avg, mean. destruct (reduceSum_nonempty v rest) as (s' & Hs' & Heq).
    fold values in Hs', Heq. rewrite Hs in Hs'. injection Hs' as <-.
    rewrite Heq. reflexivity. }
  assert (Hbody :
    exists var,
      (let squaredDiffs := map (fun value => (value - avg) * (value - avg)) values in
       s2 <~ reduceSum squaredDiffs ;; Return (s2 / lengthQ values))
      = Return var
      /\ var == populationVariance values).
  { unfold values at 1. cbn [map].
    destruct (reduceSum_nonempty ((v - avg) * (v - avg))
                (map (fun value => (value - avg) * (value - avg)) rest))
      as (s2 & Hs2 & Heq2).
    exists (s2 / lengthQ values). cbn zeta. rewrite Hs2. cbn [bindO].
    split; [reflexivity|].
    unfold populationVariance, mean at 1.
    unfold lengthQ at 2. rewrite length_map. fold (lengthQ values).
    rewrite Heq2.
    change (fold_right Qplus 0
              ((v - avg) * (v - avg)
               :: map (fun value => (value - avg) * (value - avg)) rest))
      with (fold_right Qplus 0
              (map (fun value => (value - avg) * (value - avg)) values)).
    rewrite (sum_map_ext (fun value => (value - avg) * (value - avg))
               (fun value => (value - mean values) * (value - mean values))).
    - reflexivity.
    - intros x. rewrite Havg. reflexivity. }
  destruct Hbody as (var & Hvar & Hspec). exists var. split; [|exact Hspec].
  unfold calculateVariance. fold avg.
  destruct (Qeq_bool avg 0); [rewrite Hs|]; cbn [bindO]; exact Hvar.
Qed.

(** What [checkBrightnessConsistency] returns, when it returns. *)
Lemma checkBrightnessConsistency_inv frames r :
  checkBrightnessConsistency frames = Return r ->
  let brightnessValues := map (fun frame => brightness (data frame)) frames in
  BrightnessConsistency.variance r == populationVariance brightnessValues
  /\ BrightnessConsistency.isConsistent r
     = Qltb (BrightnessConsistency.variance r) 0.1
  /\ BrightnessConsistency.suspiciousFrames r
     = countIf (fun b => Qgtb (Qabs (b - BrightnessConsistency.avgBrightness r)) 0.3)
               brightnessValues.
Proof.
  intros H values. unfold checkBrightnessConsistency in H.
  destruct frames as [|f rest]; [discriminate H|].
  fold values in H.
  destruct (reduceSum values) as [s|] eqn:Hs; [|discriminate H].
  cbn [bindO] in H.
  assert (Hvals : values = brightness (data f)
                           :: map (fun frame => brightness (data frame)) rest)
    by reflexivity.
  rewrite Hvals in Hs.
  destruct (calculateVariance_with_mean _ _ s Hs) as (var & Hvar & Hspec).
  rewrite <- Hvals in Hvar, Hspec.
  rewrite Hvar in H. cbn [bindO] in H. injection H as <-.
  cbn. repeat split; try reflexivity. exact Hspec.
Qed.

End Brightness.

Section BrightnessCheck.
Import Js CheatDetection Spec Examples.
Open Scope string_scope.





End BrightnessCheck.

Section FailOpen.
Import Js CheatDetection Spec Examples.
Open Scope string_scope.

(** The movement-pattern step never returns: if the pattern check itself
    does not throw, the call of the missing [detectRepetitions] does. *)
Lemma analyzeMovementPatterns_throws frames testType :
  exists e, analyzeMovementPatterns frames testType = Throw e.
Proof.
  unfold analyzeMovementPatterns.
  destruct (checkPatternConsistency (extractMovementData frames) testType)
    as [p|e]; eexists; reflexivity.
Qed.

(** Hence the [try] block of [detectCheatAttempts] always ends in a
    throw. *)
Lemma detectCheatAttemptsTry_throws videoUri testType w :
  exists e w', detectCheatAttemptsTry videoUri testType w = (Throw e, w').
Proof.
  unfold detectCheatAttemptsTry, bind, liftO.
  destruct (extractFramesFromVideo videoUri w) as [[frames|e] w'];
    [|eexists; eexists; reflexivity].
  destruct (analyzeFrames frames testType); [|eexists; eexists; reflexivity].
  destruct (checkVideoManipulation frames); [|eexists; eexists; reflexivity].
  destruct (analyzeMovementPatterns_throws frames testType) as [e He].
  rewrite He. eexists; eexists; reflexivity.
Qed.

(** C10.  When a step of the cheat detection throws, [detectCheatAttempts]
    still returns: the result says not suspicious, carries a suspicion
    score of 0, the single issue ['Analysis failed'] and the message of the
    error. *)
Theorem C10_cheat_detection_fails_open :
  forall (videoUri testType : string) (w w' : World) (e : Exn),
    detectCheatAttemptsTry videoUri testType w = (Throw e, w') ->
    exists r,
      detectCheatAttempts videoUri testType w = (Return r, w')
      /\ CheatAnalysis.isSuspicious r = false
      /\ CheatAnalysis.suspicionScore r = 0
      /\ CheatAnalysis.detectedIssues r = ["Analysis failed"]
      /\ CheatAnalysis.recommendations r = ["Please try recording again"]
      /\ CheatAnalysis.detailedAnalysis r = None
      /\ CheatAnalysis.error r = Some (message e).
Proof.
  intros videoUri testType w w' e H.
  unfold detectCheatAttempts, tryCatch. rewrite H.
  eexists. split; [reflexivity|]. repeat split.
Qed.

Lemma C10_witness :
  exists w' r,
    detectCheatAttemptsTry "clip.mp4" "sit-ups" (worldAt 1000)
    = (Throw (TypeError "this.detectRepetitions is not a function"), w')
    /\ detectCheatAttempts "clip.mp4" "sit-ups" (worldAt 1000) = (Return r, w')
    /\ CheatAnalysis.isSuspicious r = false
    /\ CheatAnalysis.suspicionScore r = 0.
Proof.
  assert (H : detectCheatAttemptsTry "clip.mp4" "sit-ups" (worldAt 1000)
              = (Throw (TypeError "this.detectRepetitions is not a function"),
                 mkWorld (randomAt (worldAt 1000)) 350
                         (clockAt (worldAt 1000)) 0 true))
    by reflexivity.
  destruct (C10_cheat_detection_fails_open _ _ _ _ _ H)
    as (r & Hr & Hs & Hz & _).
  exists (mkWorld (randomAt (worldAt 1000)) 350 (clockAt (worldAt 1000)) 0 true), r.
  split; [exact H|]. split; [exact Hr|]. split; [exact Hs|exact Hz].
Defined.

(** In this code every call fails open: the verdict of
    [detectCheatAttempts] is never suspicious and its score is always 0. *)
Lemma detectCheatAttempts_never_suspicious videoUri testType w :
  exists r w',
    detectCheatAttempts videoUri testType w = (Return r, w')
    /\ CheatAnalysis.isSuspicious r = false
    /\ CheatAnalysis.suspicionScore r = 0
    /\ CheatAnalysis.detailedAnalysis r = None.
Proof.
  destruct (detectCheatAttemptsTry_throws videoUri testType w) as (e & w' & H).
  exists (CheatAnalysis.mk false 0 ["Analysis failed"]
            ["Please try recording again"] None (Some (message e))), w'.
  unfold detectCheatAttempts, tryCatch. rewrite H. repeat split.
Qed.

End FailOpen.

Section Boundary.
Import Js OfflineAnalysis Spec Examples.
Open Scope string_scope.

Variable JSON_stringify : option UserProfile -> string.
Variable poseSource : string -> Outcome (list PoseAnalysis).

Local Notation "'runOffline'" := (analyzeVideoOffline JSON_stringify poseSource).
Local Notation "'tryOffline'" := (analyzeVideoOfflineTry JSON_stringify poseSource).
Local Notation "'freshOffline'" := (analyzeFresh poseSource).
Local Notation "'keyOf'" := (cacheKey JSON_stringify).

(** The initialisation step returns and leaves the cache and the world as
    they are. *)
Lemma initialize_step s :
  exists b s1,
    (if isInitialized (service s) then ret true else initialize) s
    = (Return b, s1)
    /\ analysisCache (service s1) = analysisCache (service s)
    /\ world s1 = world s.
Proof.
  destruct s as [[init cache] w]. cbn [service isInitialized].
  destruct init.
  - eexists; eexists. split; [reflexivity|]. split; reflexivity.
  - unfold initialize, bind, getWorld, getService, putService, ret.
    cbn [world service]. destruct (detectorLoads w);
      eexists; eexists; (split; [reflexivity|]); split; reflexivity.
Qed.

(** The [try] block: after initialisation, a cached entry is returned as
    it is, and a miss runs the analysis. *)
Lemma try_unfold videoUri testType userProfile s :
  exists s1,
    analysisCache (service s1) = analysisCache (service s)
    /\ world s1 = world s
    /\ tryOffline videoUri testType userProfile s
       = match mapGet (analysisCache (service s1))
                      (keyOf videoUri testType userProfile) with
         | Some cached => (Return (Completed cached), s1)
         | None =>
             freshOffline videoUri testType userProfile
                   (keyOf videoUri testType userProfile) s1
         end.
Proof.
  destruct (initialize_step s) as (b & s1 & Hinit & Hcache & Hworld).
  exists s1. split; [exact Hcache|]. split; [exact Hworld|].
  unfold analyzeVideoOfflineTry, bind at 1, getService at 1.
  unfold bind at 1. rewrite Hinit.
  unfold bind at 1, getService at 1.
  destruct (mapGet (analysisCache (service s1))
                   (keyOf videoUri testType userProfile)); reflexivity.
Qed.

Lemma mapGet_mapSet {V} (m : list (string * V)) key value :
  mapGet (mapSet m key value) key = Some value.
Proof.
  induction m as [|[k v] m IH]; simpl.
  - rewrite String.eqb_refl. reflexivity.
  - destruct (String.eqb k key) eqn:E; simpl; rewrite E; [reflexivity|exact IH].
Qed.

Lemma setCache_get key value cache :
  mapGet (setCache key value cache) key = Some value.
Proof. unfold setCache. apply mapGet_mapSet. Qed.

(** A completed analysis stores its result in the cache under the key. *)
Lemma fresh_completed videoUri testType userProfile key s1 out s' :
  freshOffline videoUri testType userProfile key s1 = (Return out, s') ->
  exists results,
    out = Completed results
    /\ analysisCache (service s')
       = setCache key results (analysisCache (service s1)).
Proof.
  unfold analyzeFresh, bind, liftO, liftWorld, getService, putService, ret,
    throw.
  intros H.
  destruct (isSupported testType); [|discriminate H].
  destruct (poseSource videoUri) as [poseData|]; [|discriminate H].
  destruct (analyzeMovement poseData testType) as [ma|]; [|discriminate H].
  cbn [world service] in H.
  destruct (CheatDetection.detectCheatAttempts videoUri testType (world s1))
    as [[ca|] w1]; [|discriminate H].
  cbn [world service] in H.
  destruct (performBenchmarking (calculatePerformance ma testType) userProfile)
    as [bm|]; [|discriminate H].
  unfold getDeviceInfo, Date_now, bind, ret in H.
  cbn [world service isInitialized analysisCache] in H.
  injection H as Hout Hs. subst out s'.
  eexists. split; [reflexivity|]. reflexivity.
Qed.

(** The [try] block returns completed analyses only, and the cache then
    holds the returned result under the key of the call. *)
Lemma try_completed videoUri testType userProfile s out s' :
  tryOffline videoUri testType userProfile s = (Return out, s') ->
  exists results,
    out = Completed results
    /\ mapGet (analysisCache (service s'))
              (keyOf videoUri testType userProfile) = Some results.
Proof.
  intros H.
  destruct (try_unfold videoUri testType userProfile s)
    as (s1 & Hcache & Hworld & Htry).
  rewrite Htry in H. clear Htry.
  destruct (mapGet (analysisCache (service s1))
                   (keyOf videoUri testType userProfile)) as [cached|] eqn:Hget.
  - injection H as <- <-. exists cached. split; [reflexivity|exact Hget].
  - apply fresh_completed in H. destruct H as (results & Hout & Hset).
    exists results. split; [exact Hout|]. rewrite Hset. apply setCache_get.
Qed.



(** C9, as the code has it.  On one service, once an analysis has
    completed, a further run on the same video, test kind and profile
    returns the very same result from the cache, whatever the clock and the
    random generator have become in between. *)
Theorem C9_repeat_run_served_from_cache :
  forall (videoUri testType : string) (userProfile : option UserProfile)
         (s s1 : St) (results : Results.t) (later : World),
    runOffline videoUri testType userProfile s
    = (Return (Completed results), s1) ->
    exists s2,
      runOffline videoUri testType userProfile (mkSt (service s1) later)
      = (Return (Completed results), s2).
Proof.
  intros videoUri testType userProfile s s1 results later H.
  unfold analyzeVideoOffline, tryCatch in H.
  destruct (tryOffline videoUri testType userProfile s) as [[out|e] s'] eqn:Htry;
    [|discriminate H].
  injection H as -> ->.
  destruct (try_completed _ _ _ _ _ _ Htry) as (results' & Hout & Hget).
  injection Hout as <-.
  destruct (try_unfold videoUri testType userProfile (mkSt (service s1) later))
    as (s2 & Hcache & _ & Hunf).
  cbn [service] in Hcache. rewrite Hcache, Hget in Hunf.
  exists s2. unfold analyzeVideoOffline, tryCatch. rewrite Hunf. reflexivity.
Qed.

End Boundary.

Section BoundaryExamples.
Import Js OfflineAnalysis Spec Examples.
Open Scope string_scope.

Local Notation "'runExample'" := (analyzeVideoOffline renderProfile stillPoses).


(** A stage that fails inside the analysis, here the call of the missing
    [identifyShuttlePhases], is reported in the same way. *)
Lemma shuttle_run_fails :
  fst (runExample "clip.mp4" "shuttle-run" emptyProfile (freshAt 1000))
  = Return (Failed "this.identifyShuttlePhases is not a function"
                   (generateFallbackResults "clip.mp4" "shuttle-run")).
Proof. lazy. reflexivity. Qed.

(** So is a [null] profile, which makes the benchmarking throw. *)
Lemma null_profile_fails :
  fst (runExample "clip.mp4" "vertical-jump" None (freshAt 1000))
  = Return (Failed "Cannot read properties of null (reading 'age')"
                   (generateFallbackResults "clip.mp4" "vertical-jump")).
Proof. lazy. reflexivity. Qed.

Lemma first_run_timestamp :
  timestampOf
    (fst (runExample "clip.mp4" "vertical-jump" emptyProfile (freshAt 1000)))
  = Some 1000%Z.
Proof. lazy. reflexivity. Qed.

Lemma later_run_timestamp :
  timestampOf
    (fst (runExample "clip.mp4" "vertical-jump" emptyProfile (freshAt 2000)))
  = Some 2000%Z.
Proof. lazy. reflexivity. Qed.

Lemma C9_witness :
  exists results s1 s2,
    runExample "clip.mp4" "vertical-jump" emptyProfile (freshAt 1000)
    = (Return (Completed results), s1)
    /\ runExample "clip.mp4" "vertical-jump" emptyProfile
         (mkSt (service s1) (worldAt 5000))
       = (Return (Completed results), s2).
Proof.
  pose proof first_run_timestamp as Ht.
  destruct (runExample "clip.mp4" "vertical-jump" emptyProfile (freshAt 1000))
    as [[[results|m fb]|e] s1] eqn:Hrun; try discriminate Ht.
  destruct (C9_repeat_run_served_from_cache renderProfile stillPoses
              "clip.mp4" "vertical-jump" emptyProfile (freshAt 1000) s1
              results (worldAt 5000) Hrun) as (s2 & Hagain).
  exists results, s1, s2. split; [reflexivity|exact Hagain].
Defined.

(** C9, as stated, fails.  The same video, test kind and profile, analysed
    by a service with an empty cache and the same random generator, give
    results that differ when the clock differs: the result carries the
    time of the run. *)
Lemma C9_counterexample :
  service (freshAt 1000) = service (freshAt 2000)
  /\ randomAt (world (freshAt 1000)) = randomAt (world (freshAt 2000))
  /\ timestampOf
       (fst (runExample "clip.mp4" "vertical-jump" emptyProfile (freshAt 1000)))
     = Some 1000%Z
  /\ timestampOf
       (fst (runExample "clip.mp4" "vertical-jump" emptyProfile (freshAt 2000)))
     = Some 2000%Z
  /\ fst (runExample "clip.mp4" "vertical-jump" emptyProfile (freshAt 1000))
     <> fst (runExample "clip.mp4" "vertical-jump" emptyProfile (freshAt 2000)).
Proof.
  split; [reflexivity|]. split; [reflexivity|].
  split; [exact first_run_timestamp|]. split; [exact later_run_timestamp|].
  intros H. apply (f_equal timestampOf) in H.
  rewrite first_run_timestamp, later_run_timestamp in H. discriminate H.
Qed.



End BoundaryExamples.

(** ** Further properties of the two services *)

Section Variance.
Import Js CheatDetection Spec.
Open Scope string_scope.

Lemma square_nonneg (x : Q) : 0 <= x * x.
Proof.
  destruct (Qlt_le_dec x 0) as [Hneg|Hpos].
  - assert (E : x * x == (- x) * (- x)) by ring.
    rewrite E. apply Qmult_le_0_compat; lra.
  - apply Qmult_le_0_compat; exact Hpos.
Qed.

Lemma sum_of_squares_nonneg (c : Q) (l : list Q) :
  0 <= fold_right Qplus 0 (map (fun v => (v - c) * (v - c)) l).
Proof.
  induction l as [|v l IH]; simpl; [lra|].
  pose proof (square_nonneg (v - c)). lra.
Qed.

Lemma lengthQ_pos {A} (a : A) (l : list A) : 0 < lengthQ (a :: l).
Proof.
  unfold lengthQ. change 0 with (inject_Z 0). rewrite <- Zlt_Qlt.
  simpl List.length. lia.
Qed.

(** [calculateVariance] on a non-empty array, whatever [mean] is passed:
    the mean of the squared deviations from the average it settles on. *)
Lemma calculateVariance_nonempty v rest mean :
  exists avg,
    calculateVariance (v :: rest) mean
    = Return (fold_left Qplus
                (map (fun value => (value - avg) * (value - avg)) rest)
                ((v - avg) * (v - avg))
              / lengthQ (v :: rest))
    /\ (mean = None -> avg == Spec.mean (v :: rest)).
Proof.
  unfold calculateVariance.
  destruct mean as [m|].
  - destruct (Qeq_bool m 0).
    + eexists. split; [reflexivity|discriminate].
    + eexists. split; [reflexivity|discriminate].
  - eexists. split; [reflexivity|]. intros _.
    unfold Spec.mean. simpl fold_right.
    rewrite fold_left_Qplus_acc. reflexivity.
Qed.

Lemma calculateVariance_nonempty_spec v rest mean :
  exists var,
    calculateVariance (v :: rest) mean = Return var
    /\ 0 <= var
    /\ (mean = None -> var == populationVariance (v :: rest)).
Proof.
  destruct (calculateVariance_nonempty v rest mean) as (avg & Hret & Havg).
  eexists. split; [exact Hret|].
  assert (Hsum :
    fold_left Qplus (map (fun value => (value - avg) * (value - avg)) rest)
              ((v - avg) * (v - avg))
    == fold_right Qplus 0
         (map (fun value => (value - avg) * (value - avg)) (v :: rest))).
  { rewrite fold_left_Qplus_acc. reflexivity. }
  split.
  - rewrite Hsum. apply Qle_shift_div_l; [apply lengthQ_pos|].
    rewrite Qmult_0_l. apply sum_of_squares_nonneg.
  - intros Hnone. specialize (Havg Hnone). rewrite Hsum.
    unfold populationVariance. unfold Spec.mean at 1.
    unfold lengthQ at 2. rewrite length_map. fold (lengthQ (v :: rest)).
    rewrite (sum_map_ext (fun value => (value - avg) * (value - avg))
               (fun value => (value - Spec.mean (v :: rest))
                             * (value - Spec.mean (v :: rest)))).
    + reflexivity.
    + intros x. rewrite Havg. reflexivity.
Qed.



End Variance.

Section Extraction.
Import Js CheatDetection Spec SpecFrames.
Open Scope string_scope.

Lemma simulateFrameData_spec i w :
  simulateFrameData i w
  = (Return (data (frameFromRandoms (randomAt w) (randomPos w) i)),
     advanceRandom w 7).
Proof.
  destruct w as [r p c cp d]. unfold advanceRandom, frameFromRandoms.
  cbn [randomAt randomPos clockAt clockPos detectorLoads data].
  replace (p + 1)%nat with (S p) by lia.
  replace (p + 2)%nat with (S (S p)) by lia.
  replace (p + 3)%nat with (S (S (S p))) by lia.
  replace (p + 4)%nat with (S (S (S (S p)))) by lia.
  replace (p + 5)%nat with (S (S (S (S (S p))))) by lia.
  replace (p + 6)%nat with (S (S (S (S (S (S p)))))) by lia.
  replace (p + 7)%nat with (S (S (S (S (S (S (S p))))))) by lia.
  reflexivity.
Qed.

Lemma advanceRandom_add w a b :
  advanceRandom (advanceRandom w a) b = advanceRandom w (a + b).
Proof.
  unfold advanceRandom. cbn [randomAt randomPos clockAt clockPos detectorLoads].
  f_equal. lia.
Qed.

(** The extraction loop returns [n] frames and reads seven random numbers
    for each. *)
Lemma extractFramesLoop_spec n :
  forall i w,
    exists frames,
      extractFramesLoop n i w = (Return frames, advanceRandom w (7 * n))
      /\ List.length frames = n
      /\ forall k, (k < n)%nat ->
           nth_error frames k
           = Some (frameFromRandoms (randomAt w) (randomPos w + 7 * k) (i + k)).
Proof.
  induction n as [|n IH]; intros i w.
  - exists []. split; [|split].
    + unfold advanceRandom. destruct w as [r p c cp d].
      cbn [extractFramesLoop ret randomAt randomPos clockAt clockPos
           detectorLoads].
      replace (p + 7 * 0)%nat with p by lia. reflexivity.
    + reflexivity.
    + intros k Hk. lia.
  - destruct (IH (S i) (advanceRandom w 7)) as (rest & Hloop & Hlen & Hnth).
    exists (frameFromRandoms (randomAt w) (randomPos w) i :: rest).
    split; [|split].
    + cbn [extractFramesLoop]. unfold bind at 1.
      rewrite simulateFrameData_spec. unfold bind at 1. rewrite Hloop.
      unfold ret. rewrite advanceRandom_add. f_equal. f_equal. lia.
    + simpl. rewrite Hlen. reflexivity.
    + intros [|k] Hk.
      * simpl. f_equal. f_equal; [f_equal; lia|lia].
      * simpl. rewrite Hnth by lia.
        unfold advanceRandom. cbn [randomAt randomPos].
        f_equal. f_equal; lia.
Qed.

End Extraction.

Section Stages.
Import Js CheatDetection Spec SpecFrames.
Open Scope string_scope.
Open Scope outcome_scope.

Lemma calculateVariance_returns v rest mean :
  exists var, calculateVariance (v :: rest) mean = Return var.
Proof.
  destruct (calculateVariance_nonempty v rest mean) as (avg & H & _).
  eexists. exact H.
Qed.

Lemma checkBrightnessConsistency_returns f rest :
  exists r, checkBrightnessConsistency (f :: rest) = Return r.
Proof.
  unfold checkBrightnessConsistency. cbn [map reduceSum bindO].
  match goal with
  | |- context [calculateVariance (?v :: ?l) ?m] =>
      destruct (calculateVariance_returns v l m) as (var & ->)
  end.
  eexists. reflexivity.
Qed.

Lemma checkFrameRateConsistency_returns f1 f2 rest :
  exists r, checkFrameRateConsistency (f1 :: f2 :: rest) = Return r.
Proof.
  unfold checkFrameRateConsistency. cbn [map consecutiveDiffs reduceSum bindO].
  match goal with
  | |- context [calculateVariance (?v :: ?l) ?m] =>
      destruct (calculateVariance_returns v l m) as (var & ->)
  end.
  eexists. reflexivity.
Qed.

Lemma analyzeFrames_returns f1 f2 rest testType :
  exists fa, analyzeFrames (f1 :: f2 :: rest) testType = Return fa.
Proof.
  unfold analyzeFrames.
  destruct (checkBrightnessConsistency_returns f1 (f2 :: rest)) as (b & ->).
  destruct (checkFrameRateConsistency_returns f1 f2 rest) as (fr & ->).
  cbn [bindO]. eexists. reflexivity.
Qed.

Lemma checkVideoManipulation_returns f rest :
  exists mc, checkVideoManipulation (f :: rest) = Return mc.
Proof.
  unfold checkVideoManipulation, detectCompressionArtifacts,
    detectEdgeInconsistencies.
  cbn [map reduceSum bindO].
  match goal with
  | |- context [calculateVariance (?v :: ?l) ?m] =>
      destruct (calculateVariance_returns v l m) as (var & ->)
  end.
  eexists. reflexivity.
Qed.

Lemma isRegularSpacing_returns peaks :
  exists b, isRegularSpacing peaks = Return b.
Proof.
  unfold isRegularSpacing.
  destruct peaks as [|p [|q peaks]]; try (eexists; reflexivity).
Qed.

Lemma identifyPattern_returns d rest :
  exists p, identifyPattern (d :: rest) = Return p.
Proof.
  unfold identifyPattern. cbn [map reduceSum bindO].
  destruct (Qltb _ 10); [eexists; reflexivity|].
  unfold hasRepetitivePattern.
  destruct (Nat.ltb 3 _).
  - destruct (isRegularSpacing_returns
                (findPeaks (md_motion d :: map md_motion rest))) as (b & ->).
    cbn [bindO]. destruct b; [eexists; reflexivity|].
    unfold hasBurstPattern. cbn [reduceSum bindO].
    destruct (Qgtb _ _); [eexists; reflexivity|].
    destruct (hasBackAndForthPattern _); [eexists; reflexivity|].
    unfold hasSteadyPattern.
    destruct (calculateVariance_returns (md_motion d) (map md_motion rest) None)
      as (var & ->).
    cbn [bindO]. destruct (_ && _); eexists; reflexivity.
  - cbn [bindO].
    unfold hasBurstPattern. cbn [reduceSum bindO].
    destruct (Qgtb _ _); [eexists; reflexivity|].
    destruct (hasBackAndForthPattern _); [eexists; reflexivity|].
    unfold hasSteadyPattern.
    destruct (calculateVariance_returns (md_motion d) (map md_motion rest) None)
      as (var & ->).
    cbn [bindO]. destruct (_ && _); eexists; reflexivity.
Qed.

(** With at least one frame the movement-pattern step reaches the call of
    the missing method, and that is where it throws. *)
Lemma analyzeMovementPatterns_message f rest testType :
  analyzeMovementPatterns (f :: rest) testType
  = Throw (TypeError "this.detectRepetitions is not a function").
Proof.
  unfold analyzeMovementPatterns, checkPatternConsistency, extractMovementData.
  cbn [map].
  match goal with
  | |- context [identifyPattern (?d :: ?l)] =>
      destruct (identifyPattern_returns d l) as (p & ->)
  end.
  reflexivity.
Qed.

End Stages.

Section ExtractionProperties.
Import Js CheatDetection Spec SpecFrames Examples.
Open Scope string_scope.
Open Scope outcome_scope.

Lemma extractFramesFromVideo_spec videoUri w :
  exists frames,
    extractFramesFromVideo videoUri w = (Return frames, advanceRandom w 350)
    /\ List.length frames = 50%nat
    /\ forall k, (k < 50)%nat ->
         nth_error frames k
         = Some (frameFromRandoms (randomAt w) (randomPos w + 7 * k) k).
Proof.
  destruct (extractFramesLoop_spec 50 0 w) as (frames & Hloop & Hlen & Hnth).
  exists frames. split; [|split; [exact Hlen|exact Hnth]].
  unfold extractFramesFromVideo, tryCatch, maxFrameHistory. rewrite Hloop.
  reflexivity.
Qed.

(** X2.  Frame extraction never throws and does not look at the video: it
    returns 50 frames numbered from 0, frame [i] stamped [i * (1000 / 30)],
    each built from seven consecutive random numbers, so that 350 numbers are read and the
    clock is not.  When the generator yields numbers in [[0, 1)], as
    [Math.random] does, every frame has a brightness between 0.5 and 1, a
    motion in [[0, 100)], an edge count in [[0, 1000)] and a colour
    variance in [[0, 50)]. *)
Theorem X2_extractFramesFromVideo_shape :
  forall (videoUri : string) (w : World),
    exists frames,
      extractFramesFromVideo videoUri w = (Return frames, advanceRandom w 350)
      /\ List.length frames = 50%nat
      /\ (forall k frame,
            nth_error frames k = Some frame ->
            id frame = k
            /\ timestamp frame == inject_Z (Z.of_nat k) * (1000 / 30)
            /\ brightness (data frame)
               = 0.5 + randomAt w (randomPos w + 7 * k) * 0.5)
      /\ ((forall n, 0 <= randomAt w n /\ randomAt w n < 1) ->
          forall frame,
            In frame frames ->
            0.5 <= brightness (data frame) /\ brightness (data frame) <= 1
            /\ 0 <= motion (data frame) /\ motion (data frame) < 100
            /\ 0 <= edges (data frame) /\ edges (data frame) < 1000
            /\ 0 <= ColorDistribution.variance (colors (data frame))
            /\ ColorDistribution.variance (colors (data frame)) < 50).
Proof.
  intros videoUri w.
  destruct (extractFramesFromVideo_spec videoUri w)
    as (frames & Hrun & Hlen & Hnth).
  exists frames. split; [exact Hrun|]. split; [exact Hlen|]. split.
  - intros k frame Hk.
    assert (Hlt : (k < 50)%nat).
    { rewrite <- Hlen. apply nth_error_Some. congruence. }
    specialize (Hnth k Hlt).
    remember (randomPos w + 7 * k)%nat as p eqn:Hp.
    rewrite Hnth in Hk. injection Hk as <-.
    split; [reflexivity|]. split; reflexivity.
  - intros Hrange frame Hin.
    apply In_nth_error in Hin. destruct Hin as [k Hk].
    assert (Hlt : (k < 50)%nat).
    { rewrite <- Hlen. apply nth_error_Some. congruence. }
    specialize (Hnth k Hlt).
    remember (randomPos w + 7 * k)%nat as p eqn:Hp.
    rewrite Hnth in Hk. injection Hk as <-.
    unfold frameFromRandoms.
    cbn [data brightness motion edges colors ColorDistribution.variance].
    pose proof (Hrange p) as [H0 H1].
    pose proof (Hrange (p + 2)%nat) as [H2 H3].
    pose proof (Hrange (p + 3)%nat) as [H4 H5].
    pose proof (Hrange (p + 5)%nat) as [H6 H7].
    repeat split; lra.
Qed.

Lemma worldAt_range start n :
  0 <= randomAt (worldAt start) n /\ randomAt (worldAt start) n < 1.
Proof.
  unfold worldAt. cbn [randomAt].
  pose proof (Nat.mod_upper_bound n 10) as Hub.
  assert (Hz : (0 <= Z.of_nat (Nat.modulo n 10) < 10)%Z) by lia.
  destruct Hz as [Hlo Hhi].
  rewrite Zle_Qle in Hlo. rewrite Zlt_Qlt in Hhi.
  change (inject_Z 0) with 0 in Hlo. change (inject_Z 10) with 10 in Hhi.
  split.
  - apply Qle_shift_div_l; [reflexivity|]. lra.
  - apply Qlt_shift_div_r; [reflexivity|]. lra.
Qed.

Lemma X2_witness :
  (forall n, 0 <= randomAt (worldAt 1000) n /\ randomAt (worldAt 1000) n < 1)
  /\ exists frames,
       extractFramesFromVideo "clip.mp4" (worldAt 1000)
       = (Return frames, advanceRandom (worldAt 1000) 350)
       /\ forall frame, In frame frames -> brightness (data frame) <= 1.
Proof.
  split; [apply worldAt_range|].
  destruct (X2_extractFramesFromVideo_shape "clip.mp4" (worldAt 1000))
    as (frames & Hrun & _ & _ & Hrange).
  exists frames. split; [exact Hrun|].
  intros frame Hin.
  destruct (Hrange (worldAt_range 1000) frame Hin) as (_ & H & _).
  exact H.
Defined.

Lemma detectCheatAttempts_result videoUri testType w :
  detectCheatAttempts videoUri testType w
  = (Return (CheatAnalysis.mk false 0 ["Analysis failed"]
               ["Please try recording again"] None
               (Some "this.detectRepetitions is not a function")),
     advanceRandom w 350).
Proof.
  destruct (extractFramesFromVideo_spec videoUri w)
    as (frames & Hrun & Hlen & _).
  destruct frames as [|f1 [|f2 rest]]; try discriminate Hlen.
  unfold detectCheatAttempts, tryCatch, detectCheatAttemptsTry.
  unfold bind at 1. rewrite Hrun.
  unfold bind at 1, liftO at 1.
  destruct (analyzeFrames_returns f1 f2 rest testType) as (fa & ->).
  unfold bind at 1, liftO at 1.
  destruct (checkVideoManipulation_returns f1 (f2 :: rest)) as (mc & ->).
  unfold bind at 1, liftO at 1.
  rewrite analyzeMovementPatterns_message.
  reflexivity.
Qed.

(** X1.  [detectCheatAttempts] returns the same object for every video,
    every test kind and every state of the random generator: not
    suspicious, score 0, the issue ['Analysis failed'] and the message of
    the [TypeError] raised by the call of the missing
    [detectRepetitions].  No check ever reaches the combination; the call
    reads 350 random numbers and leaves the clock alone. *)
Theorem X1_detectCheatAttempts_constant :
  forall (videoUri testType : string) (w : World),
    exists r,
      detectCheatAttempts videoUri testType w = (Return r, advanceRandom w 350)
      /\ CheatAnalysis.isSuspicious r = false
      /\ CheatAnalysis.suspicionScore r = 0
      /\ CheatAnalysis.detectedIssues r = ["Analysis failed"]
      /\ CheatAnalysis.recommendations r = ["Please try recording again"]
      /\ CheatAnalysis.detailedAnalysis r = None
      /\ CheatAnalysis.error r
         = Some "this.detectRepetitions is not a function".
Proof.
  intros videoUri testType w. eexists.
  split; [apply detectCheatAttempts_result|]. repeat split.
Qed.

(** X4.  How many frames each stage of the cheat detection needs: the
    frame analysis throws on fewer than two frames and returns otherwise;
    the manipulation and assistance checks return on every non-empty frame
    list and throw on the empty one; the movement-pattern analysis throws
    on every frame list. *)
Theorem X4_stage_frame_requirements :
  forall (frames : list Frame) (testType : string),
    ((List.length frames < 2)%nat ->
     analyzeFrames frames testType
     = Throw (TypeError "Reduce of empty array with no initial value"))
    /\ ((2 <= List.length frames)%nat ->
        exists fa, analyzeFrames frames testType = Return fa)
    /\ (frames = [] ->
        checkVideoManipulation frames
        = Throw (TypeError "Reduce of empty array with no initial value")
        /\ checkExternalAssistance frames
           = Throw (TypeError "Reduce of empty array with no initial value"))
    /\ (frames <> [] ->
        (exists mc, checkVideoManipulation frames = Return mc)
        /\ (exists ac, checkExternalAssistance frames = Return ac))
    /\ (exists e, analyzeMovementPatterns frames testType = Throw e).
Proof.
  intros frames testType. split; [|split; [|split; [|split]]].
  - intros Hlen. destruct frames as [|f [|f2 rest]];
      [reflexivity| |simpl in Hlen; lia].
    unfold analyzeFrames.
    destruct (checkBrightnessConsistency_returns f []) as (b & ->).
    reflexivity.
  - intros Hlen. destruct frames as [|f1 [|f2 rest]];
      try (simpl in Hlen; lia).
    apply analyzeFrames_returns.
  - intros ->. split; reflexivity.
  - intros Hne. destruct frames as [|f rest]; [congruence|]. split.
    + apply checkVideoManipulation_returns.
    + eexists. reflexivity.
  - apply analyzeMovementPatterns_throws.
Qed.

Lemma X4_witness :
  (2 <= List.length flickering)%nat
  /\ exists fa, analyzeFrames flickering "sit-ups" = Return fa.
Proof.
  split; [simpl; lia|].
  destruct (X4_stage_frame_requirements flickering "sit-ups") as (_ & H & _).
  apply H. simpl. lia.
Defined.

End ExtractionProperties.

Section Combination.
Import Js CheatDetection Spec SpecFrames Examples.
Open Scope string_scope.
Open Scope outcome_scope.

Ltac destruct_check_flags fa mc mp ac :=
  destruct fa as [[?b1 ? ? ?] [?b2 ? ? ?] ? ? ?];
  destruct mc as [[?b3 ? ?] ? ? [?b4 ? ?]];
  destruct mp as [[?b5 ? ? ?] ? ? ?];
  destruct ac as [[?b6 ? ?] ? ? [?b7 ? ?]].

(** X5.  The combination reports one issue per triggered check.  The
    recommendations are never empty: there is one per triggered check, or
    the single line ['Video analysis completed successfully'] when no check
    triggered. *)
Theorem X5_issues_and_recommendations :
  forall (fa : FrameAnalysis) (mc : ManipulationCheck)
         (mp : MovementPatternAnalysis) (ac : AssistanceCheck),
    let r := combineAnalysisResults fa mc mp ac in
    let triggered := countIf (fun f => f) (triggeredChecks fa mc mp ac) in
    List.length (Combined.issues r) = triggered
    /\ List.length (Combined.recommendations r) = Nat.max 1 triggered
    /\ (Combined.recommendations r = ["Video analysis completed successfully"]
        <-> triggered = 0%nat).
Proof.
  intros fa mc mp ac. destruct_check_flags fa mc mp ac.
  destruct b1, b2, b3, b4, b5, b6, b7;
    (split; [reflexivity|]); (split; [reflexivity|]);
    (split; intros H; [try discriminate H; reflexivity
                      |try discriminate H; reflexivity]).
Qed.

(** X6.  No two checks make a recording suspicious: with at most two
    checks triggered the score is at most 0.55, the sum of the two largest
    weights, and does not exceed the threshold 0.7. *)
Theorem X6_suspicious_needs_three_checks :
  forall (fa : FrameAnalysis) (mc : ManipulationCheck)
         (mp : MovementPatternAnalysis) (ac : AssistanceCheck),
    (countIf (fun f => f) (triggeredChecks fa mc mp ac) <= 2)%nat ->
    Combined.suspicionScore (combineAnalysisResults fa mc mp ac) <= 0.55
    /\ Qgtb (Combined.suspicionScore (combineAnalysisResults fa mc mp ac))
            cheatThreshold = false.
Proof.
  intros fa mc mp ac. destruct_check_flags fa mc mp ac.
  destruct b1, b2, b3, b4, b5, b6, b7; intros H;
    try (exfalso; revert H; cbn; lia);
    (split; [apply Qle_bool_iff; reflexivity|reflexivity]).
Qed.

End Combination.

Section CombinationExamples.
Import Js CheatDetection Spec SpecFrames Examples CheckExamples.
Open Scope string_scope.

Lemma X6_witness :
  (countIf (fun f => f)
     (triggeredChecks darkAndSpliced splicedOnly patternAsExpected nobodyElse)
   <= 2)%nat
  /\ Combined.suspicionScore
       (combineAnalysisResults darkAndSpliced splicedOnly patternAsExpected
                               nobodyElse) == 0.45
  /\ Qgtb (Combined.suspicionScore
             (combineAnalysisResults darkAndSpliced splicedOnly
                                     patternAsExpected nobodyElse))
          cheatThreshold = false.
Proof.
  split; [cbn; lia|]. split; [reflexivity|].
  apply (X6_suspicious_needs_three_checks
           darkAndSpliced splicedOnly patternAsExpected nobodyElse).
  cbn. lia.
Defined.

End CombinationExamples.

Section Assistance.
Import Js CheatDetection Spec SpecFrames Examples.
Open Scope string_scope.
Open Scope outcome_scope.

(** X7.  The assistance check never reports a second person or a
    suspicious object, whatever the frames: its weight of 0.25 is never
    added, the total of the weights is then at most 1, and the cap at 1
    leaves the total as it is. *)
Theorem X7_second_person_never_reported :
  forall (frames : list Frame) (ac : AssistanceCheck),
    checkExternalAssistance frames = Return ac ->
    MultiplePeople.hasMultiplePeople (multiplePeople ac) = false
    /\ SuspiciousObjects.hasSuspiciousObjects (objectDetection ac) = false
    /\ forall fa mc mp,
         totalSuspicionScore (combineTally fa mc mp ac) <= 1
         /\ Combined.suspicionScore (combineAnalysisResults fa mc mp ac)
            == totalSuspicionScore (combineTally fa mc mp ac).
Proof.
  intros frames ac H. unfold checkExternalAssistance in H.
  destruct (checkEnvironmentConsistency frames) as [e|]; [|discriminate H].
  cbn [bindO] in H. injection H as <-.
  split; [reflexivity|]. split; [reflexivity|].
  intros fa mc mp.
  destruct fa as [[b1 ? ? ?] [b2 ? ? ?] ? ? ?].
  destruct mc as [[b3 ? ?] ? ? [b4 ? ?]].
  destruct mp as [[b5 ? ? ?] ? ? ?].
  destruct e as [b7 ? ?].
  destruct b1, b2, b3, b4, b5, b7;
    (split; [apply Qle_bool_iff; reflexivity|apply Qeq_bool_iff; reflexivity]).
Qed.

Lemma X7_witness :
  exists ac,
    checkExternalAssistance flickering = Return ac
    /\ MultiplePeople.hasMultiplePeople (multiplePeople ac) = false.
Proof.
  eexists. split; [reflexivity|].
  apply (X7_second_person_never_reported flickering _ eq_refl).
Defined.

(** X8.  The colour check of the frame analysis and the environment check
    of the assistance analysis decide alike: both throw on an empty frame
    list, and on any other both report the same average colour variance
    and the same verdict, consistent exactly when that average is below
    30. *)
Theorem X8_colour_and_environment_agree :
  forall (frames : list Frame),
    (frames = [] ->
     checkColorConsistency frames
     = Throw (TypeError "Reduce of empty array with no initial value")
     /\ checkEnvironmentConsistency frames
        = Throw (TypeError "Reduce of empty array with no initial value"))
    /\ (frames <> [] ->
        exists c e,
          checkColorConsistency frames = Return c
          /\ checkEnvironmentConsistency frames = Return e
          /\ ColorConsistency.avgVariance c = EnvironmentConsistency.avgVariance e
          /\ ColorConsistency.isConsistent c = EnvironmentConsistency.isConsistent e
          /\ (EnvironmentConsistency.isConsistent e = true
              <-> EnvironmentConsistency.avgVariance e < 30)).
Proof.
  intros frames. split.
  - intros ->. split; reflexivity.
  - intros Hne. destruct frames as [|f rest]; [congruence|].
    eexists. eexists. split; [reflexivity|]. split; [reflexivity|].
    split; [reflexivity|]. split; [reflexivity|].
    cbn [EnvironmentConsistency.isConsistent EnvironmentConsistency.avgVariance].
    apply Qltb_lt.
Qed.

Lemma X8_witness :
  flickering <> []
  /\ exists e,
       checkEnvironmentConsistency flickering = Return e
       /\ EnvironmentConsistency.isConsistent e = true.
Proof.
  split; [discriminate|].
  destruct (X8_colour_and_environment_agree flickering) as [_ H].
  destruct H as (c & e & _ & He & _ & _ & Hiff); [discriminate|].
  exists e. split; [exact He|].
  apply Hiff. injection He as <-. reflexivity.
Defined.

End Assistance.

Section Splicing.
Import Js CheatDetection Spec SpecFrames Examples.
Open Scope string_scope.
Open Scope outcome_scope.




End Splicing.

Section ManipulationConfidence.
Import Js CheatDetection Spec SpecFrames Examples.
Open Scope string_scope.
Open Scope outcome_scope.


(** X10.  The confidences of the manipulation checks agree with their
    flags.  Compression artifacts are flagged exactly when the confidence
    [max(0, 1 - avgEdges / 100)] is positive; edge inconsistencies are
    flagged exactly when the confidence [min(1, variance / 1000)] exceeds
    0.5, and that confidence lies in [[0, 1]]. *)
Theorem X10_manipulation_confidence :
  forall (frames : list Frame) (c : CompressionArtifacts.t)
         (e : EdgeInconsistencies.t),
    detectCompressionArtifacts frames = Return c ->
    detectEdgeInconsistencies frames = Return e ->
    0 <= CompressionArtifacts.confidence c
    /\ (CompressionArtifacts.hasArtifacts c = true
        <-> 0 < CompressionArtifacts.confidence c)
    /\ 0 <= EdgeInconsistencies.variance e
    /\ 0 <= EdgeInconsistencies.confidence e <= 1
    /\ (EdgeInconsistencies.hasInconsistencies e = true
        <-> 0.5 < EdgeInconsistencies.confidence e).
Proof.
  intros frames c e Hc He.
  destruct frames as [|f rest]; [discriminate Hc|].
  unfold detectCompressionArtifacts in Hc. cbn [map reduceSum bindO] in Hc.
  injection Hc as <-.
  cbn [CompressionArtifacts.confidence CompressionArtifacts.hasArtifacts].
  set (avgEdges := _ / lengthQ _). clearbody avgEdges.
  unfold detectEdgeInconsistencies in He. cbn [map] in He.
  destruct (calculateVariance_nonempty_spec
              (edges (data f)) (map (fun frame => edges (data frame)) rest)
              None) as (var & Hret & Hnonneg & _).
  rewrite Hret in He. cbn [bindO] in He. injection He as <-.
  cbn [EdgeInconsistencies.confidence EdgeInconsistencies.hasInconsistencies
       EdgeInconsistencies.variance].
  unfold Qdiv. change (/ 100) with (1 # 100). change (/ 1000) with (1 # 1000).
  split; [apply Q.le_max_l|]. split.
  { rewrite Qltb_lt, Q.max_lt_iff. split.
    - intros H. right. lra.
    - intros [H|H]; lra. }
  split; [exact Hnonneg|]. split.
  { split; [|apply Q.le_min_l]. apply Q.min_glb; lra. }
  rewrite Qgtb_gt, Q.min_glb_lt_iff. split.
  - intros H. split; lra.
  - intros [_ H]. lra.
Qed.

Lemma X10_witness :
  exists c e,
    detectCompressionArtifacts flickering = Return c
    /\ detectEdgeInconsistencies flickering = Return e
    /\ CompressionArtifacts.hasArtifacts c = false
    /\ 0 <= EdgeInconsistencies.confidence e <= 1.
Proof.
  eexists. eexists. split; [reflexivity|]. split; [reflexivity|].
  split; [reflexivity|].
  apply (X10_manipulation_confidence flickering _ _ eq_refl eq_refl).
Defined.

End ManipulationConfidence.

Section VarianceBounds.
Import Js CheatDetection Spec SpecFrames Examples.
Open Scope string_scope.
Open Scope outcome_scope.

Local Notation "'sumQ'" := (fold_right Qplus 0).

(** The sum of the squared deviations from any [x]. *)
Lemma sum_squares_expand (x : Q) (l : list Q) :
  sumQ (map (fun v => (v - x) * (v - x)) l)
  == sumQ (map (fun v => v * v) l) - 2 * x * sumQ l + lengthQ l * (x * x).
Proof.
  induction l as [|v l IH].
  - unfold lengthQ. simpl. ring.
  - cbn [map fold_right]. rewrite IH.
    assert (Hlen : lengthQ (v :: l) == lengthQ l + 1).
    { unfold lengthQ. cbn [List.length]. rewrite Nat2Z.inj_succ.
      unfold Z.succ. rewrite inject_Z_plus. reflexivity. }
    rewrite Hlen. ring.
Qed.

Lemma mean_times_length v l :
  lengthQ (v :: l) * Spec.mean (v :: l) == sumQ (v :: l).
Proof.
  unfold Spec.mean. field.
  pose proof (lengthQ_pos v l) as H. intros E. rewrite E in H. lra.
Qed.

(** The mean minimises the sum of the squared deviations. *)
Lemma mean_minimises v l (c : Q) :
  sumQ (map (fun u => (u - Spec.mean (v :: l)) * (u - Spec.mean (v :: l)))
            (v :: l))
  <= sumQ (map (fun u => (u - c) * (u - c)) (v :: l)).
Proof.
  set (values := v :: l). set (m := Spec.mean values).
  rewrite (sum_squares_expand m values), (sum_squares_expand c values).
  pose proof (mean_times_length v l) as Hm. fold values m in Hm.
  rewrite <- Hm.
  pose proof (square_nonneg (c - m)) as Hsq.
  pose proof (lengthQ_pos v l) as Hn. fold values in Hn.
  assert (Hprod : 0 <= lengthQ values * ((c - m) * (c - m)))
    by (apply Qmult_le_0_compat; lra).
  assert (E : sumQ (map (fun u => u * u) values) - 2 * c * (lengthQ values * m)
              + lengthQ values * (c * c)
              == sumQ (map (fun u => u * u) values)
                 - 2 * m * (lengthQ values * m) + lengthQ values * (m * m)
                 + lengthQ values * ((c - m) * (c - m))) by ring.
  rewrite E. lra.
Qed.

Lemma sum_squares_bounded (a b : Q) (l : list Q) :
  Forall (fun v => a <= v /\ v <= b) l ->
  sumQ (map (fun v => (v - (a + b) * (1 # 2)) * (v - (a + b) * (1 # 2))) l)
  <= lengthQ l * ((b - a) * (1 # 2) * ((b - a) * (1 # 2))).
Proof.
  induction 1 as [|v l [Ha Hb] _ IH].
  - unfold lengthQ. cbn [map fold_right List.length Z.of_nat].
    change (inject_Z 0) with 0. rewrite Qmult_0_l. apply Qle_refl.
  - cbn [map fold_right].
    assert (Hlen : lengthQ (v :: l) == lengthQ l + 1).
    { unfold lengthQ. cbn [List.length]. rewrite Nat2Z.inj_succ.
      unfold Z.succ. rewrite inject_Z_plus. reflexivity. }
    rewrite Hlen.
    assert (Hv : (v - (a + b) * (1 # 2)) * (v - (a + b) * (1 # 2))
                 <= (b - a) * (1 # 2) * ((b - a) * (1 # 2))).
    { assert (Hprod : 0 <= (b - v) * (v - a))
        by (apply Qmult_le_0_compat; lra).
      assert (E : (b - a) * (1 # 2) * ((b - a) * (1 # 2))
                  - (v - (a + b) * (1 # 2)) * (v - (a + b) * (1 # 2))
                  == (b - v) * (v - a)) by ring.
      lra. }
    assert (E : (lengthQ l + 1) * ((b - a) * (1 # 2) * ((b - a) * (1 # 2)))
                == lengthQ l * ((b - a) * (1 # 2) * ((b - a) * (1 # 2)))
                   + (b - a) * (1 # 2) * ((b - a) * (1 # 2))) by ring.
    rewrite E. lra.
Qed.

(** The variance of values that lie in [[a, b]] is at most
    [((b - a) / 2)^2]. *)
Lemma variance_of_bounded_values (a b : Q) v l :
  Forall (fun u => a <= u /\ u <= b) (v :: l) ->
  populationVariance (v :: l)
  <= (b - a) * (1 # 2) * ((b - a) * (1 # 2)).
Proof.
  intros Hall. set (values := v :: l) in *.
  pose proof (lengthQ_pos v l) as Hn. fold values in Hn.
  unfold populationVariance. unfold Spec.mean at 1.
  unfold lengthQ at 1. rewrite length_map. fold (lengthQ values).
  apply Qle_shift_div_r; [exact Hn|].
  eapply Qle_trans; [apply (mean_minimises v l ((a + b) * (1 # 2)))|].
  fold values.
  eapply Qle_trans; [apply (sum_squares_bounded a b values Hall)|].
  rewrite Qmult_comm. apply Qle_refl.
Qed.

(** The variance of values that are all equal is 0. *)
Lemma variance_of_equal_values (c : Q) v l :
  Forall (fun u => u == c) (v :: l) ->
  populationVariance (v :: l) == 0.
Proof.
  intros Hall. apply Qle_antisym.
  - assert (Hb : Forall (fun u => c <= u /\ u <= c) (v :: l)).
    { eapply Forall_impl; [|exact Hall]. intros u Hu. rewrite Hu. lra. }
    pose proof (variance_of_bounded_values c c v l Hb) as H.
    assert (E : (c - c) * (1 # 2) * ((c - c) * (1 # 2)) == 0) by ring.
    rewrite E in H. exact H.
  - destruct (calculateVariance_nonempty_spec v l None) as (var & _ & H0 & Hv).
    rewrite <- (Hv eq_refl). exact H0.
Qed.

End VarianceBounds.

Section ExtractedFrames.
Import Js CheatDetection Spec SpecFrames Examples.
Open Scope string_scope.
Open Scope outcome_scope.



(** Timestamps in arithmetic progression have equal differences. *)
Lemma diffs_of_progression (c : Q) (ts : list Q) :
  forall i,
    (forall k t, nth_error ts k = Some t ->
                 t == inject_Z (Z.of_nat (i + k)) * c) ->
    Forall (fun d => d == c) (consecutiveDiffs ts).
Proof.
  induction ts as [|u ts IH]; intros i H; [constructor|].
  destruct ts as [|v rest]; [constructor|].
  cbn [consecutiveDiffs]. constructor.
  - rewrite (H 0%nat u eq_refl), (H 1%nat v eq_refl).
    replace (i + 1)%nat with (S (i + 0)) by lia.
    rewrite Nat2Z.inj_succ. unfold Z.succ. rewrite inject_Z_plus. ring.
  - apply (IH (S i)). intros k t Hk.
    rewrite (H (S k) t Hk). replace (i + S k)%nat with (S i + k)%nat by lia.
    reflexivity.
Qed.

Lemma mean_of_equal_values (c : Q) v l :
  Forall (fun u => u == c) (v :: l) -> Spec.mean (v :: l) == c.
Proof.
  intros Hall.
  assert (Hsum : forall l', Forall (fun u => u == c) l' ->
                            fold_right Qplus 0 l' == lengthQ l' * c).
  { induction 1 as [|u l' Hu _ IH].
    - unfold lengthQ. cbn [fold_right List.length Z.of_nat].
      change (inject_Z 0) with 0. ring.
    - assert (Hlen : lengthQ (u :: l') == lengthQ l' + 1).
      { unfold lengthQ. cbn [List.length]. rewrite Nat2Z.inj_succ.
        unfold Z.succ. rewrite inject_Z_plus. reflexivity. }
      cbn [fold_right]. cbv beta in Hu. rewrite Hlen, IH, Hu. ring. }
  unfold Spec.mean. rewrite (Hsum _ Hall). field.
  pose proof (lengthQ_pos v l) as H. intros E. rewrite E in H. lra.
Qed.

Lemma countIf_none {A} (f : A -> bool) (l : list A) :
  Forall (fun x => f x = false) l -> countIf f l = 0%nat.
Proof.
  unfold countIf. induction 1 as [|x l Hx _ IH]; [reflexivity|].
  cbn [filter]. rewrite Hx. exact IH.
Qed.

(** What [checkFrameRateConsistency] returns on two frames or more. *)
Lemma checkFrameRateConsistency_inv f1 f2 rest :
  let timeDiffs := consecutiveDiffs (map timestamp (f1 :: f2 :: rest)) in
  exists r,
    checkFrameRateConsistency (f1 :: f2 :: rest) = Return r
    /\ FrameRateConsistency.variance r == populationVariance timeDiffs
    /\ FrameRateConsistency.avgFrameTime r == Spec.mean timeDiffs
    /\ FrameRateConsistency.isConsistent r
       = Qltb (FrameRateConsistency.variance r) 50
    /\ FrameRateConsistency.suspiciousDrops r
       = countIf (fun diff =>
                    Qgtb diff (FrameRateConsistency.avgFrameTime r * 2))
                 timeDiffs.
Proof.
  intros timeDiffs. unfold checkFrameRateConsistency.
  fold timeDiffs.
  assert (Hd : timeDiffs
               = (timestamp f2 - timestamp f1)
                   :: consecutiveDiffs (map timestamp (f2 :: rest)))
    by reflexivity.
  set (d := timestamp f2 - timestamp f1) in Hd.
  set (ds := consecutiveDiffs (map timestamp (f2 :: rest))) in Hd.
  clearbody timeDiffs. subst timeDiffs.
  destruct (reduceSum_nonempty d ds) as (s & Hs & Hsum).
  rewrite Hs. cbn [bindO].
  destruct (calculateVariance_with_mean d ds s Hs) as (var & Hvar & Hspec).
  rewrite Hvar. cbn [bindO].
  eexists. split; [reflexivity|].
  cbn [FrameRateConsistency.variance FrameRateConsistency.avgFrameTime
       FrameRateConsistency.isConsistent FrameRateConsistency.suspiciousDrops].
  split; [exact Hspec|]. split.
  - unfold Spec.mean. rewrite Hsum. reflexivity.
  - split; reflexivity.
Qed.

(** The frames that the extraction yields, with the ranges of their
    fields when the generator stays in [[0, 1)]. *)
Lemma extracted_frames_facts videoUri w frames w' :
  extractFramesFromVideo videoUri w = (Return frames, w') ->
  w' = advanceRandom w 350
  /\ List.length frames = 50%nat
  /\ (forall k frame,
        nth_error frames k = Some frame ->
        frame = frameFromRandoms (randomAt w) (randomPos w + 7 * k) k).
Proof.
  intros H.
  destruct (extractFramesFromVideo_spec videoUri w)
    as (frames0 & Hrun & Hlen & Hnth).
  rewrite Hrun in H. injection H as <- <-.
  split; [reflexivity|]. split; [exact Hlen|].
  intros k frame Hk.
  assert (Hlt : (k < 50)%nat).
  { rewrite <- Hlen. apply nth_error_Some. congruence. }
  rewrite (Hnth k Hlt) in Hk. injection Hk as <-. reflexivity.
Qed.

(** X12.  On the frames that the service extracts itself, two of the
    checks never trigger.  The frame-rate check counts no drop and reports
    the frame rate consistent; and when the generator yields numbers in
    [[0, 1)], the brightness check reports the lighting consistent. *)
Theorem X12_extracted_frames_pass_two_checks :
  forall (videoUri : string) (w w' : World) (frames : list Frame),
    extractFramesFromVideo videoUri w = (Return frames, w') ->
    (exists f,
       checkFrameRateConsistency frames = Return f
       /\ FrameRateConsistency.suspiciousDrops f = 0%nat
       /\ FrameRateConsistency.isConsistent f = true)
    /\ ((forall n, 0 <= randomAt w n /\ randomAt w n < 1) ->
        exists b,
          checkBrightnessConsistency frames = Return b
          /\ BrightnessConsistency.isConsistent b = true).
Proof.
  intros videoUri w w' frames Hrun.
  destruct (extracted_frames_facts _ _ _ _ Hrun) as (_ & Hlen & Hnth).
  destruct frames as [|f1 [|f2 rest]]; try discriminate Hlen.
  set (frames := f1 :: f2 :: rest) in *.
  split.
  - destruct (checkFrameRateConsistency_inv f1 f2 rest)
      as (f & Hret & Hvar & Havg & Hcons & Hdrops).
    fold frames in Hret, Hvar, Havg, Hdrops.
    set (timeDiffs := consecutiveDiffs (map timestamp frames)) in *.
    assert (Hdiffs : Forall (fun d => d == 1000 / 30) timeDiffs).
    { apply (diffs_of_progression (1000 / 30) (map timestamp frames) 0).
      intros k t Hk. rewrite nth_error_map in Hk.
      destruct (nth_error frames k) as [frame|] eqn:Hf; [|discriminate Hk].
      injection Hk as <-. rewrite (Hnth k frame Hf). reflexivity. }
    assert (Hshape : exists d ds, timeDiffs = d :: ds)
      by (eexists; eexists; reflexivity).
    destruct Hshape as (d & ds & Hshape). rewrite Hshape in *.
    pose proof (variance_of_equal_values _ _ _ Hdiffs) as Hzero.
    pose proof (mean_of_equal_values _ _ _ Hdiffs) as Hmean.
    exists f. split; [exact Hret|]. split.
    + rewrite Hdrops. apply countIf_none.
      eapply Forall_impl; [|exact Hdiffs].
      intros x Hx. apply Qgtb_le. rewrite Hx, Havg, Hmean.
      apply Qle_bool_iff. reflexivity.
    + rewrite Hcons. apply Qltb_lt. rewrite Hvar, Hzero. reflexivity.
  - intros Hrange.
    destruct (checkBrightnessConsistency_returns f1 (f2 :: rest)) as (b & Hb).
    fold frames in Hb.
    assert (Hband :
      Forall (fun frame => 0.5 <= brightness (data frame)
                           /\ brightness (data frame) <= 1) frames).
    { apply Forall_forall. intros frame Hin.
      apply In_nth_error in Hin. destruct Hin as [k Hk].
      rewrite (Hnth k frame Hk).
      remember (randomPos w + 7 * k)%nat as p eqn:Hp.
      unfold frameFromRandoms. cbn [data brightness].
      pose proof (Hrange p) as [H0 H1]. split; lra. }
    destruct (checkBrightnessConsistency_inv frames b Hb) as (Hvar & Hcons & _).
    assert (Hvalues :
      Forall (fun u => 0.5 <= u /\ u <= 1)
             (map (fun frame => brightness (data frame)) frames)).
    { apply Forall_map. exact Hband. }
    subst frames. cbn [map] in Hvalues, Hvar.
    pose proof (variance_of_bounded_values 0.5 1 _ _ Hvalues) as Hbound.
    rewrite <- Hvar in Hbound.
    assert (Hle : BrightnessConsistency.variance b <= 0.0625).
    { eapply Qle_trans; [exact Hbound|]. apply Qle_bool_iff. reflexivity. }
    exists b. split; [exact Hb|].
    rewrite Hcons. apply Qltb_lt.
    eapply Qle_lt_trans; [exact Hle|]. reflexivity.
Qed.

End ExtractedFrames.

Section PhaseStructure.
Import Js OfflineAnalysis Spec SpecPhases Examples.
Open Scope string_scope.
Open Scope outcome_scope.

Variable poseData : list PoseAnalysis.
Variable testType : string.

(** The loop of [identifyRepetitivePhases], run on the part of [poseData]
    from index [i] on, emits contiguous phases whose durations are read off
    the timestamps of their frames. *)
Lemma repetitiveLoop_structure rest :
  forall i isUpPhase phaseStart,
    (phaseStart < i)%nat ->
    (i + List.length rest = List.length poseData)%nat ->
    (forall k, nth_error rest k = nth_error poseData (i + k)) ->
    let phases := repetitiveLoop poseData testType rest i isUpPhase phaseStart in
    contiguousFrom phaseStart phases (List.length poseData - 1)
    /\ Forall (durationFromFrames poseData) phases
    /\ (List.length phases <= List.length rest)%nat.
Proof.
  induction rest as [|currPose rest IH]; intros i up ps Hps Hlen Hnth.
  - cbn. split; [exact I|]. split; [constructor|lia].
  - assert (Hcurr : timestampAt poseData i = timestamp currPose).
    { unfold timestampAt. rewrite <- (Nat.add_0_r i) at 1.
      rewrite <- (Hnth 0%nat). reflexivity. }
    assert (Hrest : forall k, nth_error rest k = nth_error poseData (S i + k)).
    { intros k.
      change (nth_error rest k) with (nth_error (currPose :: rest) (S k)).
      rewrite Hnth. f_equal. lia. }
    cbn [List.length] in Hlen.
    assert (Hlen' : (S i + List.length rest = List.length poseData)%nat) by lia.
    pose proof (IH (S i) false i (Nat.lt_succ_diag_r i) Hlen' Hrest) as IHdown.
    pose proof (IH (S i) true i (Nat.lt_succ_diag_r i) Hlen' Hrest) as IHup.
    assert (Hps' : (ps < S i)%nat) by lia.
    pose proof (IH (S i) up ps Hps' Hlen' Hrest) as IHsame.
    cbn zeta in IHdown, IHup, IHsame |- *.
    cbn [repetitiveLoop].
    destruct (up && Qltb (orNum (repetitionAngle testType currPose) 90) 60).
    + destruct IHdown as (Hc & Hd & Hl).
      split; [|split].
      * cbn [contiguousFrom startFrame endFrame].
        split; [reflexivity|]. split; [exact Hps|]. split; [lia|exact Hc].
      * constructor; [|exact Hd].
        unfold durationFromFrames. cbn [duration startFrame endFrame].
        rewrite Hcurr. reflexivity.
      * cbn [List.length]. lia.
    + destruct (negb up && Qgtb (orNum (repetitionAngle testType currPose) 90) 120).
      * destruct IHup as (Hc & Hd & Hl).
        split; [|split].
        -- cbn [contiguousFrom startFrame endFrame].
           split; [reflexivity|]. split; [exact Hps|]. split; [lia|exact Hc].
        -- constructor; [|exact Hd].
           unfold durationFromFrames. cbn [duration startFrame endFrame].
           rewrite Hcurr. reflexivity.
        -- cbn [List.length]. lia.
      * destruct IHsame as (Hc & Hd & Hl).
        split; [exact Hc|]. split; [exact Hd|]. cbn [List.length]. lia.
Qed.

End PhaseStructure.

Section RepetitivePhases.
Import Js OfflineAnalysis Spec SpecPhases Examples.
Open Scope string_scope.
Open Scope outcome_scope.

(** X13.  The phases of a cyclic test are contiguous and lie within the
    recording: the first starts at frame 0, each ends at a later frame than
    it starts, the next starts at the frame where it ended, and none ends
    after the last frame.  The duration of each is the time between its two
    frames, in seconds.  There is at most one phase per frame after the
    first, so [n] poses give at most [(n - 1) / 2] repetitions. *)
Theorem X13_repetitive_phases_contiguous :
  forall (poseData : list PoseAnalysis) (testType : string),
    let phases := identifyRepetitivePhases poseData testType in
    contiguousFrom 0 phases (List.length poseData - 1)
    /\ Forall (durationFromFrames poseData) phases
    /\ (List.length phases <= List.length poseData - 1)%nat
    /\ (countRepetitiveMovements poseData testType
        <= Nat.div (List.length poseData - 1) 2)%nat.
Proof.
  intros poseData testType phases.
  assert (H : contiguousFrom 0 phases (List.length poseData - 1)
              /\ Forall (durationFromFrames poseData) phases
              /\ (List.length phases <= List.length poseData - 1)%nat).
  { destruct poseData as [|first rest].
    - cbn. split; [exact I|]. split; [constructor|lia].
    - pose proof (repetitiveLoop_structure (first :: rest) testType rest
                    1 true 0) as Hloop.
      cbn zeta in Hloop. cbn [List.length] in Hloop.
      destruct Hloop as (Hc & Hd & Hl); [lia|lia|intros k; reflexivity|].
      unfold phases, identifyRepetitivePhases. cbn [tl List.length].
      split; [exact Hc|]. split; [exact Hd|]. lia. }
  destruct H as (Hc & Hd & Hl).
  split; [exact Hc|]. split; [exact Hd|]. split; [exact Hl|].
  unfold countRepetitiveMovements. fold phases.
  apply Nat.Div0.div_le_mono. exact Hl.
Qed.

Lemma repetitiveLoop_no_dip poseData testType rest :
  Forall (fun p => 60 <= orNum (repetitionAngle testType p) 90) rest ->
  forall i phaseStart,
    repetitiveLoop poseData testType rest i true phaseStart = [].
Proof.
  induction 1 as [|p rest Hp _ IH]; intros i ps; [reflexivity|].
  cbn [repetitiveLoop]. apply Qltb_ge in Hp. rewrite Hp.
  cbn [andb negb]. apply IH.
Qed.

(** X14.  A cyclic test in which the tracked angle never falls below 60
    after the first frame, as when the angle is missing from every pose and
    90 is assumed, has no phase and no repetition; its movement quality
    cannot be assessed, the variance of no duration being taken, and the
    movement analysis throws. *)
Theorem X14_no_dip_no_analysis :
  forall (poseData : list PoseAnalysis) (testType : string),
    isRepetitive testType = true ->
    Forall (fun p => 60 <= orNum (repetitionAngle testType p) 90)
           (tl poseData) ->
    identifyRepetitivePhases poseData testType = []
    /\ countRepetitions poseData testType = 0%nat
    /\ (exists e, assessMovementQuality poseData testType = Throw e)
    /\ (exists e, analyzeMovement poseData testType = Throw e).
Proof.
  intros poseData testType Hrep Hangles.
  assert (Hphases : identifyRepetitivePhases poseData testType = [])
    by (apply repetitiveLoop_no_dip; exact Hangles).
  assert (Hquality : exists e, assessMovementQuality poseData testType = Throw e).
  { unfold assessMovementQuality.
    destruct (assessForm poseData testType) as [form|e];
      [|eexists; reflexivity].
    cbn [bindO]. unfold assessConsistency. rewrite Hrep, Hphases.
    eexists. reflexivity. }
  split; [exact Hphases|]. split.
  - unfold countRepetitions, countRepetitiveMovements.
    rewrite Hrep, Hphases. reflexivity.
  - split; [exact Hquality|].
    destruct Hquality as [e He]. unfold analyzeMovement.
    destruct (identifyMovementPhases poseData testType);
      [|eexists; reflexivity].
    cbn [bindO]. rewrite He. eexists. reflexivity.
Qed.

Lemma X14_witness :
  isRepetitive "sit-ups" = true
  /\ Forall (fun p => 60 <= orNum (repetitionAngle "sit-ups" p) 90)
            (tl (stillFor 2000))
  /\ countRepetitions (stillFor 2000) "sit-ups" = 0%nat.
Proof.
  assert (H : Forall (fun p => 60 <= orNum (repetitionAngle "sit-ups" p) 90)
                     (tl (stillFor 2000))).
  { constructor; [apply Qle_bool_iff; reflexivity|constructor]. }
  split; [reflexivity|]. split; [exact H|].
  apply (X14_no_dip_no_analysis (stillFor 2000) "sit-ups" eq_refl H).
Defined.

End RepetitivePhases.

Section JumpPhases.
Import Js OfflineAnalysis Spec SpecPhases Examples.
Open Scope string_scope.
Open Scope outcome_scope.

Variable poseData : list PoseAnalysis.

Lemma jumpLoop_step prevPose currPose rest i currentPhase phaseStart :
  jumpLoop poseData prevPose (currPose :: rest) i currentPhase phaseStart
  = let kneeAngleChange := getKneeAngleChange prevPose currPose in
    let centerOfMassChange := getCenterOfMassChange prevPose currPose in
    let d := (timestamp currPose - timestampAt poseData phaseStart) / 1000 in
    if String.eqb currentPhase "standing" && Qgtb kneeAngleChange 20 then
      mkPhase "crouch" phaseStart i d
        :: jumpLoop poseData currPose rest (S i) "crouch" i
    else if String.eqb currentPhase "crouch" && Qgtb centerOfMassChange 0.1 then
      mkPhase "jump" phaseStart i d
        :: jumpLoop poseData currPose rest (S i) "jump" i
    else if String.eqb currentPhase "jump" && Qltb centerOfMassChange (-0.05) then
      mkPhase "landing" phaseStart i d
        :: jumpLoop poseData currPose rest (S i) "landing" i
    else jumpLoop poseData currPose rest (S i) currentPhase phaseStart.
Proof. reflexivity. Qed.

Lemma jumpLoop_landing rest :
  forall prevPose i phaseStart,
    jumpLoop poseData prevPose rest i "landing" phaseStart = [].
Proof.
  induction rest as [|currPose rest IH]; intros prev i ps; [reflexivity|].
  rewrite jumpLoop_step. cbn zeta.
  change (String.eqb "landing" "standing") with false.
  change (String.eqb "landing" "crouch") with false.
  change (String.eqb "landing" "jump") with false.
  cbn [andb]. apply IH.
Qed.

Lemma jumpLoop_jump rest :
  forall prevPose i phaseStart,
    exists n,
      map phase (jumpLoop poseData prevPose rest i "jump" phaseStart)
      = firstn n ["landing"].
Proof.
  induction rest as [|currPose rest IH]; intros prev i ps;
    [exists 0%nat; reflexivity|].
  rewrite jumpLoop_step. cbn zeta.
  change (String.eqb "jump" "standing") with false.
  change (String.eqb "jump" "crouch") with false.
  change (String.eqb "jump" "jump") with true.
  cbn [andb].
  destruct (Qltb _ (-0.05)).
  - exists 1%nat. cbn [map phase]. rewrite jumpLoop_landing. reflexivity.
  - apply IH.
Qed.

Lemma jumpLoop_crouch rest :
  forall prevPose i phaseStart,
    exists n,
      map phase (jumpLoop poseData prevPose rest i "crouch" phaseStart)
      = firstn n ["jump"; "landing"].
Proof.
  induction rest as [|currPose rest IH]; intros prev i ps;
    [exists 0%nat; reflexivity|].
  rewrite jumpLoop_step. cbn zeta.
  change (String.eqb "crouch" "standing") with false.
  change (String.eqb "crouch" "crouch") with true.
  change (String.eqb "crouch" "jump") with false.
  cbn [andb].
  destruct (Qgtb _ 0.1).
  - destruct (jumpLoop_jump rest currPose (S i) i) as [n Hn].
    exists (S n). cbn [map phase firstn]. rewrite Hn. reflexivity.
  - apply IH.
Qed.

Lemma jumpLoop_standing rest :
  forall prevPose i phaseStart,
    exists n,
      map phase (jumpLoop poseData prevPose rest i "standing" phaseStart)
      = firstn n ["crouch"; "jump"; "landing"].
Proof.
  induction rest as [|currPose rest IH]; intros prev i ps;
    [exists 0%nat; reflexivity|].
  rewrite jumpLoop_step. cbn zeta.
  change (String.eqb "standing" "standing") with true.
  change (String.eqb "standing" "crouch") with false.
  change (String.eqb "standing" "jump") with false.
  cbn [andb].
  destruct (Qgtb _ 20).
  - destruct (jumpLoop_crouch rest currPose (S i) i) as [n Hn].
    exists (S n). cbn [map phase firstn]. rewrite Hn. reflexivity.
  - apply IH.
Qed.

(** Whatever the state, the jump loop emits contiguous phases, with
    durations read off the timestamps. *)
Lemma jumpLoop_structure rest :
  forall prevPose i currentPhase phaseStart,
    (phaseStart < i)%nat ->
    (i + List.length rest = List.length poseData)%nat ->
    (forall k, nth_error rest k = nth_error poseData (i + k)) ->
    let phases :=
      jumpLoop poseData prevPose rest i currentPhase phaseStart in
    contiguousFrom phaseStart phases (List.length poseData - 1)
    /\ Forall (durationFromFrames poseData) phases.
Proof.
  induction rest as [|currPose rest IH]; intros prev i st ps Hps Hlen Hnth.
  - cbn. split; [exact I|constructor].
  - assert (Hcurr : timestampAt poseData i = timestamp currPose).
    { unfold timestampAt. rewrite <- (Nat.add_0_r i) at 1.
      rewrite <- (Hnth 0%nat). reflexivity. }
    assert (Hrest : forall k, nth_error rest k = nth_error poseData (S i + k)).
    { intros k.
      change (nth_error rest k) with (nth_error (currPose :: rest) (S k)).
      rewrite Hnth. f_equal. lia. }
    cbn [List.length] in Hlen.
    assert (Hlen' : (S i + List.length rest = List.length poseData)%nat) by lia.
    assert (Hnew : forall st',
      let phases := jumpLoop poseData currPose rest (S i) st' i in
      contiguousFrom i phases (List.length poseData - 1)
      /\ Forall (durationFromFrames poseData) phases).
    { intros st'. apply IH; [lia|exact Hlen'|exact Hrest]. }
    assert (Hemit : forall label st',
      contiguousFrom ps
        (mkPhase label ps i
           ((timestamp currPose - timestampAt poseData ps) / 1000)
           :: jumpLoop poseData currPose rest (S i) st' i)
        (List.length poseData - 1)
      /\ Forall (durationFromFrames poseData)
           (mkPhase label ps i
              ((timestamp currPose - timestampAt poseData ps) / 1000)
              :: jumpLoop poseData currPose rest (S i) st' i)).
    { intros label st'. destruct (Hnew st') as [Hc Hd]. split.
      - cbn [contiguousFrom startFrame endFrame].
        split; [reflexivity|]. split; [exact Hps|]. split; [lia|exact Hc].
      - constructor; [|exact Hd].
        unfold durationFromFrames. cbn [duration startFrame endFrame].
        rewrite Hcurr. reflexivity. }
    cbn zeta. rewrite jumpLoop_step. cbn zeta.
    destruct (_ && Qgtb _ 20); [apply Hemit|].
    destruct (_ && Qgtb _ 0.1); [apply Hemit|].
    destruct (_ && Qltb _ (-0.05)); [apply Hemit|].
    apply IH; [lia|exact Hlen'|exact Hrest].
Qed.

End JumpPhases.

Section JumpPhasesTheorem.
Import Js OfflineAnalysis Spec SpecPhases Examples.
Open Scope string_scope.

(** X15.  The phases of a vertical jump are a beginning of the sequence
    crouch, jump, landing: at most three, in that order, each at most once.
    They are contiguous from frame 0, with durations read off the
    timestamps.  The form score is 1 exactly when all three were found, and
    a jump phase, on which the height estimate rests, exists exactly when
    two or more were found. *)
Theorem X15_jump_phases_in_order :
  forall (poseData : list PoseAnalysis),
    let phases := identifyJumpPhases poseData in
    (exists n, map phase phases = firstn n ["crouch"; "jump"; "landing"])
    /\ (List.length phases <= 3)%nat
    /\ contiguousFrom 0 phases (List.length poseData - 1)
    /\ Forall (durationFromFrames poseData) phases
    /\ (assessJumpForm poseData = 1.0 <-> List.length phases = 3%nat)
    /\ findJumpPhase phases = nth_error phases 1.
Proof.
  intros poseData phases.
  assert (Hlabels : exists n,
            map phase phases = firstn n ["crouch"; "jump"; "landing"]).
  { unfold phases, identifyJumpPhases.
    destruct poseData as [|first rest]; [exists 0%nat; reflexivity|].
    apply jumpLoop_standing. }
  assert (Hlen : (List.length phases <= 3)%nat).
  { destruct Hlabels as [n Hn]. rewrite <- (length_map phase), Hn.
    rewrite length_firstn. cbn [List.length]. lia. }
  split; [exact Hlabels|]. split; [exact Hlen|].
  assert (Hstruct : contiguousFrom 0 phases (List.length poseData - 1)
                    /\ Forall (durationFromFrames poseData) phases).
  { unfold phases, identifyJumpPhases.
    destruct poseData as [|first rest]; [split; [exact I|constructor]|].
    apply (jumpLoop_structure (first :: rest) rest first 1 "standing" 0);
      [lia|reflexivity|intros k; reflexivity]. }
  destruct Hstruct as [Hc Hd].
  split; [exact Hc|]. split; [exact Hd|]. split.
  - unfold assessJumpForm. fold phases.
    destruct (Nat.leb 3 (List.length phases)) eqn:E.
    + apply Nat.leb_le in E. split; [intros _; lia|reflexivity].
    + apply Nat.leb_gt in E. split; [discriminate|lia].
  - destruct Hlabels as [n Hn]. unfold findJumpPhase.
    destruct phases as [|p1 [|p2 rest]].
    + reflexivity.
    + destruct n as [|n]; [discriminate Hn|].
      cbn in Hn. injection Hn as Hp1 _.
      cbn [find]. rewrite Hp1. reflexivity.
    + destruct n as [|[|n]]; try discriminate Hn.
      cbn in Hn. injection Hn as Hp1 Hp2 _.
      cbn [find nth_error]. rewrite Hp1, Hp2. reflexivity.
Qed.

End JumpPhasesTheorem.

Section QualityBounds.
Import Js OfflineAnalysis Spec SpecPhases Examples.
Open Scope string_scope.
Open Scope outcome_scope.

Lemma pushUpLoop_le poses :
  forall s r, pushUpLoop poses s = Return r -> r <= s.
Proof.
  induction poses as [|pose poses IH]; intros s r H.
  - cbn in H. injection H as <-. apply Qle_refl.
  - cbn [pushUpLoop] in H.
    destruct (keypointY (leftShoulder (keypoints pose))); [|discriminate H].
    destruct (keypointY (leftHip (keypoints pose))); [|discriminate H].
    cbn [bindO] in H.
    destruct (Qgtb _ 0.1).
    + apply IH in H. lra.
    + apply IH in H. exact H.
Qed.

Lemma assessForm_range poseData testType form :
  assessForm poseData testType = Return form ->
  0 <= form <= 1
  /\ (isRepetitive testType = false -> 0.5 <= form)
  /\ (testType = "sit-ups" -> 0.7 <= form).
Proof.
  unfold assessForm, isRepetitive. intros H.
  destruct (String.eqb testType "sit-ups") eqn:Esit.
  - injection H as <-. unfold assessSitUpForm.
    destruct poseData; [|destruct (Qltb _ 90)];
      (split; [split; apply Qle_bool_iff; reflexivity|]);
      (split; [discriminate|intros _; apply Qle_bool_iff; reflexivity]).
  - apply String.eqb_neq in Esit.
    destruct (String.eqb testType "push-ups") eqn:Epush.
    + unfold assessPushUpForm in H.
      destruct (pushUpLoop poseData 1.0) as [s|] eqn:Es; [|discriminate H].
      cbn [bindO] in H. injection H as <-.
      apply pushUpLoop_le in Es.
      split; [split; [apply Q.le_max_l|apply Q.max_lub; lra]|].
      split; [discriminate|congruence].
    + destruct (String.eqb testType "vertical-jump").
      * injection H as <-. unfold assessJumpForm.
        destruct (Nat.leb 3 _);
          (split; [split; apply Qle_bool_iff; reflexivity|]);
          (split; [intros _; apply Qle_bool_iff; reflexivity|congruence]).
      * injection H as <-.
        split; [split; apply Qle_bool_iff; reflexivity|].
        split; [intros _; apply Qle_bool_iff; reflexivity|congruence].
Qed.

Lemma assessConsistency_values poseData testType c :
  assessConsistency poseData testType = Return c ->
  (c = 1.0 \/ c = 0.7) /\ (isRepetitive testType = false -> c = 1.0).
Proof.
  unfold assessConsistency. intros H.
  destruct (isRepetitive testType).
  - destruct (calculateVariance _ None) as [var|]; [|discriminate H].
    cbn [bindO] in H. injection H as <-.
    split; [|discriminate]. destruct (Qltb var 0.5); [left|right]; reflexivity.
  - injection H as <-. split; [left; reflexivity|reflexivity].
Qed.

Lemma assessRangeOfMotion_values poseData testType :
  let r := assessRangeOfMotion poseData testType in
  (r = 1.0 \/ r = 0.8 \/ r = 0.7)
  /\ (isRepetitive testType = false -> r = 1.0)
  /\ (testType = "sit-ups" -> r = 1.0 \/ r = 0.8).
Proof.
  unfold assessRangeOfMotion, isRepetitive.
  destruct (String.eqb testType "sit-ups") eqn:Esit.
  - destruct (map _ poseData); [|destruct (Qltb _ 45)];
      (split; [tauto|]); (split; [discriminate|tauto]).
  - apply String.eqb_neq in Esit.
    destruct (String.eqb testType "push-ups").
    + destruct (map _ poseData); [|destruct (Qltb _ 60)];
        (split; [tauto|]); (split; [discriminate|congruence]).
    + split; [tauto|]. split; [reflexivity|congruence].
Qed.

Lemma assessTiming_values poseData testType t :
  assessTiming poseData testType = Return t -> t = 1.0 \/ t = 0.8.
Proof.
  unfold assessTiming. intros H.
  destruct (totalDurationOf poseData); [|discriminate H].
  cbn [bindO] in H. injection H as <-.
  destruct (_ && _); [left|right]; reflexivity.
Qed.

Lemma assessMovementQuality_scores poseData testType mq :
  assessMovementQuality poseData testType = Return mq ->
  exists form consistency timing,
    assessForm poseData testType = Return form
    /\ assessConsistency poseData testType = Return consistency
    /\ assessTiming poseData testType = Return timing
    /\ MovementQuality.detailedScores mq
       = Scores.mk form consistency
                   (assessRangeOfMotion poseData testType) timing
    /\ MovementQuality.overallScore mq
       = (form + consistency + assessRangeOfMotion poseData testType + timing)
         / 4.
Proof.
  unfold assessMovementQuality. intros H.
  destruct (assessForm poseData testType) as [form|]; [|discriminate H].
  destruct (assessConsistency poseData testType) as [cons|]; [|discriminate H].
  destruct (assessTiming poseData testType) as [timing|]; [|discriminate H].
  cbn [bindO] in H. injection H as <-.
  exists form, cons, timing. repeat split; reflexivity.
Qed.

Lemma movement_quality_ranges :
  forall (poseData : list PoseAnalysis) (testType : string)
         (mq : MovementQuality.t),
    assessMovementQuality poseData testType = Return mq ->
    let d := MovementQuality.detailedScores mq in
    let s := MovementQuality.overallScore mq in
    0 <= Scores.form d <= 1
    /\ (Scores.consistency d = 1.0 \/ Scores.consistency d = 0.7)
    /\ (Scores.rangeOfMotion d = 1.0 \/ Scores.rangeOfMotion d = 0.8
        \/ Scores.rangeOfMotion d = 0.7)
    /\ (Scores.timing d = 1.0 \/ Scores.timing d = 0.8)
    /\ 0.55 <= s <= 1
    /\ (isRepetitive testType = false ->
        0.825 <= s /\ MovementQuality.quality mq = "excellent")
    /\ (testType = "sit-ups" ->
        0.75 <= s /\ MovementQuality.quality mq <> "needs-improvement").
Proof.
  intros poseData testType mq H. cbv zeta.
  destruct (assessMovementQuality_inv _ _ _ H)
    as (form0 & cons0 & timing0 & _ & _ & _ & _ & Hq).
  clear form0 cons0 timing0.
  destruct (assessMovementQuality_scores _ _ _ H)
    as (form & cons & timing & Hf & Hc & Ht & Hd & Hs).
  set (s := MovementQuality.overallScore mq) in *. rewrite Hd.
  cbn [Scores.form Scores.consistency Scores.rangeOfMotion Scores.timing].
  destruct (assessForm_range _ _ _ Hf) as ([Hf0 Hf1] & Hfnr & Hfsit).
  destruct (assessConsistency_values _ _ _ Hc) as (Hcv & Hcnr).
  pose proof (assessRangeOfMotion_values poseData testType) as Hr.
  cbn zeta in Hr. destruct Hr as (Hrv & Hrnr & Hrsit).
  set (rom := assessRangeOfMotion poseData testType) in *.
  pose proof (assessTiming_values _ _ _ Ht) as Htv.
  assert (Hs' : s == (form + cons + rom + timing) * (1 # 4)).
  { rewrite Hs. unfold Qdiv. change (/ 4) with (1 # 4). reflexivity. }
  clearbody rom s.
  split; [split; assumption|]. split; [exact Hcv|]. split; [exact Hrv|].
  split; [exact Htv|].
  assert (Hc7 : 0.7 <= cons /\ cons <= 1)
    by (destruct Hcv as [-> | ->]; split; apply Qle_bool_iff; reflexivity).
  assert (Hr7 : 0.7 <= rom /\ rom <= 1)
    by (destruct Hrv as [-> | [-> | ->]]; split; apply Qle_bool_iff; reflexivity).
  assert (Ht8 : 0.8 <= timing /\ timing <= 1)
    by (destruct Htv as [-> | ->]; split; apply Qle_bool_iff; reflexivity).
  split; [split; lra|]. split.
  - intros Hnr. specialize (Hfnr Hnr). specialize (Hcnr Hnr).
    specialize (Hrnr Hnr). subst cons rom.
    assert (Hlow : 0.825 <= s) by lra.
    split; [exact Hlow|].
    rewrite Hq.
    assert (Hgt : Qgtb s 0.8 = true) by (apply Qgtb_gt; lra).
    rewrite Hgt. reflexivity.
  - intros Hsit. specialize (Hfsit Hsit). specialize (Hrsit Hsit).
    assert (Hr8 : 0.8 <= rom)
      by (destruct Hrsit as [-> | ->]; apply Qle_bool_iff; reflexivity).
    assert (Hlow : 0.75 <= s) by lra.
    split; [exact Hlow|].
    rewrite Hq. destruct (Qgtb s 0.8); [discriminate|].
    assert (Hgt : Qgtb s 0.6 = true) by (apply Qgtb_gt; lra).
    rewrite Hgt. discriminate.
Qed.

(** X16.  Every sub-score of the movement quality lies in [[0, 1]]:
    consistency is 1 or 0.7, range of motion 1, 0.8 or 0.7, timing 1 or
    0.8, and form lies between 0 and 1.  The overall score lies in
    [[0.55, 1]].  For a test kind other than sit-ups and push-ups it is at
    least 0.825, so the band is always ['excellent'], whatever the poses;
    for sit-ups it is at least 0.75 and the band is never
    ['needs-improvement']. *)
Theorem X16_quality_score_ranges :
  forall (poseData : list PoseAnalysis) (testType : string)
         (mq : MovementQuality.t),
    assessMovementQuality poseData testType = Return mq ->
    let d := MovementQuality.detailedScores mq in
    let s := MovementQuality.overallScore mq in
    0 <= Scores.form d <= 1
    /\ (Scores.consistency d = 1.0 \/ Scores.consistency d = 0.7)
    /\ (Scores.rangeOfMotion d = 1.0 \/ Scores.rangeOfMotion d = 0.8
        \/ Scores.rangeOfMotion d = 0.7)
    /\ (Scores.timing d = 1.0 \/ Scores.timing d = 0.8)
    /\ 0.55 <= s <= 1
    /\ (isRepetitive testType = false ->
        0.825 <= s /\ MovementQuality.quality mq = "excellent")
    /\ (testType = "sit-ups" ->
        0.75 <= s /\ MovementQuality.quality mq <> "needs-improvement").
Proof. exact movement_quality_ranges. Qed.

Lemma X16_witness :
  exists mq,
    assessMovementQuality (stillFor 2000) "vertical-jump" = Return mq
    /\ isRepetitive "vertical-jump" = false
    /\ MovementQuality.quality mq = "excellent".
Proof.
  eexists. split; [reflexivity|]. split; [reflexivity|].
  destruct (X16_quality_score_ranges (stillFor 2000) "vertical-jump" _ eq_refl)
    as (_ & _ & _ & _ & _ & H & _).
  apply H. reflexivity.
Defined.

End QualityBounds.

Section MovementAnalysisKinds.
Import Js OfflineAnalysis Spec SpecPhases Examples.
Open Scope string_scope.
Open Scope outcome_scope.

Lemma assessMovementQuality_empty testType :
  exists e, assessMovementQuality [] testType = Throw e.
Proof.
  unfold assessMovementQuality.
  destruct (assessForm [] testType); [|eexists; reflexivity].
  destruct (assessConsistency [] testType); [|eexists; reflexivity].
  eexists. reflexivity.
Qed.

Lemma assessMovementQuality_no_phase poseData testType :
  isRepetitive testType = true ->
  identifyRepetitivePhases poseData testType = [] ->
  exists e, assessMovementQuality poseData testType = Throw e.
Proof.
  intros Hrep Hphases. unfold assessMovementQuality.
  destruct (assessForm poseData testType); [|eexists; reflexivity].
  cbn [bindO]. unfold assessConsistency. rewrite Hrep, Hphases.
  eexists. reflexivity.
Qed.

Lemma analyzeMovement_returns_spec :
  forall (poseData : list PoseAnalysis) (testType : string),
    (forall ma,
       analyzeMovement poseData testType = Return ma ->
       (testType = "vertical-jump" \/ testType = "sit-ups"
        \/ testType = "push-ups")
       /\ poseData <> []
       /\ (isRepetitive testType = true ->
           identifyRepetitivePhases poseData testType <> [])
       /\ MovementAnalysis.totalFrames ma = List.length poseData
       /\ MovementAnalysis.repetitionCount ma
          = countRepetitions poseData testType)
    /\ (testType <> "vertical-jump" -> testType <> "sit-ups" ->
        testType <> "push-ups" ->
        exists name,
          analyzeMovement poseData testType
          = Throw (TypeError ("this." ++ name ++ " is not a function"))
          /\ (name = "identifyShuttlePhases" \/ name = "identifyRunningPhases"
              \/ name = "identifyGenericPhases")).
Proof.
  intros poseData testType. split.
  - intros ma H. unfold analyzeMovement in H.
    destruct (identifyMovementPhases poseData testType) as [phases|] eqn:Hp;
      [|discriminate H].
    cbn [bindO] in H.
    destruct (assessMovementQuality poseData testType) as [mq|] eqn:Hq;
      [|discriminate H].
    cbn [bindO] in H.
    destruct (analyzeTiming poseData testType) as [ta|]; [|discriminate H].
    cbn [bindO] in H. injection H as <-.
    split; [|split; [|split; [|split; reflexivity]]].
    + unfold identifyMovementPhases in Hp.
      destruct (String.eqb testType "vertical-jump") eqn:E1;
        [apply String.eqb_eq in E1; tauto|].
      destruct (String.eqb testType "sit-ups") eqn:E2;
        [apply String.eqb_eq in E2; tauto|].
      destruct (String.eqb testType "push-ups") eqn:E3;
        [apply String.eqb_eq in E3; tauto|].
      cbn [orb] in Hp.
      destruct (String.eqb testType "shuttle-run"); [discriminate Hp|].
      destruct (String.eqb testType "endurance-run"); discriminate Hp.
    + intros ->. destruct (assessMovementQuality_empty testType) as [e He].
      congruence.
    + intros Hrep Hnone.
      destruct (assessMovementQuality_no_phase _ _ Hrep Hnone) as [e He].
      congruence.
  - intros H1 H2 H3. unfold analyzeMovement, identifyMovementPhases.
    apply String.eqb_neq in H1, H2, H3. rewrite H1, H2, H3. cbn [orb].
    destruct (String.eqb testType "shuttle-run");
      [exists "identifyShuttlePhases"; split; [reflexivity|tauto]|].
    destruct (String.eqb testType "endurance-run");
      [exists "identifyRunningPhases"; split; [reflexivity|tauto]|].
    exists "identifyGenericPhases"; split; [reflexivity|tauto].
Qed.

(** X17.  The movement analysis returns for three test kinds only,
    vertical jump, sit-ups and push-ups: for every other kind the phase
    identification calls a method that the service does not have.  It needs
    at least one pose, and for sit-ups and push-ups at least one identified
    phase.  When it returns it reports the number of poses and the
    repetition count of [countRepetitions]. *)
Theorem X17_analyzeMovement_returns_for_three_kinds :
  forall (poseData : list PoseAnalysis) (testType : string),
    (forall ma,
       analyzeMovement poseData testType = Return ma ->
       (testType = "vertical-jump" \/ testType = "sit-ups"
        \/ testType = "push-ups")
       /\ poseData <> []
       /\ (isRepetitive testType = true ->
           identifyRepetitivePhases poseData testType <> [])
       /\ MovementAnalysis.totalFrames ma = List.length poseData
       /\ MovementAnalysis.repetitionCount ma
          = countRepetitions poseData testType)
    /\ (testType <> "vertical-jump" -> testType <> "sit-ups" ->
        testType <> "push-ups" ->
        exists name,
          analyzeMovement poseData testType
          = Throw (TypeError ("this." ++ name ++ " is not a function"))
          /\ (name = "identifyShuttlePhases" \/ name = "identifyRunningPhases"
              \/ name = "identifyGenericPhases")).
Proof. exact analyzeMovement_returns_spec. Qed.

Lemma X17_witness :
  "shuttle-run" <> "vertical-jump" /\ "shuttle-run" <> "sit-ups"
  /\ "shuttle-run" <> "push-ups"
  /\ exists name,
       analyzeMovement (stillFor 2000) "shuttle-run"
       = Throw (TypeError ("this." ++ name ++ " is not a function")).
Proof.
  split; [discriminate|]. split; [discriminate|]. split; [discriminate|].
  destruct (X17_analyzeMovement_returns_for_three_kinds
              (stillFor 2000) "shuttle-run") as [_ H].
  destruct H as (name & Hthrow & _); try discriminate.
  exists name. exact Hthrow.
Defined.

End MovementAnalysisKinds.

Section FreshRun.
Import Js OfflineAnalysis Spec SpecFrames SpecPhases SpecRun Examples.
Open Scope string_scope.
Open Scope outcome_scope.

Variable JSON_stringify : option UserProfile -> string.
Variable poseSource : string -> Outcome (list PoseAnalysis).

Local Notation "'runOffline'" := (analyzeVideoOffline JSON_stringify poseSource).
Local Notation "'freshOffline'" := (analyzeFresh poseSource).
Local Notation "'keyOf'" := (cacheKey JSON_stringify).

(** A completed analysis, stage by stage. *)
Lemma fresh_completed_stages videoUri testType userProfile key s1 out s' :
  freshOffline videoUri testType userProfile key s1 = (Return out, s') ->
  exists poseData ma bm,
    isSupported testType = true
    /\ poseSource videoUri = Return poseData
    /\ analyzeMovement poseData testType = Return ma
    /\ performBenchmarking (calculatePerformance ma testType) userProfile
       = Return bm
    /\ let pm := calculatePerformance ma testType in
       let w := world s1 in
       let results :=
         Results.mk testType pm ma failedOpen bm
           (calculateConfidence pm failedOpen)
           (generateRecommendations pm bm)
           (clockAt w (clockPos w))
           (DeviceInfo.mk "mobile" (clockAt w (S (clockPos w)))
                          "smartphone" "1.0.0") in
       out = Completed results
       /\ s' = mkSt (mkService (isInitialized (service s1))
                               (setCache key results
                                         (analysisCache (service s1))))
                    (mkWorld (randomAt w) (randomPos w + 350) (clockAt w)
                             (S (S (clockPos w))) (detectorLoads w)).
Proof.
  unfold analyzeFresh, bind, liftO, liftWorld, getService, putService, ret,
    throw.
  intros H.
  destruct (isSupported testType) eqn:Hsup; [|discriminate H].
  destruct (poseSource videoUri) as [poseData|] eqn:Hpose; [|discriminate H].
  destruct (analyzeMovement poseData testType) as [ma|] eqn:Hma;
    [|discriminate H].
  cbn [world service] in H.
  rewrite detectCheatAttempts_result in H.
  cbn [world service] in H.
  destruct (performBenchmarking (calculatePerformance ma testType) userProfile)
    as [bm|] eqn:Hbm; [|discriminate H].
  unfold getDeviceInfo, Date_now, bind, ret, advanceRandom in H.
  cbn [world service isInitialized analysisCache randomAt randomPos clockAt
       clockPos detectorLoads] in H.
  injection H as Hout Hs. subst out s'.
  exists poseData, ma, bm.
  split; [reflexivity|]. split; [reflexivity|]. split; [exact Hma|].
  split; [exact Hbm|]. split; reflexivity.
Qed.

Lemma analyzeMovement_quality poseData testType ma :
  analyzeMovement poseData testType = Return ma ->
  assessMovementQuality poseData testType
  = Return (MovementAnalysis.movementQuality ma).
Proof.
  unfold analyzeMovement. intros H.
  destruct (identifyMovementPhases poseData testType); [|discriminate H].
  cbn [bindO] in H.
  destruct (assessMovementQuality poseData testType) as [mq|];
    [|discriminate H].
  cbn [bindO] in H.
  destruct (analyzeTiming poseData testType); [|discriminate H].
  cbn [bindO] in H. injection H as <-. reflexivity.
Qed.

(** X18.  What a completed, uncached analysis always looks like.  Its
    cheat analysis is the fail-open object, so it is never suspicious; its
    confidence is 0.9 when the movement quality exceeds 0.8 and 0.8
    otherwise, and always 0.9 for a vertical jump; its test kind is one of
    vertical jump, sit-ups and push-ups; its two timestamps are the next
    two readings of the clock.  The run reads 350 random numbers and stores
    the result under the key of the call. *)
Theorem X18_completed_uncached_run :
  forall (videoUri testType : string) (userProfile : option UserProfile)
         (s s' : St) (results : Results.t),
    mapGet (analysisCache (service s)) (keyOf videoUri testType userProfile)
    = None ->
    runOffline videoUri testType userProfile s
    = (Return (Completed results), s') ->
    let quality :=
      PerformanceMetrics.movementQuality (Results.performanceMetrics results) in
    Results.cheatAnalysis results = failedOpen
    /\ (Results.confidence results == 0.8 \/ Results.confidence results == 0.9)
    /\ (Results.confidence results == 0.9 <-> 0.8 < quality)
    /\ Results.testType results = testType
    /\ (testType = "vertical-jump" \/ testType = "sit-ups"
        \/ testType = "push-ups")
    /\ (testType = "vertical-jump" -> Results.confidence results == 0.9)
    /\ Results.timestamp results = clockAt (world s) (clockPos (world s))
    /\ DeviceInfo.timestamp (Results.deviceInfo results)
       = clockAt (world s) (S (clockPos (world s)))
    /\ randomPos (world s') = (randomPos (world s) + 350)%nat
    /\ clockPos (world s') = S (S (clockPos (world s)))
    /\ mapGet (analysisCache (service s'))
              (keyOf videoUri testType userProfile) = Some results.
Proof.
  intros videoUri testType userProfile s s' results Hmiss Hrun quality.
  unfold analyzeVideoOffline, tryCatch in Hrun.
  destruct (analyzeVideoOfflineTry JSON_stringify poseSource videoUri testType
              userProfile s) as [[out|e] s2] eqn:Htry; [|discriminate Hrun].
  injection Hrun as -> ->.
  destruct (try_unfold JSON_stringify poseSource videoUri testType userProfile s)
    as (s1 & Hcache & Hworld & Hunf).
  rewrite Hunf, Hcache, Hmiss in Htry.
  destruct (fresh_completed_stages _ _ _ _ _ _ _ Htry)
    as (poseData & ma & bm & Hsup & Hpose & Hma & Hbm & Hres).
  cbn zeta in Hres. destruct Hres as [Hout Hs'].
  injection Hout as Hresults. rewrite Hworld in Hresults, Hs'.
  set (pm := calculatePerformance ma testType) in *.
  assert (Hquality : quality
                     = MovementQuality.overallScore
                         (MovementAnalysis.movementQuality ma)).
  { unfold quality. rewrite Hresults. reflexivity. }
  assert (Hconf : Results.confidence results
                  = calculateConfidence pm failedOpen)
    by (rewrite Hresults; reflexivity).
  assert (Hcases : (Qgtb quality 0.8 = true
                    /\ Results.confidence results == 0.9)
                   \/ (Qgtb quality 0.8 = false
                       /\ Results.confidence results == 0.8)).
  { rewrite Hconf. unfold calculateConfidence, failedOpen.
    cbn [CheatDetection.CheatAnalysis.isSuspicious].
    change (PerformanceMetrics.movementQuality pm)
      with (MovementQuality.overallScore (MovementAnalysis.movementQuality ma)).
    rewrite <- Hquality.
    destruct (Qgtb quality 0.8); [left|right]; split; reflexivity. }
  assert (Hkind : testType = "vertical-jump" \/ testType = "sit-ups"
                  \/ testType = "push-ups").
  { destruct (analyzeMovement_returns_spec poseData testType) as [Hret _].
    destruct (Hret ma Hma) as [H _]. exact H. }
  split; [rewrite Hresults; reflexivity|].
  split; [destruct Hcases as [[_ H]|[_ H]]; [right|left]; exact H|].
  split.
  { destruct Hcases as [[Hgt H]|[Hle H]].
    - apply Qgtb_gt in Hgt. split; [intros _; exact Hgt|intros _; exact H].
    - apply Qgtb_le in Hle. split.
      + intros H9. rewrite H in H9. discriminate H9.
      + intros Hgt. exfalso. lra. }
  split; [rewrite Hresults; reflexivity|]. split; [exact Hkind|].
  split.
  { intros Hvj.
    pose proof (analyzeMovement_quality _ _ _ Hma) as Hmq.
    destruct (movement_quality_ranges poseData testType _ Hmq)
      as (_ & _ & _ & _ & _ & Hnr & _).
    assert (Hrep : isRepetitive testType = false) by (rewrite Hvj; reflexivity).
    destruct (Hnr Hrep) as [Hlow _]. rewrite <- Hquality in Hlow.
    destruct Hcases as [[_ H]|[Hle _]]; [exact H|].
    apply Qgtb_le in Hle. exfalso. lra. }
  split; [rewrite Hresults; reflexivity|].
  split; [rewrite Hresults; reflexivity|].
  split; [rewrite Hs'; reflexivity|].
  split; [rewrite Hs'; reflexivity|].
  rewrite Hs'. cbn [service analysisCache]. rewrite <- Hresults.
  apply setCache_get.
Qed.

End FreshRun.

Section CacheOperations.
Import Js OfflineAnalysis Spec Examples.
Open Scope string_scope.

Lemma mapGet_absent {V} (m : list (string * V)) key :
  ~ In key (map fst m) -> mapGet m key = None.
Proof.
  induction m as [|[k v] m IH]; intros Hnot; [reflexivity|].
  cbn [mapGet]. destruct (String.eqb k key) eqn:E.
  - apply String.eqb_eq in E. exfalso. apply Hnot. left. exact E.
  - apply IH. intros Hin. apply Hnot. right. exact Hin.
Qed.

Lemma mapGet_present {V} (m : list (string * V)) key :
  In key (map fst m) -> exists v, mapGet m key = Some v.
Proof.
  induction m as [|[k v] m IH]; intros Hin; [destruct Hin|].
  cbn [mapGet]. destruct (String.eqb k key) eqn:E; [eexists; reflexivity|].
  apply IH. destruct Hin as [Hk|Hin]; [|exact Hin].
  cbn in Hk. apply String.eqb_neq in E. congruence.
Qed.

(** [set] on a key that is not in the map appends the entry. *)
Lemma mapSet_absent {V} (m : list (string * V)) key value :
  mapGet m key = None -> mapSet m key value = (m ++ [(key, value)])%list.
Proof.
  induction m as [|[k v] m IH]; intros Hnone; [reflexivity|].
  cbn [mapGet] in Hnone. cbn [mapSet app].
  destruct (String.eqb k key); [discriminate Hnone|].
  rewrite (IH Hnone). reflexivity.
Qed.

(** [set] on a key that is in the map keeps the keys as they are. *)
Lemma mapSet_keys {V} (m : list (string * V)) key value :
  map fst (mapSet m key value)
  = match mapGet m key with
    | Some _ => map fst m
    | None => (map fst m ++ [key])%list
    end.
Proof.
  induction m as [|[k v] m IH]; [reflexivity|].
  cbn [mapSet mapGet]. destruct (String.eqb k key); [reflexivity|].
  cbn [map fst]. rewrite IH. destruct (mapGet m key); reflexivity.
Qed.

Lemma mapGet_mapSet_other {V} (m : list (string * V)) key value other :
  other <> key -> mapGet (mapSet m key value) other = mapGet m other.
Proof.
  intros Hne. induction m as [|[k v] m IH].
  - cbn [mapSet mapGet]. apply String.eqb_neq in Hne.
    rewrite String.eqb_sym, Hne. reflexivity.
  - cbn [mapSet mapGet]. destruct (String.eqb k key) eqn:E.
    + apply String.eqb_eq in E. subst k. cbn [mapGet].
      destruct (String.eqb key other) eqn:E'; [|reflexivity].
      apply String.eqb_eq in E'. congruence.
    + cbn [mapGet]. rewrite IH. reflexivity.
Qed.

Lemma mapSet_NoDup {V} (m : list (string * V)) key value :
  NoDup (map fst m) -> NoDup (map fst (mapSet m key value)).
Proof.
  intros Hnd. rewrite mapSet_keys.
  destruct (mapGet m key) eqn:E; [exact Hnd|].
  apply NoDup_app; [exact Hnd|repeat constructor; intros []|].
  intros k Hin [Hk|[]]. subst k.
  destruct (mapGet_present m key Hin) as [v Hv]. congruence.
Qed.

Lemma mapSet_length {V} (m : list (string * V)) key value :
  List.length (mapSet m key value)
  = match mapGet m key with
    | Some _ => List.length m
    | None => S (List.length m)
    end.
Proof.
  rewrite <- (length_map fst (mapSet m key value)), mapSet_keys.
  destruct (mapGet m key).
  - apply length_map.
  - rewrite length_app, length_map. cbn. lia.
Qed.

Lemma setCache_length key value cache :
  (List.length cache <= maxCacheSize)%nat ->
  (List.length (setCache key value cache) <= maxCacheSize)%nat.
Proof.
  unfold setCache. intros Hlen.
  destruct (Nat.leb maxCacheSize (List.length cache)) eqn:E.
  - apply Nat.leb_le in E. rewrite mapSet_length.
    destruct cache as [|entry cache]; [unfold maxCacheSize in E; cbn in E; lia|].
    cbn [tl List.length] in *.
    destruct (mapGet cache key); lia.
  - apply Nat.leb_gt in E. rewrite mapSet_length.
    destruct (mapGet cache key); lia.
Qed.

Lemma setCache_NoDup key value cache :
  NoDup (map fst cache) -> NoDup (map fst (setCache key value cache)).
Proof.
  unfold setCache. intros Hnd. apply mapSet_NoDup.
  destruct (Nat.leb maxCacheSize (List.length cache)); [|exact Hnd].
  destruct cache as [|entry cache]; [exact Hnd|].
  cbn [tl]. cbn [map] in Hnd. inversion Hnd. assumption.
Qed.

(** X20.  Storing a result under a new key.  The result can be looked up
    under the key, and keys stay distinct.  With fewer than 100 entries the
    cache grows by one and every other lookup is unchanged.  With 100
    entries the size stays at 100: the oldest entry is dropped, its key is
    no longer found, and every other lookup is unchanged. *)
Theorem X20_setCache_evicts_oldest :
  forall (key : string) (value : Results.t) (cache : list (string * Results.t)),
    NoDup (map fst cache) ->
    mapGet cache key = None ->
    (List.length cache <= maxCacheSize)%nat ->
    let cache' := setCache key value cache in
    mapGet cache' key = Some value
    /\ NoDup (map fst cache')
    /\ ((List.length cache < maxCacheSize)%nat ->
        List.length cache' = S (List.length cache)
        /\ forall other, other <> key -> mapGet cache' other = mapGet cache other)
    /\ (List.length cache = maxCacheSize ->
        List.length cache' = maxCacheSize
        /\ forall oldest v rest,
             cache = (oldest, v) :: rest ->
             mapGet cache' oldest = None
             /\ forall other, other <> key -> other <> oldest ->
                  mapGet cache' other = mapGet cache other).
Proof.
  intros key value cache Hnd Hmiss Hlen cache'.
  split; [apply setCache_get|]. split; [apply setCache_NoDup; exact Hnd|].
  split.
  - intros Hlt. unfold cache', setCache.
    assert (E : Nat.leb maxCacheSize (List.length cache) = false)
      by (apply Nat.leb_gt; exact Hlt).
    rewrite E. split.
    + rewrite mapSet_length, Hmiss. reflexivity.
    + intros other Hne. apply mapGet_mapSet_other. exact Hne.
  - intros Hfull. unfold cache', setCache.
    assert (E : Nat.leb maxCacheSize (List.length cache) = true)
      by (apply Nat.leb_le; lia).
    rewrite E.
    destruct cache as [|[oldest v] rest];
      [unfold maxCacheSize in Hfull; discriminate Hfull|].
    cbn [tl]. cbn [mapGet] in Hmiss.
    destruct (String.eqb oldest key) eqn:Ek; [discriminate Hmiss|].
    split.
    + rewrite mapSet_length, Hmiss. cbn [List.length] in Hfull. exact Hfull.
    + intros oldest' v' rest' Hshape. injection Hshape as <- <- <-.
      cbn [map fst] in Hnd. inversion Hnd as [|? ? Hnotin Hnd']. subst.
      split.
      * rewrite mapGet_mapSet_other
          by (apply String.eqb_neq in Ek; exact Ek).
        apply mapGet_absent. exact Hnotin.
      * intros other Hne Hne'. rewrite mapGet_mapSet_other by exact Hne.
        cbn [mapGet]. apply not_eq_sym in Hne'.
        apply String.eqb_neq in Hne'. rewrite Hne'. reflexivity.
Qed.

End CacheOperations.

Section RunEffects.
Import Js OfflineAnalysis Spec SpecFrames SpecRun Examples.
Open Scope string_scope.
Open Scope outcome_scope.

Variable JSON_stringify : option UserProfile -> string.
Variable poseSource : string -> Outcome (list PoseAnalysis).

Local Notation "'runOffline'" := (analyzeVideoOffline JSON_stringify poseSource).
Local Notation "'tryOffline'" := (analyzeVideoOfflineTry JSON_stringify poseSource).
Local Notation "'freshOffline'" := (analyzeFresh poseSource).
Local Notation "'keyOf'" := (cacheKey JSON_stringify).

Lemma initialize_state s :
  exists b,
    (if isInitialized (service s) then ret true else initialize) s
    = (Return b, initialised s).
Proof.
  destruct s as [[init cache] w]. unfold initialised.
  cbn [service isInitialized analysisCache world].
  destruct init.
  - exists true. reflexivity.
  - unfold initialize, bind, getWorld, getService, putService, ret.
    cbn [world service analysisCache orb].
    destruct (detectorLoads w); eexists; reflexivity.
Qed.

Lemma try_from_initialised videoUri testType userProfile s :
  tryOffline videoUri testType userProfile s
  = match mapGet (analysisCache (service s))
                 (keyOf videoUri testType userProfile) with
    | Some cached => (Return (Completed cached), initialised s)
    | None =>
        freshOffline videoUri testType userProfile
          (keyOf videoUri testType userProfile) (initialised s)
    end.
Proof.
  destruct (initialize_state s) as (b & Hinit).
  unfold analyzeVideoOfflineTry, bind at 1, getService at 1.
  unfold bind at 1. rewrite Hinit.
  unfold bind at 1, getService at 1.
  cbn [initialised service analysisCache].
  destruct (mapGet (analysisCache (service s))
                   (keyOf videoUri testType userProfile)); reflexivity.
Qed.

(** What the analysis after the cache lookup does to the service: a
    completed analysis stores its result, a failing one changes nothing. *)
Lemma fresh_service videoUri testType userProfile key s1 o s' :
  freshOffline videoUri testType userProfile key s1 = (o, s') ->
  match o with
  | Return (Completed results) =>
      service s' = mkService (isInitialized (service s1))
                             (setCache key results (analysisCache (service s1)))
  | Return (Failed _ _) => False
  | Throw _ => service s' = service s1
  end.
Proof.
  unfold analyzeFresh, bind, liftO, liftWorld, getService, putService, ret,
    throw.
  intros H.
  destruct (isSupported testType);
    [|injection H as <- <-; reflexivity].
  destruct (poseSource videoUri) as [poseData|];
    [|injection H as <- <-; reflexivity].
  destruct (analyzeMovement poseData testType) as [ma|];
    [|injection H as <- <-; reflexivity].
  cbn [world service] in H.
  destruct (CheatDetection.detectCheatAttempts videoUri testType (world s1))
    as [[ca|] w1]; [|injection H as <- <-; reflexivity].
  cbn [world service] in H.
  destruct (performBenchmarking (calculatePerformance ma testType) userProfile)
    as [bm|]; [|injection H as <- <-; reflexivity].
  unfold getDeviceInfo, Date_now, bind, ret in H.
  cbn [world service isInitialized analysisCache] in H.
  injection H as <- <-. reflexivity.
Qed.

(** X19.  What a run of [analyzeVideoOffline] does to the service.  The
    service is initialised afterwards exactly when it was before or the
    detector loads.  A cache hit returns the cached result and changes
    neither the cache nor the clock and random generator.  A failed run
    leaves the cache as it was.  A completed run on a miss stores its
    result with [setCache].  The cache never grows beyond 100 entries, and
    its keys stay distinct. *)
Theorem X19_run_effects_on_service :
  forall (videoUri testType : string) (userProfile : option UserProfile)
         (s s' : St) (out : AnalysisOutput),
    runOffline videoUri testType userProfile s = (Return out, s') ->
    let key := keyOf videoUri testType userProfile in
    let before := analysisCache (service s) in
    let after := analysisCache (service s') in
    isInitialized (service s')
    = (isInitialized (service s) || detectorLoads (world s))%bool
    /\ (forall cached,
          mapGet before key = Some cached ->
          out = Completed cached /\ after = before /\ world s' = world s)
    /\ (forall message fallbackResults,
          out = Failed message fallbackResults -> after = before)
    /\ (forall results,
          mapGet before key = None -> out = Completed results ->
          after = setCache key results before)
    /\ ((List.length before <= maxCacheSize)%nat ->
        (List.length after <= maxCacheSize)%nat)
    /\ (NoDup (map fst before) -> NoDup (map fst after)).
Proof.
  intros videoUri testType userProfile s s' out.
  intros H key before after. subst key before after.
  unfold analyzeVideoOffline, tryCatch in H.
  rewrite try_from_initialised in H.
  destruct (mapGet (analysisCache (service s))
                   (keyOf videoUri testType userProfile)) as [cached|] eqn:Hget.
  - injection H as <- <-. cbn [initialised service isInitialized analysisCache world].
    split; [reflexivity|]. split.
    { intros cached' Hc. injection Hc as <-. repeat split. }
    split; [intros m f Hout; discriminate Hout|].
    split; [intros r Hnone; discriminate Hnone|].
    split; intros Hx; exact Hx.
  - destruct (freshOffline videoUri testType userProfile
                (keyOf videoUri testType userProfile) (initialised s))
      as [o s1] eqn:Hfresh.
    apply fresh_service in Hfresh.
    destruct o as [[results|m f]|e]; [| destruct Hfresh |].
    + injection H as <- <-. rewrite Hfresh.
      cbn [initialised service isInitialized analysisCache world].
      split; [reflexivity|].
      split; [intros cached Hc; discriminate Hc|].
      split; [intros m f Hout; discriminate Hout|].
      split; [intros r _ Hout; injection Hout as <-; reflexivity|].
      split; [apply setCache_length|apply setCache_NoDup].
    + unfold analyzeVideoOfflineCatch, ret in H. injection H as <- <-.
      rewrite Hfresh.
      cbn [initialised service isInitialized analysisCache world].
      split; [reflexivity|].
      split; [intros cached Hc; discriminate Hc|].
      split; [intros m f _; reflexivity|].
      split; [intros r _ Hout; discriminate Hout|].
      split; intros Hx; exact Hx.
Qed.

End RunEffects.

Section Benchmarking.
Import Js OfflineAnalysis Spec Examples.
Open Scope string_scope.

Lemma norms_excellent_pos testType ageGroup gender :
  0 < excellent (getPerformanceNorms testType ageGroup gender).
Proof.
  unfold getPerformanceNorms.
  destruct (String.eqb testType "sit-ups"); [reflexivity|].
  destruct (String.eqb testType "push-ups"); [reflexivity|].
  destruct (String.eqb testType "vertical-jump"); reflexivity.
Qed.

Lemma norms_ordered testType ageGroup gender :
  let norms := getPerformanceNorms testType ageGroup gender in
  average norms < good norms /\ good norms < excellent norms.
Proof.
  unfold getPerformanceNorms.
  destruct (String.eqb testType "sit-ups"); [split; reflexivity|].
  destruct (String.eqb testType "push-ups"); [split; reflexivity|].
  destruct (String.eqb testType "vertical-jump"); split; reflexivity.
Qed.

Lemma percentile_range score norms :
  0 <= Qmin 100 (Qmax 0 (score / excellent norms * 100))
  /\ Qmin 100 (Qmax 0 (score / excellent norms * 100)) <= 100.
Proof.
  split.
  - apply Q.min_glb; [discriminate|apply Q.le_max_l].
  - apply Q.le_min_l.
Qed.

Lemma ratio_ge score e bound :
  0 < e -> bound * e <= score * 100 -> bound <= score / e * 100.
Proof.
  intros He H.
  assert (Heq : score / e * 100 == score * 100 / e) by (field; lra).
  rewrite Heq. apply Qle_shift_div_l; [exact He|exact H].
Qed.

Lemma ratio_lt score e bound :
  0 < e -> score * 100 < bound * e -> score / e * 100 < bound.
Proof.
  intros He H.
  assert (Heq : score / e * 100 == score * 100 / e) by (field; lra).
  rewrite Heq. apply Qlt_shift_div_r; [exact He|exact H].
Qed.

(** The rating of a score against the norms of its test kind. *)
Lemma rating_facts metrics userProfile :
  let rating := calculateRating metrics userProfile in
  let score := PerformanceMetrics.performanceScore metrics in
  let norms :=
    getPerformanceNorms (PerformanceMetrics.testType metrics)
      (determineAgeGroup (age userProfile))
      (genderOrMale (gender userProfile)) in
  0 <= Rating.percentile rating <= 100
  /\ (Rating.overall rating = "excellent" <-> excellent norms <= score)
  /\ (Rating.overall rating = "excellent" ->
      Rating.percentile rating == 100 /\ Rating.level rating = "elite")
  /\ (score <= 0 ->
      Rating.percentile rating == 0
      /\ Rating.level rating = "beginner"
      /\ Rating.overall rating = "needs-improvement")
  /\ (Rating.level rating = "beginner" <-> Rating.percentile rating < 50)
  /\ (Rating.level rating = "elite" <-> 90 <= Rating.percentile rating).
Proof.
  intros rating score norms.
  assert (He : 0 < excellent norms) by apply norms_excellent_pos.
  destruct (norms_ordered (PerformanceMetrics.testType metrics)
              (determineAgeGroup (age userProfile))
              (genderOrMale (gender userProfile))) as [Hag Hge].
  fold norms in Hag, Hge.
  assert (Hlevel : forall p,
             (getSkillLevel p = "beginner" <-> p < 50)
             /\ (getSkillLevel p = "elite" <-> 90 <= p)).
  { intros p. unfold getSkillLevel.
    destruct (Qle_bool 90 p) eqn:E90.
    { apply Qle_bool_iff in E90. split; split; intros H;
        try discriminate H; try reflexivity; try exact E90. lra. }
    assert (H90 : p < 90).
    { apply Qnot_le_lt. intros H. apply Qle_bool_iff in H. congruence. }
    destruct (Qle_bool 75 p) eqn:E75.
    { apply Qle_bool_iff in E75. split; split; intros H;
        try discriminate H; lra. }
    destruct (Qle_bool 50 p) eqn:E50.
    { apply Qle_bool_iff in E50. split; split; intros H;
        try discriminate H; lra. }
    assert (H50 : p < 50).
    { apply Qnot_le_lt. intros H. apply Qle_bool_iff in H. congruence. }
    split; split; intros H; try discriminate H; try reflexivity;
      try exact H50. lra. }
  assert (Hcat : Rating.overall rating = "excellent" <-> excellent norms <= score).
  { unfold rating, calculateRating, calculatePercentiles.
    cbn [Rating.overall Percentiles.category]. fold norms. fold score.
    unfold getPercentileCategory.
    destruct (Qle_bool (excellent norms) score) eqn:Ee.
    { apply Qle_bool_iff in Ee. split; intros _; [exact Ee|reflexivity]. }
    assert (Hlt : score < excellent norms).
    { apply Qnot_le_lt. intros H. apply Qle_bool_iff in H. congruence. }
    destruct (Qle_bool (good norms) score);
      [split; [intros H; discriminate H|intros H; lra]|].
    destruct (Qle_bool (average norms) score);
      split; try (intros H; discriminate H); intros H; lra. }
  assert (Hp : Rating.percentile rating
               = Qmin 100 (Qmax 0 (score / excellent norms * 100)))
    by reflexivity.
  assert (Hl : Rating.level rating = getSkillLevel (Rating.percentile rating))
    by reflexivity.
  split; [rewrite Hp; apply percentile_range|].
  split; [exact Hcat|].
  split.
  { intros Hex. apply Hcat in Hex.
    assert (H100 : Rating.percentile rating == 100).
    { rewrite Hp. apply Qle_antisym; [apply Q.le_min_l|].
      apply Q.min_glb; [apply Qle_refl|].
      apply Qle_trans with (score / excellent norms * 100);
        [|apply Q.le_max_r].
      apply ratio_ge; [exact He|]. lra. }
    split; [exact H100|]. rewrite Hl. apply (Hlevel _). rewrite H100.
    discriminate. }
  split.
  { intros Hneg.
    assert (H0 : Rating.percentile rating == 0).
    { rewrite Hp. apply Qle_antisym.
      - apply Qle_trans with (Qmax 0 (score / excellent norms * 100));
          [apply Q.le_min_r|].
        apply Q.max_lub; [apply Qle_refl|].
        assert (Heq : score / excellent norms * 100
                      == score * 100 / excellent norms) by (field; lra).
        rewrite Heq. apply Qle_shift_div_r; [exact He|]. lra.
      - apply (proj1 (percentile_range score norms)). }
    split; [exact H0|]. split.
    - rewrite Hl. apply (Hlevel _). rewrite H0. reflexivity.
    - unfold rating, calculateRating, calculatePercentiles.
      cbn [Rating.overall Percentiles.category]. fold norms. fold score.
      unfold getPercentileCategory.
      assert (Hpos : 0 < average norms).
      { unfold norms, getPerformanceNorms.
        destruct (String.eqb (PerformanceMetrics.testType metrics) "sit-ups");
          [reflexivity|].
        destruct (String.eqb (PerformanceMetrics.testType metrics) "push-ups");
          [reflexivity|].
        destruct (String.eqb (PerformanceMetrics.testType metrics)
                             "vertical-jump"); reflexivity. }
      destruct (Qle_bool (excellent norms) score) eqn:E1;
        [apply Qle_bool_iff in E1; lra|].
      destruct (Qle_bool (good norms) score) eqn:E2;
        [apply Qle_bool_iff in E2; lra|].
      destruct (Qle_bool (average norms) score) eqn:E3;
        [apply Qle_bool_iff in E3; lra|].
      reflexivity. }
  rewrite Hl. split; apply (Hlevel _).
Qed.

(** X21.  The benchmark of a performance does not depend on the profile:
    for every two profiles the benchmarking returns, and the percentiles,
    the rating, the user score and the recommendations are the same; only
    the age group and gender labels can differ.  Without a profile
    ([null]) the benchmarking throws a [TypeError]. *)
Theorem X21_benchmark_ignores_age_and_gender :
  forall (metrics : PerformanceMetrics.t) (p1 p2 : UserProfile),
    (exists b1 b2,
      performBenchmarking metrics (Some p1) = Return b1
      /\ performBenchmarking metrics (Some p2) = Return b2
      /\ Benchmarks.percentiles b1 = Benchmarks.percentiles b2
      /\ Benchmarks.rating b1 = Benchmarks.rating b2
      /\ Benchmarks.userScore b1 = Benchmarks.userScore b2
      /\ Benchmarks.recommendations b1 = Benchmarks.recommendations b2
      /\ Benchmarks.ageGroup b1 = determineAgeGroup (age p1)
      /\ Benchmarks.gender b1 = genderOrMale (gender p1))
    /\ exists msg, performBenchmarking metrics None = Throw (TypeError msg).
Proof.
  intros metrics p1 p2. split.
  - eexists. eexists. split; [reflexivity|]. split; [reflexivity|].
    repeat split.
  - eexists. reflexivity.
Qed.

(** X22.  The rating of a performance in a supported test kind.  The
    percentile lies between 0 and 100.  The rating is "excellent" exactly when the score reaches the
    excellent norm of the test kind, and then the percentile is 100 and the
    level "elite".  A score of 0 or below gives percentile 0, level
    "beginner" and the rating "needs-improvement".  The level is "beginner"
    exactly below percentile 50 and "elite" exactly from percentile 90. *)
Theorem X22_rating_of_a_score :
  forall (metrics : PerformanceMetrics.t) (userProfile : UserProfile),
    isSupported (PerformanceMetrics.testType metrics) = true ->
    let rating := calculateRating metrics userProfile in
    let score := PerformanceMetrics.performanceScore metrics in
    let norms :=
      getPerformanceNorms (PerformanceMetrics.testType metrics)
        (determineAgeGroup (age userProfile))
        (genderOrMale (gender userProfile)) in
    0 <= Rating.percentile rating <= 100
    /\ (Rating.overall rating = "excellent" <-> excellent norms <= score)
    /\ (Rating.overall rating = "excellent" ->
        Rating.percentile rating == 100 /\ Rating.level rating = "elite")
    /\ (score <= 0 ->
        Rating.percentile rating == 0
        /\ Rating.level rating = "beginner"
        /\ Rating.overall rating = "needs-improvement")
    /\ (Rating.level rating = "beginner" <-> Rating.percentile rating < 50)
    /\ (Rating.level rating = "elite" <-> 90 <= Rating.percentile rating).
Proof.
  intros metrics userProfile _. exact (rating_facts metrics userProfile).
Qed.

(** X23.  The recommendations of an analysis in a supported test kind
    whose benchmark comes from [performBenchmarking].  There are one or two of them.  The advice on
    fundamentals is given exactly below percentile 50, the advice on form
    exactly below quality 0.7, the advice on advanced training exactly from
    percentile 90; the first and the last never come together.  "Keep up
    the good work!" is the only recommendation exactly when none of the
    three applies. *)
Theorem X23_recommendations :
  forall (performanceMetrics : PerformanceMetrics.t)
         (userProfile : UserProfile) (benchmarking : Benchmarks.t),
    isSupported (PerformanceMetrics.testType performanceMetrics) = true ->
    performBenchmarking performanceMetrics (Some userProfile)
    = Return benchmarking ->
    let recommendations :=
      generateRecommendations performanceMetrics benchmarking in
    let percentile := Rating.percentile (Benchmarks.rating benchmarking) in
    let quality := PerformanceMetrics.movementQuality performanceMetrics in
    (1 <= List.length recommendations <= 2)%nat
    /\ (In "Focus on basic fitness fundamentals" recommendations
        <-> percentile < 50)
    /\ (In "Work on proper form and technique" recommendations
        <-> quality < 0.7)
    /\ (In "Consider advanced training programs" recommendations
        <-> 90 <= percentile)
    /\ (recommendations = ["Keep up the good work!"]
        <-> 50 <= percentile /\ percentile < 90 /\ 0.7 <= quality).
Proof.
  intros pm profile bm _ Hbm recs percentile quality.
  unfold performBenchmarking in Hbm. injection Hbm as <-.
  destruct (rating_facts pm profile) as (_ & _ & _ & _ & _ & Helite).
  cbv zeta in Helite.
  unfold recs, percentile, generateRecommendations.
  cbn [Benchmarks.rating]. fold quality.
  set (rating := calculateRating pm profile) in *.
  destruct (Qltb (Rating.percentile rating) 50) eqn:E50.
  - apply Qltb_lt in E50.
    assert (Hne : String.eqb (Rating.level rating) "elite" = false).
    { apply String.eqb_neq. intros H. apply Helite in H. lra. }
    rewrite Hne.
    destruct (Qltb quality 0.7) eqn:E7.
    + apply Qltb_lt in E7. cbn [app List.length In].
      split; [lia|]. split; [split; [intros _; exact E50|intros _; left; reflexivity]|].
      split; [split; [intros _; exact E7|intros _; right; left; reflexivity]|].
      split; [split; [intros [H|[H|[]]]; discriminate H|intros H; lra]|].
      split; [intros H; discriminate H|intros (H & _); lra].
    + apply Qltb_ge in E7. cbn [app List.length In].
      split; [lia|]. split; [split; [intros _; exact E50|intros _; left; reflexivity]|].
      split; [split; [intros [H|[]]; discriminate H|intros H; lra]|].
      split; [split; [intros [H|[]]; discriminate H|intros H; lra]|].
      split; [intros H; discriminate H|intros (H & _); lra].
  - apply Qltb_ge in E50.
    destruct (Qltb quality 0.7) eqn:E7;
      [apply Qltb_lt in E7|apply Qltb_ge in E7];
      (destruct (String.eqb (Rating.level rating) "elite") eqn:Ee;
       [apply String.eqb_eq in Ee; apply Helite in Ee
       |apply String.eqb_neq in Ee;
        assert (H90 : Rating.percentile rating < 90)
          by (apply Qnot_le_lt; intros H; apply Ee, Helite, H)]);
      cbn [app List.length In].
    + split; [lia|]. split; [split; [intros [H|[H|[]]]; discriminate H|intros H; lra]|].
      split; [split; [intros _; exact E7|intros _; left; reflexivity]|].
      split; [split; [intros _; exact Ee|intros _; right; left; reflexivity]|].
      split; [intros H; discriminate H|intros (_ & H & _); lra].
    + split; [lia|]. split; [split; [intros [H|[]]; discriminate H|intros H; lra]|].
      split; [split; [intros _; exact E7|intros _; left; reflexivity]|].
      split; [split; [intros [H|[]]; discriminate H|intros H; lra]|].
      split; [intros H; discriminate H|intros (_ & _ & H); lra].
    + split; [lia|]. split; [split; [intros [H|[]]; discriminate H|intros H; lra]|].
      split; [split; [intros [H|[]]; discriminate H|intros H; lra]|].
      split; [split; [intros _; exact Ee|intros _; left; reflexivity]|].
      split; [intros H; discriminate H|intros (_ & H & _); lra].
    + split; [lia|]. split; [split; [intros [H|[]]; discriminate H|intros H; lra]|].
      split; [split; [intros [H|[]]; discriminate H|intros H; lra]|].
      split; [split; [intros [H|[]]; discriminate H|intros H; lra]|].
      split; [intros _; repeat split; assumption|intros _; reflexivity].
Qed.

End Benchmarking.

Section PerformanceScore.
Import Js OfflineAnalysis Spec Examples.
Open Scope string_scope.

(** [Math.round] gives the nearest integer, a half rounded up. *)
Lemma Math_round_bounds v :
  v - 0.5 < Math_round v /\ Math_round v <= v + 0.5.
Proof.
  unfold Math_round. split.
  - pose proof (Qlt_floor (v + 0.5)) as H.
    rewrite inject_Z_plus in H. change (inject_Z 1) with 1 in H. lra.
  - apply Qfloor_le.
Qed.

Lemma Math_round_nonneg v : 0 <= v -> 0 <= Math_round v.
Proof.
  intros Hv. unfold Math_round.
  change 0 with (inject_Z 0). rewrite <- Zle_Qle.
  change 0%Z with (Qfloor 0). apply Qfloor_resp_le. lra.
Qed.

Lemma Math_round_le_integer v n :
  v <= inject_Z n -> Math_round v <= inject_Z n.
Proof.
  intros Hv. unfold Math_round. rewrite <- Zle_Qle.
  assert (H : (Qfloor (v + 0.5) < n + 1)%Z).
  { apply Z.le_lt_trans with (Qfloor (inject_Z n + 0.5)).
    - apply Qfloor_resp_le. lra.
    - rewrite Zlt_Qlt. apply Qle_lt_trans with (inject_Z n + 0.5).
      + apply Qfloor_le.
      + rewrite inject_Z_plus. change (inject_Z 1) with 1. lra. }
  lia.
Qed.

Lemma tenth_bounds raw :
  let score := Math_round (raw * 10) / 10 in
  raw - 0.05 < score /\ score <= raw + 0.05.
Proof.
  intros score. destruct (Math_round_bounds (raw * 10)) as [Hlo Hhi].
  assert (Heq : score == Math_round (raw * 10) * (1 # 10))
    by (unfold score; field).
  rewrite Heq. split; lra.
Qed.

(** X24.  The performance score, for a quality between 0 and 1 and a
    repetition count that an array of poses can give (below 2^32).  It is
    a whole number of tenths, it is not negative, and it differs by less
    than a tenth from the raw score: repetitions times quality for sit-ups
    and push-ups, quality times 100 for the vertical jump, quality times 50
    for every other kind.  It is at most the number of repetitions for
    sit-ups and push-ups, at most 100 for the vertical jump and at most 50
    otherwise. *)
Theorem X24_performance_score_rounding :
  forall (movementAnalysis : MovementAnalysis.t) (testType : string),
    let quality :=
      MovementQuality.overallScore
        (MovementAnalysis.movementQuality movementAnalysis) in
    let count := natQ (MovementAnalysis.repetitionCount movementAnalysis) in
    let score := calculatePerformanceScore movementAnalysis testType in
    0 <= quality <= 1 ->
    count < 4294967296 ->
    (exists n : Z, score == inject_Z n / 10)
    /\ 0 <= score
    /\ (testType = "sit-ups" \/ testType = "push-ups" ->
        count * quality - 0.1 < score < count * quality + 0.1
        /\ score <= count)
    /\ (testType = "vertical-jump" ->
        quality * 100 - 0.1 < score < quality * 100 + 0.1
        /\ score <= 100)
    /\ (testType <> "sit-ups" -> testType <> "push-ups" ->
        testType <> "vertical-jump" ->
        quality * 50 - 0.1 < score < quality * 50 + 0.1
        /\ score <= 50).
Proof.
  intros movementAnalysis testType quality count score [Hq0 Hq1] _.
  assert (Hcount : 0 <= count).
  { unfold count, natQ. change 0 with (inject_Z 0). rewrite <- Zle_Qle. lia. }
  assert (Htenths : forall raw, Math_round (raw * 10) / 10
                                == Math_round (raw * 10) * (1 # 10)).
  { intros raw. field. }
  assert (Hupper : forall raw (n : Z),
             raw <= inject_Z n ->
             Math_round (raw * 10) / 10 <= inject_Z n).
  { intros raw n Hraw. rewrite Htenths.
    assert (Hle : raw * 10 <= inject_Z (n * 10)).
    { rewrite inject_Z_mult. change (inject_Z 10) with 10. lra. }
    apply Math_round_le_integer in Hle.
    rewrite inject_Z_mult in Hle. change (inject_Z 10) with 10 in Hle. lra. }
  assert (Hclose : forall raw,
             raw - 0.1 < Math_round (raw * 10) / 10
             /\ Math_round (raw * 10) / 10 < raw + 0.1).
  { intros raw. destruct (tenth_bounds raw) as [Hlo Hhi]. cbv zeta in Hlo, Hhi.
    split; lra. }
  assert (Hproduct : 0 <= count * quality /\ count * quality <= count).
  { split; [apply Qmult_le_0_compat; assumption|].
    assert (0 <= count * (1 - quality)) by (apply Qmult_le_0_compat; lra).
    lra. }
  split.
  { eexists. unfold score, calculatePerformanceScore, Math_round. reflexivity. }
  split.
  { unfold score, calculatePerformanceScore. fold quality. fold count.
    match goal with |- 0 <= Math_round (?raw * 10) / 10 =>
      assert (Hraw : 0 <= raw * 10);
      [|pose proof (Math_round_nonneg _ Hraw); rewrite Htenths; lra]
    end.
    destruct (String.eqb testType "sit-ups" || String.eqb testType "push-ups")%bool;
      [lra|].
    destruct (String.eqb testType "vertical-jump"); lra. }
  split.
  { intros Hkind.
    assert (E : (String.eqb testType "sit-ups"
                 || String.eqb testType "push-ups")%bool = true)
      by (destruct Hkind as [-> | ->]; reflexivity).
    assert (Hs : score = Math_round (count * quality * 10) / 10).
    { unfold score, calculatePerformanceScore. rewrite E. reflexivity. }
    rewrite Hs. split; [apply Hclose|].
    apply (Hupper (count * quality)
                  (Z.of_nat (MovementAnalysis.repetitionCount movementAnalysis))).
    exact (proj2 Hproduct). }
  split.
  { intros ->.
    assert (Hs : score = Math_round (quality * 100 * 10) / 10) by reflexivity.
    rewrite Hs. split; [apply Hclose|].
    apply (Hupper (quality * 100) 100%Z). change (inject_Z 100) with 100. lra. }
  intros Hsit Hpush Hjump.
  apply String.eqb_neq in Hsit, Hpush, Hjump.
  assert (Hs : score = Math_round (quality * 50 * 10) / 10).
  { unfold score, calculatePerformanceScore. rewrite Hsit, Hpush, Hjump.
    reflexivity. }
  rewrite Hs. split; [apply Hclose|].
  apply (Hupper (quality * 50) 50%Z). change (inject_Z 50) with 50. lra.
Qed.

End PerformanceScore.

Section TimingAnalysisFacts.
Import Js OfflineAnalysis Spec Examples.
Open Scope string_scope.




End TimingAnalysisFacts.

Section Peaks.
Import Js CheatDetection Spec Examples.
Open Scope string_scope.

(** The peaks found from index [i] on are the strict local maxima above
    the threshold, at their indices. *)
Lemma findPeaksFrom_spec threshold (values : list Q) :
  forall i j v,
    In (mkPeak j v) (findPeaksFrom i values threshold)
    <-> exists k u w,
          j = (i + k)%nat
          /\ nth_error values k = Some u
          /\ nth_error values (S k) = Some v
          /\ nth_error values (S (S k)) = Some w
          /\ u < v /\ w < v /\ threshold < v.
Proof.
  induction values as [|u values IH]; intros i j v.
  - cbn [findPeaksFrom In]. split; [intros []|].
    intros (k & u & w & _ & Hu & _). destruct k; discriminate Hu.
  - destruct values as [|v' [|w' rest]].
    + cbn [findPeaksFrom In]. split; [intros []|].
      intros (k & u0 & w & _ & _ & Hv & _).
      destruct k as [|[|k]]; discriminate Hv.
    + cbn [findPeaksFrom In]. split; [intros []|].
      intros (k & u0 & w & _ & _ & _ & Hw & _).
      destruct k as [|[|k]]; discriminate Hw.
    + assert (Hrest : In (mkPeak j v) (findPeaksFrom (S i) (v' :: w' :: rest)
                                                     threshold)
                      <-> exists k u0 w,
                            j = (i + S k)%nat
                            /\ nth_error (u :: v' :: w' :: rest) (S k)
                               = Some u0
                            /\ nth_error (u :: v' :: w' :: rest) (S (S k))
                               = Some v
                            /\ nth_error (u :: v' :: w' :: rest) (S (S (S k)))
                               = Some w
                            /\ u0 < v /\ w < v /\ threshold < v).
      { rewrite IH. split; intros (k & u0 & w & Hj & H);
          exists k, u0, w; (split; [lia|exact H]). }
      assert (Hhead : (Qgtb v' u && Qgtb v' w' && Qgtb v' threshold = true)%bool
                      <-> u < v' /\ w' < v' /\ threshold < v').
      { rewrite !Bool.andb_true_iff. split.
        - intros [[H1 H2] H3]. apply Qgtb_gt in H1, H2, H3. tauto.
        - intros (H1 & H2 & H3). repeat split; apply Qgtb_gt; assumption. }
      change (findPeaksFrom i (u :: v' :: w' :: rest) threshold)
        with (if (Qgtb v' u && Qgtb v' w' && Qgtb v' threshold)%bool
              then mkPeak i v' :: findPeaksFrom (S i) (v' :: w' :: rest)
                                                threshold
              else findPeaksFrom (S i) (v' :: w' :: rest) threshold).
      split.
      * intros Hin.
        assert (Hcases : (mkPeak i v' = mkPeak j v
                          /\ (Qgtb v' u && Qgtb v' w' && Qgtb v' threshold
                              = true)%bool)
                         \/ In (mkPeak j v)
                               (findPeaksFrom (S i) (v' :: w' :: rest)
                                              threshold)).
        { destruct (Qgtb v' u && Qgtb v' w' && Qgtb v' threshold)%bool;
            [destruct Hin as [Heq|Hin]; [left; split; [exact Heq|reflexivity]
                                        |right; exact Hin]
            |right; exact Hin]. }
        destruct Hcases as [[Heq Hb]|Hin'].
        -- injection Heq as <- <-. apply Hhead in Hb.
           exists 0%nat, u, w'. split; [lia|].
           split; [reflexivity|]. split; [reflexivity|].
           split; [reflexivity|exact Hb].
        -- apply Hrest in Hin'. destruct Hin' as (k & u0 & w & H).
           exists (S k), u0, w. exact H.
      * intros (k & u0 & w & Hj & Hu & Hv & Hw & Hord).
        destruct k as [|k].
        -- cbn [nth_error] in Hu, Hv, Hw.
           injection Hu as <-. injection Hv as <-. injection Hw as <-.
           apply Hhead in Hord. rewrite Hord.
           replace j with i by lia. left. reflexivity.
        -- assert (Hin : In (mkPeak j v)
                            (findPeaksFrom (S i) (v' :: w' :: rest) threshold)).
           { apply Hrest. exists k, u0, w. repeat split; tauto. }
           destruct (Qgtb v' u && Qgtb v' w' && Qgtb v' threshold)%bool;
             [right; exact Hin|exact Hin].
Qed.

(** Two neighbours cannot both be strict local maxima: there are at most
    half as many peaks as values after the first. *)
Lemma findPeaksFrom_length threshold :
  forall n (values : list Q) i,
    (List.length values <= n)%nat ->
    (2 * List.length (findPeaksFrom i values threshold) + 1
     <= Nat.max 1 (List.length values))%nat.
Proof.
  induction n as [|n IH]; intros values i Hn.
  - destruct values; [cbn; lia|cbn in Hn; lia].
  - destruct values as [|u [|v [|w rest]]]; try (cbn; lia).
    change (findPeaksFrom i (u :: v :: w :: rest) threshold)
      with (if (Qgtb v u && Qgtb v w && Qgtb v threshold)%bool
            then mkPeak i v :: findPeaksFrom (S i) (v :: w :: rest) threshold
            else findPeaksFrom (S i) (v :: w :: rest) threshold).
    destruct (Qgtb v u && Qgtb v w && Qgtb v threshold)%bool eqn:Hb.
    + (* [v] is a peak, so [w] is none *)
      apply Bool.andb_true_iff in Hb. destruct Hb as [Hb _].
      apply Bool.andb_true_iff in Hb. destruct Hb as [_ Hvw].
      apply Qgtb_gt in Hvw.
      assert (Hnext : findPeaksFrom (S i) (v :: w :: rest) threshold
                      = findPeaksFrom (S (S i)) (w :: rest) threshold).
      { destruct rest as [|x rest]; [reflexivity|].
        change (findPeaksFrom (S i) (v :: w :: x :: rest) threshold)
          with (if (Qgtb w v && Qgtb w x && Qgtb w threshold)%bool
                then mkPeak (S i) w
                       :: findPeaksFrom (S (S i)) (w :: x :: rest) threshold
                else findPeaksFrom (S (S i)) (w :: x :: rest) threshold).
        assert (Hwv : Qgtb w v = false) by (apply Qgtb_le; lra).
        rewrite Hwv. reflexivity. }
      rewrite Hnext. cbn [List.length] in Hn |- *.
      pose proof (IH (w :: rest) (S (S i))) as H. cbn [List.length] in H.
      specialize (H ltac:(lia)). lia.
    + cbn [List.length] in Hn |- *.
      pose proof (IH (v :: w :: rest) (S i)) as H. cbn [List.length] in H.
      specialize (H ltac:(lia)). lia.
Qed.

(** X26.  The peaks of the motion values.  [findPeaks] returns exactly the
    values that exceed both neighbours and the threshold 0.3, each with its
    index; the first and the last value are never peaks.  Two neighbours
    are never both peaks, so [n] values have at most [(n - 1) / 2] peaks,
    and fewer than nine values never show a repetitive pattern. *)
Theorem X26_peaks_are_the_local_maxima :
  forall values : list Q,
    (forall j v,
       In (mkPeak j v) (findPeaks values)
       <-> exists u w,
             (1 <= j)%nat
             /\ nth_error values (j - 1) = Some u
             /\ nth_error values j = Some v
             /\ nth_error values (j + 1) = Some w
             /\ u < v /\ w < v /\ 0.3 < v)
    /\ (2 * List.length (findPeaks values) + 1
        <= Nat.max 1 (List.length values))%nat
    /\ ((List.length values < 9)%nat ->
        hasRepetitivePattern values = Return false).
Proof.
  intros values.
  assert (Hlen : (2 * List.length (findPeaks values) + 1
                  <= Nat.max 1 (List.length values))%nat)
    by (apply (findPeaksFrom_length 0.3 (List.length values)); lia).
  split; [|split; [exact Hlen|]].
  - intros j v. unfold findPeaks. rewrite findPeaksFrom_spec. split.
    + intros (k & u & w & Hj & Hu & Hv & Hw & Hord). subst j.
      exists u, w. split; [lia|].
      replace (1 + k - 1)%nat with k by lia.
      replace (1 + k + 1)%nat with (S (S k)) by lia.
      change (1 + k)%nat with (S k). tauto.
    + intros (u & w & Hj & Hu & Hv & Hw & Hord).
      exists (j - 1)%nat, u, w. split; [lia|]. split; [exact Hu|].
      replace (S (j - 1)) with j by lia.
      replace (S j) with (j + 1)%nat by lia. tauto.
  - intros Hshort. unfold hasRepetitivePattern.
    assert (E : Nat.ltb 3 (List.length (findPeaks values)) = false)
      by (apply Nat.ltb_ge; lia).
    rewrite E. reflexivity.
Qed.

End Peaks.

Section Completion.
Import Js OfflineAnalysis Spec SpecFrames SpecRun Examples.
Open Scope string_scope.
Open Scope outcome_scope.

Variable JSON_stringify : option UserProfile -> string.
Variable poseSource : string -> Outcome (list PoseAnalysis).

Local Notation "'runOffline'" := (analyzeVideoOffline JSON_stringify poseSource).
Local Notation "'freshOffline'" := (analyzeFresh poseSource).
Local Notation "'keyOf'" := (cacheKey JSON_stringify).

(** The analysis after the cache lookup, stage by stage: the first stage
    that throws decides the error. *)
Lemma fresh_outcome videoUri testType userProfile key s1 :
  fst (freshOffline videoUri testType userProfile key s1)
  = (if isSupported testType then
       poseData <~ poseSource videoUri ;;
       ma <~ analyzeMovement poseData testType ;;
       bm <~ performBenchmarking (calculatePerformance ma testType)
                                 userProfile ;;
       let pm := calculatePerformance ma testType in
       let w := world s1 in
       Return (Completed
                 (Results.mk testType pm ma failedOpen bm
                    (calculateConfidence pm failedOpen)
                    (generateRecommendations pm bm)
                    (clockAt w (clockPos w))
                    (DeviceInfo.mk "mobile" (clockAt w (S (clockPos w)))
                                   "smartphone" "1.0.0")))
     else Throw (Error ("Unsupported test type: " ++ testType))).
Proof.
  unfold analyzeFresh, bind, liftO, liftWorld, getService, putService, ret,
    throw.
  destruct (isSupported testType); [|reflexivity].
  destruct (poseSource videoUri) as [poseData|]; [|reflexivity].
  cbn [bindO].
  destruct (analyzeMovement poseData testType) as [ma|]; [|reflexivity].
  cbn [bindO world service].
  rewrite detectCheatAttempts_result.
  cbn [world service].
  destruct (performBenchmarking (calculatePerformance ma testType) userProfile)
    as [bm|]; [|reflexivity].
  reflexivity.
Qed.

Lemma run_outcome videoUri testType userProfile s :
  mapGet (analysisCache (service s)) (keyOf videoUri testType userProfile)
  = None ->
  fst (runOffline videoUri testType userProfile s)
  = match fst (freshOffline videoUri testType userProfile
                 (keyOf videoUri testType userProfile) (initialised s)) with
    | Return out => Return out
    | Throw e =>
        Return (Failed (message e) (generateFallbackResults videoUri testType))
    end.
Proof.
  intros Hmiss. unfold analyzeVideoOffline, tryCatch.
  rewrite try_from_initialised, Hmiss.
  destruct (freshOffline videoUri testType userProfile
              (keyOf videoUri testType userProfile) (initialised s))
    as [[out|e] s']; reflexivity.
Qed.

(** X27.  When an uncached run completes.  It completes exactly when the
    test kind is supported, the poses are obtained, the movement analysis
    returns and a profile is given; the cheat detection never stops it.
    Otherwise the output is the error object with the message of the first
    stage that threw: the pose source, the movement analysis, or, for the
    profile [null], the read of its [age]. *)
Theorem X27_when_a_run_completes :
  forall (videoUri testType : string) (userProfile : option UserProfile)
         (s : St),
    mapGet (analysisCache (service s)) (keyOf videoUri testType userProfile)
    = None ->
    let out := fst (runOffline videoUri testType userProfile s) in
    let fallback := generateFallbackResults videoUri testType in
    ((exists results, out = Return (Completed results))
     <-> isSupported testType = true
         /\ exists poseData ma profile,
              poseSource videoUri = Return poseData
              /\ analyzeMovement poseData testType = Return ma
              /\ userProfile = Some profile)
    /\ (forall e,
          isSupported testType = true -> poseSource videoUri = Throw e ->
          out = Return (Failed (message e) fallback))
    /\ (forall poseData e,
          isSupported testType = true ->
          poseSource videoUri = Return poseData ->
          analyzeMovement poseData testType = Throw e ->
          out = Return (Failed (message e) fallback))
    /\ (forall poseData ma,
          isSupported testType = true ->
          poseSource videoUri = Return poseData ->
          analyzeMovement poseData testType = Return ma ->
          userProfile = None ->
          out = Return (Failed "Cannot read properties of null (reading 'age')"
                               fallback)).
Proof.
  intros videoUri testType userProfile s.
  intros Hmiss out fallback. unfold out, fallback.
  rewrite (run_outcome _ _ _ _ Hmiss), fresh_outcome.
  split; [|split; [|split]].
  - split.
    + intros (results & H).
      destruct (isSupported testType); [|discriminate H].
      split; [reflexivity|].
      destruct (poseSource videoUri) as [poseData|] eqn:Hpose;
        [|discriminate H].
      cbn [bindO] in H.
      destruct (analyzeMovement poseData testType) as [ma|] eqn:Hma;
        [|discriminate H].
      cbn [bindO] in H.
      destruct userProfile as [profile|]; [|discriminate H].
      exists poseData, ma, profile.
      split; [reflexivity|]. split; [exact Hma|reflexivity].
    + intros (Hsup & poseData & ma & profile & Hpose & Hma & ->).
      rewrite Hsup, Hpose. cbn [bindO]. rewrite Hma. cbn [bindO].
      eexists. reflexivity.
  - intros e Hsup Hpose. rewrite Hsup, Hpose. reflexivity.
  - intros poseData e Hsup Hpose Hma. rewrite Hsup, Hpose. cbn [bindO].
    rewrite Hma. reflexivity.
  - intros poseData ma Hsup Hpose Hma ->. rewrite Hsup, Hpose. cbn [bindO].
    rewrite Hma. reflexivity.
Qed.

End Completion.

Section FurtherExamples.
Import Js CheatDetection OfflineAnalysis Spec SpecFrames SpecRun Examples CacheExamples.
Open Scope string_scope.

Local Notation "'runExample'" := (analyzeVideoOffline renderProfile stillPoses).

Lemma X12_witness :
  exists frames w',
    extractFramesFromVideo "clip.mp4" (worldAt 1000) = (Return frames, w')
    /\ (exists f,
          checkFrameRateConsistency frames = Return f
          /\ FrameRateConsistency.isConsistent f = true)
    /\ exists b,
         checkBrightnessConsistency frames = Return b
         /\ BrightnessConsistency.isConsistent b = true.
Proof.
  destruct (extractFramesFromVideo_spec "clip.mp4" (worldAt 1000))
    as (frames & Hrun & _).
  exists frames, (advanceRandom (worldAt 1000) 350).
  split; [exact Hrun|].
  destruct (X12_extracted_frames_pass_two_checks
              "clip.mp4" (worldAt 1000) _ frames Hrun) as [Hrate Hbright].
  split.
  - destruct Hrate as (f & Hf & _ & Hc). exists f.
    split; [exact Hf|exact Hc].
  - destruct (Hbright (worldAt_range 1000)) as (b & Hb & Hc). exists b.
    split; [exact Hb|exact Hc].
Defined.

Lemma X18_witness :
  mapGet (analysisCache (service (freshAt 1000)))
         (cacheKey renderProfile "clip.mp4" "vertical-jump" emptyProfile)
  = None
  /\ exists results s',
       runExample "clip.mp4" "vertical-jump" emptyProfile (freshAt 1000)
       = (Return (Completed results), s')
       /\ Results.cheatAnalysis results = failedOpen
       /\ Results.confidence results == 0.9
       /\ Results.timestamp results = 1000%Z
       /\ randomPos (world s') = 350%nat.
Proof.
  split; [reflexivity|].
  pose proof first_run_timestamp as Ht.
  destruct (runExample "clip.mp4" "vertical-jump" emptyProfile (freshAt 1000))
    as [[[results|m fb]|e] s1] eqn:Hrun; try discriminate Ht.
  exists results, s1. split; [reflexivity|].
  destruct (X18_completed_uncached_run renderProfile stillPoses
              "clip.mp4" "vertical-jump" emptyProfile (freshAt 1000) s1
              results eq_refl Hrun)
    as (Hcheat & _ & _ & _ & _ & Hconf & Hstamp & _ & Hrandom & _).
  split; [exact Hcheat|]. split; [exact (Hconf eq_refl)|].
  split; [exact Hstamp|exact Hrandom].
Defined.

Lemma X19_witness :
  exists out s',
    runExample "clip.mp4" "yoga" emptyProfile (freshAt 1000)
    = (Return out, s')
    /\ isInitialized (service s') = true
    /\ analysisCache (service s') = [].
Proof.
  destruct (runExample "clip.mp4" "yoga" emptyProfile (freshAt 1000))
    as [[[results|m fb]|e] s1] eqn:Hrun.
  - exfalso.
    pose proof (f_equal (fun r => completedResults (fst r)) Hrun) as H.
    discriminate H.
  - exists (Failed m fb), s1. split; [reflexivity|].
    destruct (X19_run_effects_on_service renderProfile stillPoses
                "clip.mp4" "yoga" emptyProfile (freshAt 1000) s1 _ Hrun)
      as (Hinit & _ & Hfailed & _).
    split; [exact Hinit|exact (Hfailed m fb eq_refl)].
  - exfalso.
    pose proof (f_equal (fun r => match fst r with
                                  | Throw _ => true
                                  | Return _ => false
                                  end) Hrun) as H.
    discriminate H.
Defined.

Lemma X20_witness :
  NoDup (map fst twoEntries)
  /\ mapGet twoEntries "c.mp4-vertical-jump-{}" = None
  /\ (List.length twoEntries <= maxCacheSize)%nat
  /\ mapGet (setCache "c.mp4-vertical-jump-{}" (resultsStampedAt 3000)
                      twoEntries)
            "c.mp4-vertical-jump-{}"
     = Some (resultsStampedAt 3000)
  /\ List.length (setCache "c.mp4-vertical-jump-{}" (resultsStampedAt 3000)
                           twoEntries) = 3%nat.
Proof.
  assert (Hnd : NoDup (map fst twoEntries)).
  { repeat constructor; cbn; intros H;
      repeat (destruct H as [H|H]; [discriminate H|]); exact H. }
  assert (Hlen : (List.length twoEntries <= maxCacheSize)%nat)
    by (unfold maxCacheSize; cbn; lia).
  split; [exact Hnd|]. split; [reflexivity|]. split; [exact Hlen|].
  destruct (X20_setCache_evicts_oldest "c.mp4-vertical-jump-{}"
              (resultsStampedAt 3000) twoEntries Hnd eq_refl Hlen)
    as (Hget & _ & Hgrow & _).
  split; [exact Hget|].
  apply Hgrow. unfold maxCacheSize. cbn. lia.
Defined.

Lemma X23_witness :
  isSupported (PerformanceMetrics.testType (metricsWithQuality 0.9)) = true
  /\ exists benchmarking,
    performBenchmarking (metricsWithQuality 0.9) (Some girlOfFourteen)
    = Return benchmarking
    /\ (1 <= List.length (generateRecommendations (metricsWithQuality 0.9)
                                                  benchmarking) <= 2)%nat.
Proof.
  split; [reflexivity|].
  destruct (performBenchmarking (metricsWithQuality 0.9) (Some girlOfFourteen))
    as [benchmarking|] eqn:Hbm; [|discriminate Hbm].
  exists benchmarking. split; [reflexivity|].
  pose proof (X23_recommendations (metricsWithQuality 0.9) girlOfFourteen
                benchmarking eq_refl Hbm) as H.
  cbv zeta in H. destruct H as [H _]. exact H.
Defined.

Lemma X22_witness :
  isSupported (PerformanceMetrics.testType (metricsWithQuality 0.9)) = true
  /\ 60 <= PerformanceMetrics.performanceScore (metricsWithQuality 0.9)
  /\ Rating.overall (calculateRating (metricsWithQuality 0.9) girlOfFourteen)
     = "excellent"
  /\ Rating.percentile (calculateRating (metricsWithQuality 0.9) girlOfFourteen)
     == 100
  /\ Rating.level (calculateRating (metricsWithQuality 0.9) girlOfFourteen)
     = "elite".
Proof.
  assert (Hscore : 60 <= PerformanceMetrics.performanceScore
                           (metricsWithQuality 0.9))
    by (apply Qle_bool_iff; reflexivity).
  split; [reflexivity|]. split; [exact Hscore|].
  destruct (X22_rating_of_a_score (metricsWithQuality 0.9) girlOfFourteen
              eq_refl)
    as (_ & Hexcellent & Hthen & _).
  assert (Hrating : Rating.overall (calculateRating (metricsWithQuality 0.9)
                                                    girlOfFourteen)
                    = "excellent") by (apply Hexcellent; exact Hscore).
  split; [exact Hrating|]. exact (Hthen Hrating).
Defined.

Lemma X24_witness :
  0 <= 0.9 <= 1
  /\ natQ 0 < 4294967296
  /\ calculatePerformanceScore
       (Results.movementAnalysis (resultsStampedAt 1000)) "vertical-jump"
     <= 100.
Proof.
  assert (Hq : 0 <= 0.9 <= 1) by (split; discriminate).
  assert (Hcount : natQ 0 < 4294967296) by reflexivity.
  split; [exact Hq|]. split; [exact Hcount|].
  destruct (X24_performance_score_rounding
              (Results.movementAnalysis (resultsStampedAt 1000))
              "vertical-jump" Hq Hcount) as (_ & _ & _ & Hjump & _).
  exact (proj2 (Hjump eq_refl)).
Defined.


Lemma X26_witness :
  (List.length [10; 50; 10] < 9)%nat
  /\ In (mkPeak 1 50) (findPeaks [10; 50; 10])
  /\ hasRepetitivePattern [10; 50; 10] = Return false.
Proof.
  assert (Hlen : (List.length [10; 50; 10] < 9)%nat) by (cbn; lia).
  split; [exact Hlen|].
  destruct (X26_peaks_are_the_local_maxima [10; 50; 10])
    as (Hpeaks & _ & Hshort).
  split; [|exact (Hshort Hlen)].
  apply Hpeaks. exists 10, 10. split; [lia|].
  split; [reflexivity|]. split; [reflexivity|]. split; [reflexivity|].
  split; [reflexivity|]. split; reflexivity.
Defined.

Lemma X27_witness :
  mapGet (analysisCache (service (freshAt 1000)))
         (cacheKey renderProfile "clip.mp4" "shuttle-run" emptyProfile)
  = None
  /\ fst (runExample "clip.mp4" "shuttle-run" emptyProfile (freshAt 1000))
     = Return (Failed "this.identifyShuttlePhases is not a function"
                      (generateFallbackResults "clip.mp4" "shuttle-run")).
Proof.
  split; [reflexivity|].
  destruct (X27_when_a_run_completes renderProfile stillPoses
              "clip.mp4" "shuttle-run" emptyProfile (freshAt 1000) eq_refl)
    as (_ & _ & Hmovement & _).
  exact (Hmovement (stillFor 2000)
           (TypeError "this.identifyShuttlePhases is not a function")
           eq_refl eq_refl eq_refl).
Defined.

End FurtherExamples.
